(** * Orchestration core of the drug-repurposing multi-agent system

    A shallow embedding of [orchestration/master_agent.py],
    [orchestration/graph.py], [orchestration/state.py],
    [agents/base_agent.py] and [schemas/models.py], followed by the
    properties of the entity/intent extractor, the task planner, the worker
    dispatcher, the response synthesizer and the workflow controller.

    Conventions of the embedding.
    - A Python [str] is a [string]; a character is a code point in
      U+0000..U+00FF, and the character tables below ([lower_char],
      [isspace], [is_word]) are CPython's on that range.
    - A raised exception is its message [str(e)] together with what the
      handlers of the code look at: whether it is an instance of
      [Exception], which every [except Exception] catches, or of
      [BaseException] only (KeyboardInterrupt, SystemExit), which none
      catches.  Code that may raise returns [result A = exn + A].
    - A value of type [Any] (the cells of a table, the entries of a worker's
      [data], what [_process_query] returns) is a term of [Any.t]: [None], a
      bool, an int, a float, a str, a list, a dict with string keys, or an
      object of another class.  The messages of the interpreter are those of
      CPython 3.11.
    - Values drawn from the interpreter and its libraries at run time
      (uuid4, the clock, the iteration order of a [set], the text written by
      [json.dumps], what pydantic does with an argument of another type than
      declared) are read from a [PyRuntime] record; the worker
      implementations and the text-generation client are fields of the
      orchestrator and of the master agent, as in the code. *)

From Stdlib Require Import Bool Arith List String Ascii NArith ZArith Lia.
From Stdlib Require Import Sorted Permutation DecimalString.
Import ListNotations.
Open Scope list_scope.
Open Scope string_scope.

Set Implicit Arguments.

(** ** Python string primitives *)
Module Py.

Definition code (c : ascii) : N := N_of_ascii c.

Definition between (lo hi : N) (c : ascii) : bool :=
  (lo <=? code c)%N && (code c <=? hi)%N.

(** [str.lower] on one character. *)
Definition lower_char (c : ascii) : ascii :=
  if between 65 90 c || between 192 214 c || between 216 222 c
  then ascii_of_N (code c + 32)
  else c.

Fixpoint lower (s : string) : string :=
  match s with
  | EmptyString => EmptyString
  | String c s' => String (lower_char c) (lower s')
  end.

(** [str.isspace] on one character; also the class [\s] of [re]. *)
Definition isspace (c : ascii) : bool :=
  between 9 13 c || between 28 32 c || (code c =? 133)%N || (code c =? 160)%N.

(** The class [\w] of [re] on [str] patterns. *)
Definition is_word (c : ascii) : bool :=
  between 48 57 c || between 65 90 c || (code c =? 95)%N || between 97 122 c
  || (code c =? 170)%N || between 178 179 c || (code c =? 181)%N
  || between 185 186 c || between 188 190 c || between 192 214 c
  || between 216 246 c || between 248 255 c.

(** [s.startswith(p)]. *)
Fixpoint startswith (p s : string) : bool :=
  match p, s with
  | EmptyString, _ => true
  | String a p', String b s' => Ascii.eqb a b && startswith p' s'
  | String _ _, EmptyString => false
  end.

(** [needle in hay]. *)
Fixpoint contains (needle hay : string) : bool :=
  startswith needle hay ||
  match hay with
  | EmptyString => false
  | String _ hay' => contains needle hay'
  end.

Fixpoint rev_onto (s acc : string) : string :=
  match s with
  | EmptyString => acc
  | String c s' => rev_onto s' (String c acc)
  end.

Definition rev (s : string) : string := rev_onto s EmptyString.

Fixpoint lstrip (s : string) : string :=
  match s with
  | EmptyString => EmptyString
  | String c s' => if isspace c then lstrip s' else s
  end.

Definition rstrip (s : string) : string := rev (lstrip (rev s)).

(** [s.strip()]. *)
Definition strip (s : string) : string := rstrip (lstrip s).

(** [s.split(sep)] for a non-empty [sep]: [skip] counts the characters of
    a separator occurrence still to be passed over, [cur] is the current
    piece, reversed. *)
Fixpoint split_go (sep : string) (skip : nat) (cur : string) (s : string)
  : list string :=
  match s with
  | EmptyString => [rev cur]
  | String c s' =>
      match skip with
      | S k => split_go sep k cur s'
      | O =>
          if startswith sep s
          then rev cur :: split_go sep (String.length sep - 1) EmptyString s'
          else split_go sep 0 (String c cur) s'
      end
  end.

Definition split (sep s : string) : list string :=
  split_go sep 0 EmptyString s.

(** [sep.join(parts)]. *)
Definition join (sep : string) (parts : list string) : string :=
  String.concat sep parts.

(** [s.replace(a, b)] for one-character [a] and [b]. *)
Fixpoint replace_char (a b : ascii) (s : string) : string :=
  match s with
  | EmptyString => EmptyString
  | String c s' =>
      String (if Ascii.eqb c a then b else c) (replace_char a b s')
  end.

Definition is_upper (c : ascii) : bool := between 65 90 c.
Definition is_lower (c : ascii) : bool := between 97 122 c.
Definition upper_char (c : ascii) : ascii :=
  if is_lower c then ascii_of_N (code c - 32) else c.

(** [s.title()], on ASCII text: it is only applied to the values of
    [AgentType].  [prev_cased] tells whether the previous character was a
    letter. *)
Fixpoint title_go (prev_cased : bool) (s : string) : string :=
  match s with
  | EmptyString => EmptyString
  | String c s' =>
      let cased := is_upper c || is_lower c in
      String (if cased
              then if prev_cased then lower_char c else upper_char c
              else c)
             (title_go cased s')
  end.

Definition title (s : string) : string := title_go false s.

(** [str(n)] for a non-negative [int]. *)
Definition str_of_nat (n : nat) : string :=
  NilEmpty.string_of_uint (Nat.to_uint n).

(** [s[:n]]. *)
Fixpoint take (n : nat) (s : string) : string :=
  match n, s with
  | S k, String c s' => String c (take k s')
  | _, _ => EmptyString
  end.

(** Truthiness of an optional string: [None] and the empty string are
    falsy. *)
Definition truthy (o : option string) : bool :=
  match o with
  | Some (String _ _) => true
  | _ => false
  end.

(** [a or b] on optional strings, with a final default. *)
Definition or_else (o : option string) (d : string) : string :=
  match o with
  | Some (String c s) => String c s
  | _ => d
  end.

End Py.

(** ** Regular expressions, as far as the patterns of the master agent go *)
Module Re.

(** Abstract syntax of a compiled pattern.  [Class p] consumes one
    character satisfying [p] (a literal, a range such as [[1-4]], or
    [\s]); [WordB] is the assertion [\b]; [Star] is the greedy [*]. *)
Inductive regex : Type :=
| Eps
| Class (p : ascii -> bool)
| WordB
| Cat (r1 r2 : regex)
| Alt (r1 r2 : regex)
| Star (r : regex).

Definition word_opt (o : option ascii) : bool :=
  match o with
  | Some c => Py.is_word c
  | None => false
  end.

Definition head (s : string) : option ascii :=
  match s with
  | EmptyString => None
  | String c _ => Some c
  end.

(** [\b] holds between [prev] and the head of [s] when exactly one of the
    two is a word character; the ends of the text count as non-word. *)
Definition at_boundary (prev : option ascii) (s : string) : bool :=
  xorb (word_opt prev) (word_opt (head s)).

(** Backtracking matcher: [match_here r prev s k] matches [r] at the head
    of [s], [prev] being the character just before, and hands the
    remaining text to the continuation [k]; alternatives are tried left to
    right and [Star] takes as many iterations as it can before giving
    back.  An iteration of [Star] that consumes nothing is cut off. *)
Fixpoint match_here (A : Type) (r : regex) (prev : option ascii) (s : string)
  (k : option ascii -> string -> option A) {struct r} : option A :=
  match r with
  | Eps => k prev s
  | Class p =>
      match s with
      | String c s' => if p c then k (Some c) s' else None
      | EmptyString => None
      end
  | WordB => if at_boundary prev s then k prev s else None
  | Cat r1 r2 =>
      match_here r1 prev s (fun prev' s' => match_here r2 prev' s' k)
  | Alt r1 r2 =>
      match match_here r1 prev s k with
      | Some x => Some x
      | None => match_here r2 prev s k
      end
  | Star r1 =>
      (fix loop (fuel : nat) (prev0 : option ascii) (s0 : string) : option A :=
         match fuel with
         | O => k prev0 s0
         | S fuel' =>
             match
               match_here r1 prev0 s0
                 (fun prev' s' =>
                    if Nat.ltb (String.length s') (String.length s0)
                    then loop fuel' prev' s'
                    else None)
             with
             | Some x => Some x
             | None => k prev0 s0
             end
         end) (String.length s) prev s
  end.

(** [pattern.search(s)]: the first position, from the left, at which the
    pattern matches; the result is [match.group()], the matched text. *)
Fixpoint search_from (r : regex) (prev : option ascii) (s : string)
  : option string :=
  match match_here r prev s (fun _ rest => Some rest) with
  | Some rest => Some (Py.take (String.length s - String.length rest) s)
  | None =>
      match s with
      | EmptyString => None
      | String c s' => search_from r (Some c) s'
      end
  end.

Definition search (r : regex) (s : string) : option string :=
  search_from r None s.

(** Truthiness of [re.search(pattern, s)]. *)
Definition found (r : regex) (s : string) : bool :=
  match search r s with
  | Some _ => true
  | None => false
  end.

(** *** Pattern constructors *)

Definition lit (c : ascii) : regex := Class (Ascii.eqb c).

(** A literal under [re.IGNORECASE]. *)
Definition lit_i (c : ascii) : regex :=
  Class (fun x => Ascii.eqb (Py.lower_char x) (Py.lower_char c)).

Fixpoint str (s : string) : regex :=
  match s with
  | EmptyString => Eps
  | String c s' => Cat (lit c) (str s')
  end.

Fixpoint str_i (s : string) : regex :=
  match s with
  | EmptyString => Eps
  | String c s' => Cat (lit_i c) (str_i s')
  end.

(** [\s*] *)
Definition ws : regex := Star (Class Py.isspace).

(** [[lo-hi]] *)
Definition range (lo hi : ascii) : regex :=
  Class (fun x => (Py.code lo <=? Py.code x)%N && (Py.code x <=? Py.code hi)%N).

Fixpoint cats (rs : list regex) : regex :=
  match rs with
  | [] => Eps
  | [r] => r
  | r :: rs' => Cat r (cats rs')
  end.

Fixpoint alts (rs : list regex) : regex :=
  match rs with
  | [] => Eps
  | [r] => r
  | r :: rs' => Alt r (alts rs')
  end.

(** [re.compile(rf"\b{name}\b", re.IGNORECASE)] for a [name] without
    metacharacters. *)
Definition word_pattern (name : string) : regex :=
  Cat WordB (Cat (str_i name) WordB).

End Re.

(** ** Exceptions *)

(** A raised exception.  [Exception] stands for the instances of the class
    [Exception] (TypeError, KeyError, a validation error, whatever a worker
    raises on a failure); [Interrupt] for the instances of [BaseException]
    that are not instances of [Exception] (KeyboardInterrupt, SystemExit,
    GeneratorExit).  [message] is [str(e)]. *)
Inductive exn : Type :=
| Exception (message : string)
| Interrupt (message : string).

(** The outcome of code that may raise. *)
Definition result (A : Type) : Type := (exn + A)%type.

Definition ret {A : Type} (a : A) : result A := inr a.

Definition raise {A : Type} (e : exn) : result A := inl e.

Definition bind {A B : Type} (m : result A) (f : A -> result B) : result B :=
  match m with
  | inl e => inl e
  | inr a => f a
  end.

Notation "x <- m ;; k" := (bind m (fun x => k))
  (at level 61, m at next level, right associativity).

(** [try: body] followed by [except Exception as e: handler(str(e))]: the
    only form of handler in the code.  An [Interrupt] passes through. *)
Definition try_except {A : Type} (body : result A) (handler : string -> result A)
  : result A :=
  match body with
  | inl (Exception message) => handler message
  | inl (Interrupt message) => inl (Interrupt message)
  | inr a => inr a
  end.

(** A loop that computes one value per element, in order; the first
    exception ends it. *)
Fixpoint for_each (A B : Type) (f : A -> result B) (l : list A) : result (list B) :=
  match l with
  | [] => ret []
  | x :: rest =>
      y <- f x ;;
      ys <- for_each f rest ;;
      ret (y :: ys)
  end.

(** ** Values of type Any *)
Module Any.

(** [PyFloat] carries the text [repr] gives the float.  [PyDict] lists the
    entries in insertion order.  [PyObject] is an instance of a class the
    code knows nothing of (a date, a Decimal, ...), with the name of its
    class ([type(o).__name__]), the name the interpreter uses for the class
    in its messages, and the texts [str(o)] and [repr(o)]; it is taken to
    be truthy and to support neither iteration, nor subscripts, nor
    [.get], nor JSON encoding. *)
#[warnings="-register-all"] Inductive t : Type :=
| PyNone
| PyBool (b : bool)
| PyInt (n : Z)
| PyFloat (shown : string)
| PyStr (s : string)
| PyList (items : list t)
| PyDict (entries : list (string * t))
| PyObject (class_name class_path text shown : string).

Definition dict : Type := list (string * t).

(** The class name in the messages of the interpreter. *)
Definition type_name (v : t) : string :=
  match v with
  | PyNone => "NoneType"
  | PyBool _ => "bool"
  | PyInt _ => "int"
  | PyFloat _ => "float"
  | PyStr _ => "str"
  | PyList _ => "list"
  | PyDict _ => "dict"
  | PyObject _ class_path _ _ => class_path
  end.

(** [bool(v)] *)
Definition truth (v : t) : bool :=
  match v with
  | PyNone => false
  | PyBool b => b
  | PyInt n => negb (Z.eqb n 0)
  | PyFloat shown => negb (String.eqb shown "0.0" || String.eqb shown "-0.0")
  | PyStr s => negb (String.eqb s EmptyString)
  | PyList items => match items with [] => false | _ :: _ => true end
  | PyDict entries => match entries with [] => false | _ :: _ => true end
  | PyObject _ _ _ _ => true
  end.

(** [str(n)] for an [int]. *)
Definition str_of_int (n : Z) : string := NilEmpty.string_of_int (Z.to_int n).

Definition hex_digit (n : N) : ascii :=
  if (n <? 10)%N then ascii_of_N (48 + n) else ascii_of_N (87 + n).

(** [c.isprintable()] *)
Definition printable (c : ascii) : bool :=
  negb (Py.between 0 31 c || Py.between 127 160 c || (Py.code c =? 173)%N).

(** One character inside [repr(s)], [quote] being the quote chosen. *)
Definition repr_char (quote : ascii) (c : ascii) : string :=
  let backslash := ascii_of_nat 92 in
  if Ascii.eqb c quote || Ascii.eqb c backslash
  then String backslash (String c EmptyString)
  else if (Py.code c =? 9)%N then String backslash "t"
  else if (Py.code c =? 10)%N then String backslash "n"
  else if (Py.code c =? 13)%N then String backslash "r"
  else if printable c then String c EmptyString
  else String backslash
         (String "x" (String (hex_digit (Py.code c / 16))
                             (String (hex_digit (Py.code c mod 16)) EmptyString))).

Fixpoint repr_chars (quote : ascii) (s : string) : string :=
  match s with
  | EmptyString => EmptyString
  | String c rest => repr_char quote c ++ repr_chars quote rest
  end.

Definition has_char (c : ascii) (s : string) : bool :=
  Py.contains (String c EmptyString) s.

(** [repr(s)] for a [str]: double quotes when the text holds a single
    quote and no double quote, single quotes otherwise. *)
Definition repr_str (s : string) : string :=
  let single := ascii_of_nat 39 in
  let double := ascii_of_nat 34 in
  let quote := if has_char single s && negb (has_char double s)
               then double else single in
  String quote (repr_chars quote s ++ String quote EmptyString).

(** [repr(v)] *)
Fixpoint repr (v : t) : string :=
  match v with
  | PyNone => "None"
  | PyBool true => "True"
  | PyBool false => "False"
  | PyInt n => str_of_int n
  | PyFloat shown => shown
  | PyStr s => repr_str s
  | PyList items => "[" ++ Py.join ", " (map repr items) ++ "]"
  | PyDict entries =>
      "{" ++ Py.join ", "
               (map (fun entry => repr_str (fst entry) ++ ": " ++ repr (snd entry))
                    entries)
      ++ "}"
  | PyObject _ _ _ shown => shown
  end.

(** [str(v)], also what an f-string writes for [{v}]. *)
Definition str (v : t) : string :=
  match v with
  | PyStr s => s
  | PyObject _ _ text _ => text
  | _ => repr v
  end.

Fixpoint chars (s : string) : list string :=
  match s with
  | EmptyString => []
  | String c rest => String c EmptyString :: chars rest
  end.

(** [for x in v]: the elements of a list, the characters of a str, the
    keys of a dict; nothing else is iterable. *)
Definition iter (v : t) : result (list t) :=
  match v with
  | PyList items => ret items
  | PyStr s => ret (map PyStr (chars s))
  | PyDict entries => ret (map (fun entry => PyStr (fst entry)) entries)
  | _ => raise (Exception ("'" ++ type_name v ++ "' object is not iterable"))
  end.

(** [v[:n]] *)
Definition slice (n : nat) (v : t) : result t :=
  match v with
  | PyList items => ret (PyList (firstn n items))
  | PyStr s => ret (PyStr (Py.take n s))
  | PyDict _ => raise (Exception "unhashable type: 'slice'")
  | _ => raise (Exception ("'" ++ type_name v ++ "' object is not subscriptable"))
  end.

Fixpoint lookup (key : string) (d : dict) : option t :=
  match d with
  | [] => None
  | (k, v) :: rest => if String.eqb k key then Some v else lookup key rest
  end.

(** [d.get(key, default)] *)
Definition get (key : string) (default : t) (d : dict) : t :=
  match lookup key d with
  | Some v => v
  | None => default
  end.

Fixpoint first_some (A : Type) (l : list (option A)) : option A :=
  match l with
  | [] => None
  | Some a :: _ => Some a
  | None :: rest => first_some rest
  end.

(** The message of the TypeError [json.dumps] raises on [v]: that of the
    first object, in the order of the encoding, that has no JSON form;
    [None] when [v] can be encoded. *)
Fixpoint json_fault (v : t) : option string :=
  match v with
  | PyList items => first_some (map json_fault items)
  | PyDict entries => first_some (map (fun entry => json_fault (snd entry)) entries)
  | PyObject class_name _ _ _ =>
      Some ("Object of type " ++ class_name ++ " is not JSON serializable")
  | _ => None
  end.

(** The typed readings pydantic accepts as they are. *)
Definition as_str (v : t) : option string :=
  match v with
  | PyStr s => Some s
  | _ => None
  end.

Definition as_dict (v : t) : option dict :=
  match v with
  | PyDict entries => Some entries
  | _ => None
  end.

Fixpoint all_some (A : Type) (l : list (option A)) : option (list A) :=
  match l with
  | [] => Some []
  | Some a :: rest =>
      match all_some rest with
      | Some others => Some (a :: others)
      | None => None
      end
  | None :: _ => None
  end.

Definition as_list (A : Type) (as_item : t -> option A) (v : t) : option (list A) :=
  match v with
  | PyList items => all_some (map as_item items)
  | _ => None
  end.

End Any.

(** ** schemas/models.py *)

Inductive AgentType : Set :=
| MASTER
| IQVIA
| EXIM
| PATENT
| CLINICAL_TRIALS
| INTERNAL_KNOWLEDGE
| WEB_INTELLIGENCE
| REPORT_GENERATOR.

Scheme Equality for AgentType.

(** [AgentType.value] *)
Definition AgentType_value (a : AgentType) : string :=
  match a with
  | MASTER => "master"
  | IQVIA => "iqvia_insights"
  | EXIM => "exim_trends"
  | PATENT => "patent_landscape"
  | CLINICAL_TRIALS => "clinical_trials"
  | INTERNAL_KNOWLEDGE => "internal_knowledge"
  | WEB_INTELLIGENCE => "web_intelligence"
  | REPORT_GENERATOR => "report_generator"
  end.

Inductive TaskStatus : Set :=
| PENDING
| IN_PROGRESS
| COMPLETED
| FAILED.

Scheme Equality for TaskStatus.

Inductive OutputFormat : Set :=
| TEXT
| TABLE
| CHART
| PDF
| EXCEL
| JSON.

Scheme Equality for OutputFormat.

(** A table block and a chart descriptor are dictionaries
    ([Dict[str, Any]]). *)
Definition Table : Type := Any.dict.
Definition Chart : Type := Any.dict.

Module AgentResponse.

Record t : Type := {
  agent_type : AgentType;
  task_id : string;
  status : TaskStatus;
  data : Any.dict;
  summary : string;
  tables : list Table;
  charts : list Chart;
  references : list string;
  execution_time_ms : nat;
  error : option string
}.

(** The content arguments of the constructor, as a caller passes them ... *)
Record Arguments : Type := {
  given_data : Any.t;
  given_summary : Any.t;
  given_tables : Any.t;
  given_charts : Any.t;
  given_references : Any.t
}.

(** ... and as the model holds them once validated. *)
Record Content : Type := {
  valid_data : Any.dict;
  valid_summary : string;
  valid_tables : list Table;
  valid_charts : list Chart;
  valid_references : list string
}.

(** Arguments that have the declared types are taken as they are. *)
Definition typed (given : Arguments) : option Content :=
  match
    Any.as_dict (given_data given), Any.as_str (given_summary given),
    Any.as_list Any.as_dict (given_tables given),
    Any.as_list Any.as_dict (given_charts given),
    Any.as_list Any.as_str (given_references given)
  with
  | Some d, Some s, Some ts, Some cs, Some rs =>
      Some {| valid_data := d; valid_summary := s; valid_tables := ts;
              valid_charts := cs; valid_references := rs |}
  | _, _, _, _, _ => None
  end.

End AgentResponse.

(** The parameter bag of a task: the keys the orchestration writes, each
    absent ([None]) or present.  [drug_name] and [therapy_area], when the
    bag comes from the analysis, are present with a value that may be
    Python's [None], hence the nested option. *)
Record Parameters : Type := {
  p_drug_name : option (option string);
  p_therapy_area : option (option string);
  p_query : option string;
  p_title : option string;
  p_agent_responses : option (list AgentResponse.t);
  p_output_format : option OutputFormat
}.

Definition empty_parameters : Parameters :=
  {| p_drug_name := None; p_therapy_area := None; p_query := None;
     p_title := None; p_agent_responses := None; p_output_format := None |}.

Module AgentTask.
(** [created_at], [completed_at], [result] and [error] are never read or
    written by the orchestration and are left out. *)
Record t : Type := {
  task_id : string;
  agent_type : AgentType;
  query : string;
  parameters : Parameters;
  priority : nat;
  status : TaskStatus
}.
End AgentTask.

(** ** data/synthetic_data.py *)

Definition THERAPY_AREAS : list string :=
  [ "Oncology"; "Cardiology"; "Neurology"; "Immunology"; "Infectious Diseases";
    "Metabolic Disorders"; "Respiratory"; "Dermatology"; "Ophthalmology";
    "Rare Diseases" ].

Definition DRUG_NAMES : list string :=
  [ "Remdesivir"; "Metformin"; "Aspirin"; "Lisinopril"; "Atorvastatin";
    "Omeprazole"; "Amlodipine"; "Gabapentin"; "Sertraline"; "Losartan";
    "Sildenafil"; "Tadalafil"; "Duloxetine"; "Pregabalin"; "Celecoxib";
    "Rituximab"; "Pembrolizumab"; "Nivolumab"; "Adalimumab"; "Infliximab" ].

(** ** What the interpreter supplies at run time *)

(** One [{"title", "content"}] entry of the synthesized sections. *)
Record NarrativeSection : Type := {
  title : string;
  content : string
}.

(** The dictionary built for the JSON output mode. *)
Record JsonResponse : Type := {
  json_query : string;
  json_executive_summary : string;
  json_sections : list NarrativeSection;
  json_tables : list Table;
  json_charts : list Chart;
  json_references : list string;
  json_generated_at : string
}.

Record PyRuntime : Type := {
  (** [uuid.uuid4().hex[:8]] of the n-th draw of the run *)
  uuid4_hex8 : nat -> string;
  (** [datetime.now().isoformat()] at the call of the synthesizer *)
  now_isoformat : string;
  (** [list(set(l))] on texts and on agent types: within one process the
      order of the result is a function of the order of insertion *)
  list_of_set : list string -> list string;
  list_of_agent_set : list AgentType -> list AgentType;
  (** the text [json.dumps(response, indent=2)] writes for a dictionary it
      can encode *)
  json_text : JsonResponse -> string;
  (** pydantic on content arguments that do not all have the declared
      types: the content after coercion, or the validation error *)
  model_validate : AgentResponse.Arguments -> result AgentResponse.Content
}.

(** [json.dumps(response, indent=2)] on the dictionary of the JSON mode:
    the texts and the lists of texts can be encoded, the tables and the
    charts hold values of any type. *)
Definition json_dumps (rt : PyRuntime) (fields : JsonResponse) : result string :=
  match
    Any.first_some
      (map (fun table => Any.json_fault (Any.PyDict table))
           (json_tables fields ++ json_charts fields)%list)
  with
  | Some message => raise (Exception message)
  | None => ret (json_text rt fields)
  end.

(** The validation of the content arguments of [AgentResponse(...)]. *)
Definition validate (rt : PyRuntime) (given : AgentResponse.Arguments)
  : result AgentResponse.Content :=
  match AgentResponse.typed given with
  | Some content => ret content
  | None => model_validate rt given
  end.

(** ** orchestration/master_agent.py *)
Module MasterAgent.

(** The master agent holds the text-generation client, [None] when no API
    key is configured; [invoke] answers with [response.content] or
    raises. *)
Record t : Type := {
  llm : option (string -> result string)
}.

Import Re.

(** [self.intent_patterns], in the insertion order of the dictionary. *)
Definition intent_patterns : list (string * list regex) :=
  [ ("market_analysis",
      [ cats [str "market"; ws; alts [str "size"; str "share"; str "analysis"; str "trend"]];
        cats [str "sales"; ws; alts [str "data"; str "trend"; str "volume"]];
        str "iqvia";
        cats [str "commercial"; ws; alts [str "opportunity"; str "potential"]] ]);
    ("trade_analysis",
      [ alts [str "export"; str "import"; str "exim"; str "trade"];
        alts [str "sourcing"; cats [str "supply"; ws; str "chain"]];
        cats [str "api"; ws; alts [str "source"; str "supply"]] ]);
    ("patent_analysis",
      [ alts [str "patent"; cats [str "ip"; ws; alts [str "analysis"; str "landscape"]]];
        alts [str "fto"; cats [str "freedom"; ws; str "to"; ws; str "operate"]];
        alts [cats [str "expir"; alts [str "y"; str "ation"]];
              cats [str "generic"; ws; str "entry"]] ]);
    ("clinical_trials",
      [ alts [cats [str "clinical"; ws; str "trial"]; str "study";
              cats [str "phase"; ws; range "1" "4"]];
        alts [str "pipeline"; cats [str "development"; ws; str "stage"]];
        alts [str "enrollment"; str "endpoint"] ]);
    ("internal_knowledge",
      [ alts [str "internal"; cats [str "strategy"; ws; alts [str "document"; str "deck"]]];
        alts [cats [str "field"; ws; str "insight"]; cats [str "kol"; ws; str "feedback"]];
        cats [str "competitive"; ws; str "intelligence"] ]);
    ("web_intelligence",
      [ alts [str "guideline"; str "publication"; str "news"];
        alts [str "regulatory"; str "fda"; str "ema"];
        alts [str "latest"; cats [str "recent"; ws; str "update"]] ]);
    ("report_generation",
      [ alts [cats [str "generate"; ws; str "report"]; cats [str "create"; ws; str "pdf"]];
        alts [str "export"; str "download"; cats [str "summary"; ws; str "report"]] ]) ].

(** [self.drug_patterns] and [self.therapy_patterns]. *)
Definition drug_patterns : list regex := map word_pattern DRUG_NAMES.
Definition therapy_patterns : list regex := map word_pattern THERAPY_AREAS.

(** The loop shared by [_extract_drug_name] and [_extract_therapy_area]:
    the first pattern, in list order, that matches somewhere gives
    [match.group()]. *)
Fixpoint first_group (patterns : list regex) (query : string) : option string :=
  match patterns with
  | [] => None
  | pattern :: rest =>
      match search pattern query with
      | Some m => Some m
      | None => first_group rest query
      end
  end.

Definition _extract_drug_name (query : string) : option string :=
  first_group drug_patterns query.

Definition _extract_therapy_area (query : string) : option string :=
  first_group therapy_patterns query.

Record Analysis : Type := {
  original_query : string;
  drug_name : option string;
  therapy_area : option string;
  intents : list string;
  required_agents : list AgentType;
  needs_report : bool;
  parameters : Parameters
}.

(** The intents whose pattern list has a pattern found in the lowered
    query, in dictionary order, each at most once ([break]). *)
Definition matched_intents (query_lower : string) : list string :=
  map fst
    (filter (fun entry => existsb (fun pattern => found pattern query_lower) (snd entry))
            intent_patterns).

Definition default_intents : list string :=
  ["market_analysis"; "clinical_trials"; "patent_analysis"].

(** [intent_to_agent.get(intent)] of [analyze_query]. *)
Definition intent_to_agent (intent : string) : option AgentType :=
  if String.eqb intent "market_analysis" then Some IQVIA
  else if String.eqb intent "trade_analysis" then Some EXIM
  else if String.eqb intent "patent_analysis" then Some PATENT
  else if String.eqb intent "clinical_trials" then Some CLINICAL_TRIALS
  else if String.eqb intent "internal_knowledge" then Some INTERNAL_KNOWLEDGE
  else if String.eqb intent "web_intelligence" then Some WEB_INTELLIGENCE
  else if String.eqb intent "report_generation" then Some REPORT_GENERATOR
  else None.

Fixpoint map_some (A B : Type) (f : A -> option B) (l : list A) : list B :=
  match l with
  | [] => []
  | x :: l' =>
      match f x with
      | Some y => y :: map_some f l'
      | None => map_some f l'
      end
  end.

Definition report_words : list string := ["report"; "pdf"; "document"; "summary"].

Definition analyze_query (rt : PyRuntime) (query : string) : Analysis :=
  let query_lower := Py.lower query in
  let drug_name := _extract_drug_name query in
  let therapy_area := _extract_therapy_area query in
  let intents :=
    match matched_intents query_lower with
    | [] => default_intents
    | found_intents => found_intents
    end in
  let required_agents := list_of_agent_set rt (map_some intent_to_agent intents) in
  let needs_report :=
    existsb (String.eqb "report_generation") intents
    || existsb (fun word => Py.contains word query_lower) report_words in
  {| original_query := query;
     drug_name := drug_name;
     therapy_area := therapy_area;
     intents := intents;
     required_agents := required_agents;
     needs_report := needs_report;
     parameters :=
       {| p_drug_name := Some drug_name;
          p_therapy_area := Some therapy_area;
          p_query := Some query;
          p_title := None;
          p_agent_responses := None;
          p_output_format := None |} |}.

(** *** The task planner *)

(** The value of [parameters.get(key, default)], the default being the
    empty string, when it is truthy. *)
Definition truthy_param (o : option (option string)) : option string :=
  match o with
  | Some (Some (String c s)) => Some (String c s)
  | _ => None
  end.

(** [f'{prep}{value}' if value else ''] *)
Definition clause (prep : string) (value : option string) : string :=
  match value with
  | Some v => prep ++ v
  | None => EmptyString
  end.

Definition _create_agent_query (agent_type : AgentType) (original_query : string)
  (parameters : Parameters) : string :=
  let drug := truthy_param (p_drug_name parameters) in
  let therapy := truthy_param (p_therapy_area parameters) in
  let template (lead prep : string) :=
    lead ++ clause prep drug ++ clause " in " therapy ++ ". " ++ original_query in
  match agent_type with
  | IQVIA => template "Analyze market data and sales trends" " for "
  | EXIM => template "Analyze export-import trade data" " for "
  | PATENT => template "Analyze patent landscape and IP status" " for "
  | CLINICAL_TRIALS => template "Search clinical trials database" " for "
  | INTERNAL_KNOWLEDGE => template "Search internal knowledge base" " related to "
  | WEB_INTELLIGENCE => template "Search web for latest information" " on "
  | REPORT_GENERATOR =>
      "Generate comprehensive research report based on all gathered data."
  | MASTER => original_query
  end.

Definition _get_task_priority (agent_type : AgentType) : nat :=
  match agent_type with
  | IQVIA => 1
  | CLINICAL_TRIALS => 1
  | PATENT => 2
  | EXIM => 2
  | WEB_INTELLIGENCE => 3
  | INTERNAL_KNOWLEDGE => 3
  | REPORT_GENERATOR => 5
  | MASTER => 3
  end.

(** [list.sort(key=...)]: the stable sort, here by insertion.  An element
    is put in front of the first element whose key is not smaller, so it
    stays before the elements of equal key that followed it. *)
Fixpoint insert_by (A : Type) (key : A -> nat) (x : A) (l : list A) : list A :=
  match l with
  | [] => [x]
  | y :: l' =>
      if Nat.leb (key x) (key y) then x :: y :: l' else y :: insert_by key x l'
  end.

Fixpoint sort_by (A : Type) (key : A -> nat) (l : list A) : list A :=
  match l with
  | [] => []
  | x :: l' => insert_by key x (sort_by key l')
  end.

(** The loop over [analysis["required_agents"]]; [n] is the number of
    identifiers drawn so far. *)
Fixpoint worker_tasks (rt : PyRuntime) (analysis : Analysis) (n : nat)
  (agents : list AgentType) : list AgentTask.t :=
  match agents with
  | [] => []
  | agent_type :: rest =>
      {| AgentTask.task_id := "task_" ++ uuid4_hex8 rt n;
         AgentTask.agent_type := agent_type;
         AgentTask.query :=
           _create_agent_query agent_type (original_query analysis)
                               (parameters analysis);
         AgentTask.parameters := parameters analysis;
         AgentTask.priority := _get_task_priority agent_type;
         AgentTask.status := PENDING |}
      :: worker_tasks rt analysis (S n) rest
  end.

(** [drug_name or therapy_area or 'Drug Repurposing Analysis'] *)
Definition report_subject (drug_name therapy_area : option string) : string :=
  Py.or_else drug_name (Py.or_else therapy_area "Drug Repurposing Analysis").

Definition report_task (rt : PyRuntime) (analysis : Analysis) (n : nat)
  : AgentTask.t :=
  let base := parameters analysis in
  {| AgentTask.task_id := "task_" ++ uuid4_hex8 rt n;
     AgentTask.agent_type := REPORT_GENERATOR;
     AgentTask.query := "Generate comprehensive research report";
     AgentTask.parameters :=
       {| p_drug_name := p_drug_name base;
          p_therapy_area := p_therapy_area base;
          p_query := p_query base;
          p_title :=
            Some ("Research Report: "
                  ++ report_subject (drug_name analysis) (therapy_area analysis));
          p_agent_responses := p_agent_responses base;
          p_output_format := p_output_format base |};
     AgentTask.priority := 5;
     AgentTask.status := PENDING |}.

(** The task list before [tasks.sort]. *)
Definition unsorted_tasks (rt : PyRuntime) (analysis : Analysis)
  : list AgentTask.t :=
  let tasks := worker_tasks rt analysis 0 (required_agents analysis) in
  if needs_report analysis
  then (tasks ++ [report_task rt analysis (List.length tasks)])%list
  else tasks.

Definition create_task_plan (rt : PyRuntime) (analysis : Analysis)
  : list AgentTask.t :=
  sort_by AgentTask.priority (unsorted_tasks rt analysis).

(** *** The response synthesizer *)

(** Characters of the source text that are written by code here: the line
    feed, the double quote, and the bullet U+2022 (as its UTF-8 bytes). *)
Definition nl : string := String (ascii_of_nat 10) EmptyString.
Definition dquote : string := String (ascii_of_nat 34) EmptyString.
Definition bullet : string :=
  String (ascii_of_nat 226) (String (ascii_of_nat 128)
    (String (ascii_of_nat 162) EmptyString)).

(** One [{"agent", "content"}] entry of [all_summaries]. *)
Record AgentSummary : Type := {
  agent : string;
  text : string
}.

(** [summary["agent"].replace("_", " ").title()] *)
Definition display_name (agent_value : string) : string :=
  Py.title (Py.replace_char "_"%char " "%char agent_value).

(** The lines of a summary that are neither blank nor a heading, each
    stripped. *)
Definition meaningful_lines (text : string) : list string :=
  map Py.strip
    (filter (fun l => match Py.strip l with
                      | EmptyString => false
                      | String _ _ => negb (Py.startswith "#" (Py.strip l))
                      end)
            (Py.split nl text)).

Fixpoint summary_points (summaries : list AgentSummary) : list string :=
  match summaries with
  | [] => []
  | s :: rest =>
      match meaningful_lines (text s) with
      | first :: _ =>
          (bullet ++ " **" ++ display_name (agent s) ++ ":** " ++ first)
          :: summary_points rest
      | [] => summary_points rest
      end
  end.

(** The deterministic part of [_create_executive_summary]. *)
Definition fallback_summary (summaries : list AgentSummary) : string :=
  match summary_points summaries with
  | [] =>
      "Analysis complete. Specialized agents have gathered domain-specific data for your request. Please see the detailed sections below."
  | points =>
      "Key Insights from Multi-Agent Analysis:" ++ nl ++ nl
      ++ Py.join nl (firstn 5 points)
  end.

Definition summary_prompt (query : string) (summaries : list AgentSummary)
  : string :=
  "Based on the following analysis from multiple specialized agents, " ++ nl
  ++ "create a concise executive summary (3-5 bullet points) answering the query: "
  ++ dquote ++ query ++ dquote ++ nl ++ nl
  ++ "Agent Analyses:" ++ nl
  ++ Py.join nl
       (map (fun s => "**" ++ agent s ++ "**: " ++ Py.take 500 (text s)) summaries)
  ++ nl ++ nl
  ++ "Provide key insights and actionable recommendations.".

Definition _create_executive_summary (self : t) (query : string)
  (summaries : list AgentSummary) : result string :=
  match llm self with
  | Some invoke =>
      try_except (invoke (summary_prompt query summaries))
                 (fun _ => ret (fallback_summary summaries))
  | None => ret (fallback_summary summaries)
  end.

(** The value under ["response"]: a document in the text modes, the
    dictionary in the JSON mode. *)
Inductive Response : Type :=
| TextResponse (document : string)
| DictResponse (fields : JsonResponse).

Record Synthesis : Type := {
  response : Response;
  sections : list NarrativeSection;
  tables : list Table;
  charts : list Chart;
  references : list string
}.

Definition completed (r : AgentResponse.t) : bool :=
  TaskStatus_beq (AgentResponse.status r) COMPLETED.

Definition synthesize_responses (rt : PyRuntime) (self : t) (query : string)
  (responses : list AgentResponse.t) (output_format : OutputFormat)
  : result Synthesis :=
  let kept := filter completed responses in
  let all_summaries :=
    map (fun r => {| agent := AgentType_value (AgentResponse.agent_type r);
                     text := AgentResponse.summary r |}) kept in
  let all_tables := flat_map AgentResponse.tables kept in
  let all_charts := flat_map AgentResponse.charts kept in
  let all_references := flat_map AgentResponse.references kept in
  let sections :=
    map (fun s => {| title := display_name (agent s); content := text s |})
        all_summaries in
  executive_summary <- _create_executive_summary self query all_summaries ;;
  let final_response :=
    if OutputFormat_beq output_format JSON
    then DictResponse
           {| json_query := query;
              json_executive_summary := executive_summary;
              json_sections := sections;
              json_tables := all_tables;
              json_charts := all_charts;
              json_references := list_of_set rt all_references;
              json_generated_at := now_isoformat rt |}
    else
      let head_parts :=
        [ "# Research Analysis" ++ nl ++ nl ++ "**Query:** " ++ query ++ nl;
          "## Executive Summary" ++ nl ++ nl ++ executive_summary ++ nl;
          "---" ++ nl ] in
      let section_parts :=
        map (fun s => "## " ++ title s ++ nl ++ nl ++ content s ++ nl ++ nl)
            sections in
      let reference_parts :=
        match all_references with
        | [] => []
        | _ :: _ =>
            ("## References" ++ nl ++ nl)
            :: map (fun ref => "- " ++ ref ++ nl) (list_of_set rt all_references)
        end in
      TextResponse (Py.join nl (head_parts ++ section_parts ++ reference_parts)%list)
  in
  ret {| response := final_response;
         sections := sections;
         tables := all_tables;
         charts := all_charts;
         references := list_of_set rt all_references |}.

(** [" | ".join(str(x) for x in v)] between the bars of a table line. *)
Definition table_line (cells : list Any.t) : string :=
  "| " ++ Py.join " | " (map Any.str cells) ++ " |" ++ nl.

(** What the body of the loop over the tables adds to the response.  The
    title, the headers and the rows are read with [table.get]; the headers
    and the rows may be of any type, and iterating or slicing them raises
    when they do not support it. *)
Definition render_table (table : Table) : result string :=
  let heading :=
    nl ++ "### " ++ Any.str (Any.get "title" (Any.PyStr "Table") table) ++ nl in
  let headers := Any.get "headers" (Any.PyList []) table in
  let rows := Any.get "rows" (Any.PyList []) table in
  if Any.truth headers && Any.truth rows
  then
    header_cells <- Any.iter headers ;;
    shown <- Any.slice 10 rows ;;
    shown_rows <- Any.iter shown ;;
    lines <- for_each (fun row => cells <- Any.iter row ;; ret (table_line cells))
                      shown_rows ;;
    ret (heading
         ++ table_line header_cells
         ++ "| " ++ Py.join " | " (map (fun _ => "---") header_cells) ++ " |" ++ nl
         ++ String.concat EmptyString lines)
  else ret heading.

Definition format_response (rt : PyRuntime) (synthesis : Synthesis)
  (include_tables include_charts : bool) : result string :=
  match response synthesis with
  | DictResponse fields => json_dumps rt fields
  | TextResponse document =>
      match include_tables, tables synthesis with
      | true, _ :: _ =>
          rendered <- for_each render_table (firstn 5 (tables synthesis)) ;;
          ret (document ++ nl ++ nl ++ "## Data Tables" ++ nl
               ++ String.concat EmptyString rendered)
      | _, _ => ret document
      end
  end.

End MasterAgent.

(** ** agents/base_agent.py *)
Module BaseAgent.

(** A worker class: its type tag, its [_process_query], which returns a
    value (a dictionary, if it keeps to its signature) or raises, and the
    clock difference measured around a task. *)
Record t : Type := {
  agent_type : AgentType;
  _process_query : string -> Parameters -> result Any.t;
  elapsed_ms : AgentTask.t -> nat
}.

(** [_format_table] and [_format_chart] *)
Definition _format_table (title : string) (headers : list string)
  (rows : list (list Any.t)) : Table :=
  [ ("title", Any.PyStr title);
    ("headers", Any.PyList (map Any.PyStr headers));
    ("rows", Any.PyList (map Any.PyList rows));
    ("row_count", Any.PyInt (Z.of_nat (List.length rows))) ].

Definition _format_chart (chart_type title : string) (data : Any.dict)
  (x_label y_label : string) : Chart :=
  [ ("chart_type", Any.PyStr chart_type);
    ("title", Any.PyStr title);
    ("x_label", Any.PyStr x_label);
    ("y_label", Any.PyStr y_label);
    ("data", Any.PyDict data) ].

(** The five [result.get(key, default)] of [execute]: a value that is not
    a dictionary has no [get]. *)
Definition read_result (returned : Any.t) : result AgentResponse.Arguments :=
  match returned with
  | Any.PyDict entries =>
      ret {| AgentResponse.given_data := Any.get "data" (Any.PyDict []) entries;
             AgentResponse.given_summary :=
               Any.get "summary" (Any.PyStr EmptyString) entries;
             AgentResponse.given_tables := Any.get "tables" (Any.PyList []) entries;
             AgentResponse.given_charts := Any.get "charts" (Any.PyList []) entries;
             AgentResponse.given_references :=
               Any.get "references" (Any.PyList []) entries |}
  | other =>
      raise (Exception ("'" ++ Any.type_name other
                        ++ "' object has no attribute 'get'"))
  end.

(** [BaseAgent.execute]: an [Exception] raised by [_process_query], by the
    reading of its result or by the validation of the response is caught
    and turned into a failed response. *)
Definition execute (rt : PyRuntime) (self : t) (task : AgentTask.t)
  : result AgentResponse.t :=
  try_except
    (returned <- _process_query self (AgentTask.query task)
                                (AgentTask.parameters task) ;;
     given <- read_result returned ;;
     content <- validate rt given ;;
     ret {| AgentResponse.agent_type := agent_type self;
            AgentResponse.task_id := AgentTask.task_id task;
            AgentResponse.status := COMPLETED;
            AgentResponse.data := AgentResponse.valid_data content;
            AgentResponse.summary := AgentResponse.valid_summary content;
            AgentResponse.tables := AgentResponse.valid_tables content;
            AgentResponse.charts := AgentResponse.valid_charts content;
            AgentResponse.references := AgentResponse.valid_references content;
            AgentResponse.execution_time_ms := elapsed_ms self task;
            AgentResponse.error := None |})
    (fun message =>
       ret {| AgentResponse.agent_type := agent_type self;
              AgentResponse.task_id := AgentTask.task_id task;
              AgentResponse.status := FAILED;
              AgentResponse.data := [];
              AgentResponse.summary := EmptyString;
              AgentResponse.tables := [];
              AgentResponse.charts := [];
              AgentResponse.references := [];
              AgentResponse.execution_time_ms := elapsed_ms self task;
              AgentResponse.error := Some message |}).

End BaseAgent.

(** The worker contract seen by the orchestrator: an object with an
    [execute] method, which may raise. *)
Record Worker : Type := {
  execute : AgentTask.t -> result AgentResponse.t
}.

(** A worker derived from [BaseAgent]. *)
Definition worker_of (rt : PyRuntime) (agent : BaseAgent.t) : Worker :=
  {| execute := BaseAgent.execute rt agent |}.

(** ** orchestration/state.py *)

Inductive Message : Type :=
| HumanMessage (text : string)
| AIMessage (text : string).

Module AgentState.
Record t : Type := {
  messages : list Message;
  user_query : string;
  query_intent : option string;
  drug_name : option string;
  therapy_area : option string;
  parameters : Parameters;
  tasks : list AgentTask.t;
  current_task_index : nat;
  agent_responses : list AgentResponse.t;
  output_format : OutputFormat;
  include_charts : bool;
  include_tables : bool;
  generate_report : bool;
  final_response : option string;
  report_path : Any.t;
  iteration_count : nat;
  max_iterations : nat;
  status : string;
  error : option string
}.
End AgentState.

Definition create_initial_state (user_query : string) (output_format : OutputFormat)
  (include_charts include_tables generate_report : bool) : AgentState.t :=
  {| AgentState.messages := [HumanMessage user_query];
     AgentState.user_query := user_query;
     AgentState.query_intent := None;
     AgentState.drug_name := None;
     AgentState.therapy_area := None;
     AgentState.parameters := empty_parameters;
     AgentState.tasks := [];
     AgentState.current_task_index := 0;
     AgentState.agent_responses := [];
     AgentState.output_format := output_format;
     AgentState.include_charts := include_charts;
     AgentState.include_tables := include_tables;
     AgentState.generate_report := generate_report;
     AgentState.final_response := None;
     AgentState.report_path := Any.PyNone;
     AgentState.iteration_count := 0;
     AgentState.max_iterations := 10;
     AgentState.status := "initialized";
     AgentState.error := None |}.

(** ** orchestration/graph.py *)
Module MultiAgentOrchestrator.

Import AgentState.

(** The orchestrator: the master agent and the registry
    [self.worker_agents], a dictionary from agent type to worker. *)
Record t : Type := {
  master_agent : MasterAgent.t;
  worker_agents : AgentType -> option Worker
}.

(** The registry [__init__] builds: one worker for every agent type but
    [MASTER]. *)
Definition registry (implementation : AgentType -> Worker)
  : AgentType -> option Worker :=
  fun agent_type =>
    match agent_type with
    | MASTER => None
    | _ => Some (implementation agent_type)
    end.

(** Each node below returns the state after LangGraph has merged the
    node's dictionary into it: a plain key is overwritten, the channels
    [messages] and [agent_responses] ([operator.add]) are extended. *)

Definition _analyze_query_node (rt : PyRuntime) (self : t) (state : AgentState.t)
  : AgentState.t :=
  let analysis := MasterAgent.analyze_query rt (user_query state) in
  let listed := Py.join ", " (MasterAgent.intents analysis) in
  {| messages :=
       (messages state
        ++ [AIMessage ("Query analyzed. Identified intents: " ++ listed)])%list;
     user_query := user_query state;
     query_intent := Some listed;
     drug_name := MasterAgent.drug_name analysis;
     therapy_area := MasterAgent.therapy_area analysis;
     parameters := MasterAgent.parameters analysis;
     tasks := tasks state;
     current_task_index := current_task_index state;
     agent_responses := agent_responses state;
     output_format := output_format state;
     include_charts := include_charts state;
     include_tables := include_tables state;
     generate_report :=
       MasterAgent.needs_report analysis || generate_report state;
     final_response := final_response state;
     report_path := report_path state;
     iteration_count := iteration_count state;
     max_iterations := max_iterations state;
     status := "analyzed";
     error := error state |}.

(** [intent_mapping] of [_determine_required_agents]: it has no entry for
    [report_generation]. *)
Definition intent_mapping (intent : string) : option AgentType :=
  if String.eqb intent "market_analysis" then Some IQVIA
  else if String.eqb intent "trade_analysis" then Some EXIM
  else if String.eqb intent "patent_analysis" then Some PATENT
  else if String.eqb intent "clinical_trials" then Some CLINICAL_TRIALS
  else if String.eqb intent "internal_knowledge" then Some INTERNAL_KNOWLEDGE
  else if String.eqb intent "web_intelligence" then Some WEB_INTELLIGENCE
  else None.

(** [state.get("query_intent", default).split(", ")]: the key is always present
    in the state, so a [None] value reaches [split]. *)
Definition split_intents (state : AgentState.t) : result (list string) :=
  match query_intent state with
  | Some listed => ret (Py.split ", " listed)
  | None => raise (Exception "'NoneType' object has no attribute 'split'")
  end.

Definition _determine_required_agents (state : AgentState.t)
  : result (list AgentType) :=
  intents <- split_intents state ;;
  match MasterAgent.map_some (fun intent => intent_mapping (Py.strip intent)) intents with
  | [] => ret [IQVIA; CLINICAL_TRIALS; PATENT]
  | agents => ret agents
  end.

Definition _plan_tasks_node (rt : PyRuntime) (self : t) (state : AgentState.t)
  : result AgentState.t :=
  intents <- split_intents state ;;
  required <- _determine_required_agents state ;;
  let analysis :=
    {| MasterAgent.original_query := user_query state;
       MasterAgent.drug_name := drug_name state;
       MasterAgent.therapy_area := therapy_area state;
       MasterAgent.intents := intents;
       MasterAgent.required_agents := required;
       MasterAgent.needs_report := generate_report state;
       MasterAgent.parameters := parameters state |} in
  let planned := MasterAgent.create_task_plan rt analysis in
  ret {| messages :=
           (messages state
            ++ [AIMessage ("Created " ++ Py.str_of_nat (List.length planned)
                           ++ " tasks for execution.")])%list;
         user_query := user_query state;
         query_intent := query_intent state;
         drug_name := drug_name state;
         therapy_area := therapy_area state;
         parameters := parameters state;
         tasks := planned;
         current_task_index := 0;
         agent_responses := agent_responses state;
         output_format := output_format state;
         include_charts := include_charts state;
         include_tables := include_tables state;
         generate_report := generate_report state;
         final_response := final_response state;
         report_path := report_path state;
         iteration_count := iteration_count state;
         max_iterations := max_iterations state;
         status := "planned";
         error := error state |}.

(** The response recorded by the dispatcher when [agent.execute] raises an
    [Exception]; [message] is [str(e)]. *)
Definition failed_response (task : AgentTask.t) (message : string)
  : AgentResponse.t :=
  {| AgentResponse.agent_type := AgentTask.agent_type task;
     AgentResponse.task_id := AgentTask.task_id task;
     AgentResponse.status := FAILED;
     AgentResponse.data := [];
     AgentResponse.summary := EmptyString;
     AgentResponse.tables := [];
     AgentResponse.charts := [];
     AgentResponse.references := [];
     AgentResponse.execution_time_ms := 0;
     AgentResponse.error := Some message |}.

(** The loop of [_execute_tasks_node]: the report task is passed over, a
    task without a registered worker is passed over, every other task
    contributes one response, the worker's or, when [execute] raised an
    [Exception], the failed response built here. *)
Fixpoint dispatch (self : t) (todo : list AgentTask.t)
  : result (list AgentResponse.t) :=
  match todo with
  | [] => ret []
  | task :: rest =>
      if AgentType_beq (AgentTask.agent_type task) REPORT_GENERATOR
      then dispatch self rest
      else
        match worker_agents self (AgentTask.agent_type task) with
        | Some agent =>
            response <- try_except (execute agent task)
                          (fun message => ret (failed_response task message)) ;;
            responses <- dispatch self rest ;;
            ret (response :: responses)
        | None => dispatch self rest
        end
  end.

Definition _execute_tasks_node (self : t) (state : AgentState.t)
  : result AgentState.t :=
  responses <- dispatch self (tasks state) ;;
  ret
  {| messages :=
       (messages state
        ++ [AIMessage ("Executed " ++ Py.str_of_nat (List.length responses)
                       ++ " tasks successfully.")])%list;
     user_query := user_query state;
     query_intent := query_intent state;
     drug_name := drug_name state;
     therapy_area := therapy_area state;
     parameters := parameters state;
     tasks := tasks state;
     current_task_index := current_task_index state;
     agent_responses := (agent_responses state ++ responses)%list;
     output_format := output_format state;
     include_charts := include_charts state;
     include_tables := include_tables state;
     generate_report := generate_report state;
     final_response := final_response state;
     report_path := report_path state;
     iteration_count := iteration_count state;
     max_iterations := max_iterations state;
     status := "executed";
     error := error state |}.

(** The synthesis [_synthesize_node] computes from the state. *)
Definition synthesis_of (rt : PyRuntime) (self : t) (state : AgentState.t)
  : result MasterAgent.Synthesis :=
  MasterAgent.synthesize_responses rt (master_agent self) (user_query state)
    (agent_responses state) (output_format state).

Definition _synthesize_node (rt : PyRuntime) (self : t) (state : AgentState.t)
  : result AgentState.t :=
  synthesis <- synthesis_of rt self state ;;
  formatted_response <-
    MasterAgent.format_response rt synthesis (include_tables state)
      (include_charts state) ;;
  ret
  {| messages :=
       (messages state ++ [AIMessage "Responses synthesized successfully."])%list;
     user_query := user_query state;
     query_intent := query_intent state;
     drug_name := drug_name state;
     therapy_area := therapy_area state;
     parameters := parameters state;
     tasks := tasks state;
     current_task_index := current_task_index state;
     agent_responses := agent_responses state;
     output_format := output_format state;
     include_charts := include_charts state;
     include_tables := include_tables state;
     generate_report := generate_report state;
     final_response := Some formatted_response;
     report_path := report_path state;
     iteration_count := iteration_count state;
     max_iterations := max_iterations state;
     status := "synthesized";
     error := error state |}.

Definition _should_generate_report (state : AgentState.t) : string :=
  if generate_report state then "generate_report" else "format_output".

Definition _generate_report_node (rt : PyRuntime) (self : t) (state : AgentState.t)
  : result AgentState.t :=
  match worker_agents self REPORT_GENERATOR with
  | None => raise (Exception "<AgentType.REPORT_GENERATOR: 'report_generator'>")
  | Some report_agent =>
      let report_task :=
        {| AgentTask.task_id :=
             "report_" ++ uuid4_hex8 rt (List.length (tasks state));
           AgentTask.agent_type := REPORT_GENERATOR;
           AgentTask.query := "Generate comprehensive research report";
           AgentTask.parameters :=
             {| p_drug_name := None;
                p_therapy_area := None;
                p_query := None;
                p_title :=
                  Some ("Research Report: "
                        ++ MasterAgent.report_subject (drug_name state)
                                                      (therapy_area state));
                p_agent_responses := Some (agent_responses state);
                p_output_format := Some (output_format state) |};
           AgentTask.priority := 1;
           AgentTask.status := PENDING |} in
      response <- execute report_agent report_task ;;
      let path := Any.get "report_path" Any.PyNone (AgentResponse.data response) in
      ret {| messages :=
               (messages state
                ++ [AIMessage ("Report generated: " ++ Any.str path)])%list;
             user_query := user_query state;
             query_intent := query_intent state;
             drug_name := drug_name state;
             therapy_area := therapy_area state;
             parameters := parameters state;
             tasks := tasks state;
             current_task_index := current_task_index state;
             agent_responses := (agent_responses state ++ [response])%list;
             output_format := output_format state;
             include_charts := include_charts state;
             include_tables := include_tables state;
             generate_report := generate_report state;
             final_response := final_response state;
             report_path := path;
             iteration_count := iteration_count state;
             max_iterations := max_iterations state;
             status := "report_generated";
             error := error state |}
  end.

(** The page emoji U+1F4C4 of the report note, as its UTF-8 bytes. *)
Definition page_emoji : string :=
  String (ascii_of_nat 240) (String (ascii_of_nat 159)
    (String (ascii_of_nat 147) (String (ascii_of_nat 132) EmptyString))).

Definition _format_output_node (state : AgentState.t) : result AgentState.t :=
  match final_response state with
  | None =>
      raise (Exception "sequence item 0: expected str instance, NoneType found")
  | Some synthesized =>
      let final_parts :=
        if Any.truth (report_path state)
        then [ synthesized;
               MasterAgent.nl ++ MasterAgent.nl ++ page_emoji
               ++ " **Report Generated:** `"
               ++ Any.str (report_path state) ++ "`" ]
        else [ synthesized ] in
      let joined := Py.join MasterAgent.nl final_parts in
      ret {| messages := (messages state ++ [AIMessage joined])%list;
             user_query := user_query state;
             query_intent := query_intent state;
             drug_name := drug_name state;
             therapy_area := therapy_area state;
             parameters := parameters state;
             tasks := tasks state;
             current_task_index := current_task_index state;
             agent_responses := agent_responses state;
             output_format := output_format state;
             include_charts := include_charts state;
             include_tables := include_tables state;
             generate_report := generate_report state;
             final_response := Some joined;
             report_path := report_path state;
             iteration_count := iteration_count state;
             max_iterations := max_iterations state;
             status := "completed";
             error := error state |}
  end.

(** *** The compiled graph *)

(** The straight part of the graph: analyze, plan, execute ... *)
Definition run_to_executed (rt : PyRuntime) (self : t) (initial : AgentState.t)
  : result AgentState.t :=
  planned <- _plan_tasks_node rt self (_analyze_query_node rt self initial) ;;
  _execute_tasks_node self planned.

(** ... and synthesize. *)
Definition run_to_synthesized (rt : PyRuntime) (self : t) (initial : AgentState.t)
  : result AgentState.t :=
  executed <- run_to_executed rt self initial ;;
  _synthesize_node rt self executed.

(** The conditional edge after [synthesize] and the two ways to
    [format_output]. *)
Definition finish (rt : PyRuntime) (self : t) (synthesized : AgentState.t)
  : result AgentState.t :=
  if String.eqb (_should_generate_report synthesized) "generate_report"
  then
    reported <- _generate_report_node rt self synthesized ;;
    _format_output_node reported
  else _format_output_node synthesized.

(** [self.compiled_graph.invoke(initial_state)] *)
Definition invoke (rt : PyRuntime) (self : t) (initial : AgentState.t)
  : result AgentState.t :=
  synthesized <- run_to_synthesized rt self initial ;;
  finish rt self synthesized.

(** The dictionary [run] returns: one shape on normal termination, one
    when the graph raised an [Exception]. *)
Inductive RunResult : Type :=
| Succeeded (query : string) (response : option string)
            (agent_responses : list AgentResponse.t)
            (report_path : Any.t) (status : string)
| Failed (query : string) (error : string) (status : string).

Definition success (r : RunResult) : bool :=
  match r with
  | Succeeded _ _ _ _ _ => true
  | Failed _ _ _ => false
  end.

Definition run (rt : PyRuntime) (self : t) (query : string)
  (output_format : OutputFormat)
  (include_charts include_tables generate_report : bool) : result RunResult :=
  let initial_state :=
    create_initial_state query output_format include_charts include_tables
                         generate_report in
  try_except
    (final_state <- invoke rt self initial_state ;;
     ret (Succeeded query
                    (AgentState.final_response final_state)
                    (AgentState.agent_responses final_state)
                    (AgentState.report_path final_state)
                    (AgentState.status final_state)))
    (fun message => ret (Failed query message "failed")).

End MultiAgentOrchestrator.

(** ** Concrete runtimes and workers, used to run the model *)
Module Fixtures.

Definition rt_at (clock : string) : PyRuntime :=
  {| uuid4_hex8 := fun n => "a1b2c3d" ++ Py.str_of_nat (n mod 10);
     now_isoformat := clock;
     list_of_set := nodup string_dec;
     list_of_agent_set := nodup AgentType_eq_dec;
     json_text := fun fields =>
       "{query: " ++ json_query fields ++ ", generated_at: "
       ++ json_generated_at fields ++ "}";
     model_validate := fun _ =>
       raise (Exception "1 validation error for AgentResponse") |}.

Definition rt0 : PyRuntime := rt_at "2025-01-01T09:00:00.000001".

(** A master agent without a text-generation client. *)
Definition offline : MasterAgent.t := {| MasterAgent.llm := None |}.

(** What a well-behaved [_process_query] returns: one line of summary,
    the given tables and one reference. *)
Definition findings (agent_type : AgentType) (query : string)
  (tables : list Table) : Any.t :=
  Any.PyDict
    [ ("data",
       Any.PyDict
         match agent_type with
         | REPORT_GENERATOR => [("report_path", Any.PyStr "./reports/report.pdf")]
         | _ => []
         end);
      ("summary",
       Any.PyStr ("## " ++ AgentType_value agent_type ++ MasterAgent.nl
                  ++ "Findings for: " ++ query));
      ("tables", Any.PyList (map Any.PyDict tables));
      ("charts", Any.PyList []);
      ("references", Any.PyList [Any.PyStr "UN Comtrade Database"]) ].

(** A [BaseAgent] subclass whose [_process_query] answers without
    tables. *)
Definition working (agent_type : AgentType) : BaseAgent.t :=
  {| BaseAgent.agent_type := agent_type;
     BaseAgent._process_query := fun query _ => ret (findings agent_type query []);
     BaseAgent.elapsed_ms := fun _ => 3 |}.

(** A [BaseAgent] subclass whose [_process_query] always raises. *)
Definition broken (agent_type : AgentType) : BaseAgent.t :=
  {| BaseAgent.agent_type := agent_type;
     BaseAgent._process_query := fun _ _ =>
       raise (Exception "data source unavailable");
     BaseAgent.elapsed_ms := fun _ => 1 |}.

(** A worker whose [execute] itself raises. *)
Definition crashing : Worker :=
  {| execute := fun _ => raise (Exception "worker crashed") |}.

Definition orchestrator (implementation : AgentType -> Worker)
  : MultiAgentOrchestrator.t :=
  {| MultiAgentOrchestrator.master_agent := offline;
     MultiAgentOrchestrator.worker_agents :=
       MultiAgentOrchestrator.registry implementation |}.

(** Every worker works. *)
Definition all_working : MultiAgentOrchestrator.t :=
  orchestrator (fun a => worker_of rt0 (working a)).

(** Every analysis worker fails, the report worker works. *)
Definition all_broken : MultiAgentOrchestrator.t :=
  orchestrator (fun a =>
    match a with
    | REPORT_GENERATOR => worker_of rt0 (working a)
    | _ => worker_of rt0 (broken a)
    end).

(** The patent worker fails inside [_process_query]; the others work. *)
Definition patent_broken_workers (a : AgentType) : Worker :=
  match a with
  | PATENT => worker_of rt0 (broken a)
  | _ => worker_of rt0 (working a)
  end.

Definition patent_broken : MultiAgentOrchestrator.t :=
  orchestrator patent_broken_workers.

(** A date, as a worker may put it in a table cell. *)
Definition launch_date : Any.t :=
  Any.PyObject "date" "datetime.date" "1899-03-06" "datetime.date(1899, 3, 6)".

(** A [BaseAgent] subclass whose [_process_query] answers with a table
    that holds a date. *)
Definition dated (agent_type : AgentType) : BaseAgent.t :=
  {| BaseAgent.agent_type := agent_type;
     BaseAgent._process_query := fun query _ =>
       ret (findings agent_type query
              [ BaseAgent._format_table "Launches" ["Drug"; "Launch"]
                  [[Any.PyStr "Aspirin"; launch_date]] ]);
     BaseAgent.elapsed_ms := fun _ => 3 |}.

(** The patent worker fails inside [_process_query], the market worker
    answers with a dated table, the others work. *)
Definition patent_broken_market_dated_workers (a : AgentType) : Worker :=
  match a with
  | PATENT => worker_of rt0 (broken a)
  | IQVIA => worker_of rt0 (dated a)
  | _ => worker_of rt0 (working a)
  end.

Definition patent_broken_market_dated : MultiAgentOrchestrator.t :=
  orchestrator patent_broken_market_dated_workers.

(** A worker that is interrupted (Ctrl-C) while it executes:
    [str(KeyboardInterrupt())] is empty. *)
Definition interrupted_worker : Worker :=
  {| execute := fun _ => raise (Interrupt EmptyString) |}.

(** The patent worker is interrupted; the others work. *)
Definition patent_interrupted : MultiAgentOrchestrator.t :=
  orchestrator (fun a =>
    match a with
    | PATENT => interrupted_worker
    | _ => worker_of rt0 (working a)
    end).

(** The patent worker's [execute] raises; the others work. *)
Definition patent_crashing_workers (a : AgentType) : Worker :=
  match a with
  | PATENT => crashing
  | _ => worker_of rt0 (working a)
  end.

Definition patent_crashing : MultiAgentOrchestrator.t :=
  orchestrator patent_crashing_workers.

(** The report worker's [execute] raises; the others work. *)
Definition report_crashing : MultiAgentOrchestrator.t :=
  orchestrator (fun a =>
    match a with
    | REPORT_GENERATOR => crashing
    | _ => worker_of rt0 (working a)
    end).

(** A completed worker result. *)
Definition sample_result : AgentResponse.t :=
  {| AgentResponse.agent_type := IQVIA;
     AgentResponse.task_id := "task_a1b2c3d0";
     AgentResponse.status := COMPLETED;
     AgentResponse.data := [];
     AgentResponse.summary := "Market size: 1.2 billion USD";
     AgentResponse.tables := [];
     AgentResponse.charts := [];
     AgentResponse.references := ["IQVIA MIDAS"];
     AgentResponse.execution_time_ms := 3;
     AgentResponse.error := None |}.

(** A state whose intents were discovered in the order patent, market. *)
Definition patent_then_market : AgentState.t :=
  {| AgentState.messages := [HumanMessage "patents and market of DrugX"];
     AgentState.user_query := "patents and market of DrugX";
     AgentState.query_intent := Some "patent_analysis, market_analysis";
     AgentState.drug_name := None;
     AgentState.therapy_area := None;
     AgentState.parameters := empty_parameters;
     AgentState.tasks := [];
     AgentState.current_task_index := 0;
     AgentState.agent_responses := [];
     AgentState.output_format := TEXT;
     AgentState.include_charts := true;
     AgentState.include_tables := true;
     AgentState.generate_report := false;
     AgentState.final_response := None;
     AgentState.report_path := Any.PyNone;
     AgentState.iteration_count := 0;
     AgentState.max_iterations := 10;
     AgentState.status := "analyzed";
     AgentState.error := None |}.

End Fixtures.

(** ** Vocabulary of the properties *)
Module Spec.

(** The six analysis workers: every agent type but the master and the
    report generator. *)
Definition is_analysis_worker (a : AgentType) : bool :=
  match a with
  | MASTER | REPORT_GENERATOR => false
  | _ => true
  end.

Definition is_report_task (task : AgentTask.t) : bool :=
  AgentType_beq (AgentTask.agent_type task) REPORT_GENERATOR.

Definition has_priority (p : nat) (task : AgentTask.t) : bool :=
  Nat.eqb (AgentTask.priority task) p.

Definition by_priority (a b : AgentTask.t) : Prop :=
  AgentTask.priority a <= AgentTask.priority b.

Definition targets (plan : list AgentTask.t) : list AgentType :=
  map AgentTask.agent_type plan.

(** The tasks the dispatcher hands to workers: all but the report task. *)
Definition dispatched (plan : list AgentTask.t) : list AgentTask.t :=
  filter (fun task => negb (is_report_task task)) plan.

Definition is_failed (r : AgentResponse.t) : bool :=
  TaskStatus_beq (AgentResponse.status r) FAILED.

(** A worker that fails on every invocation with an [Exception] of
    message [message]: its [execute] raises it; or it is a [BaseAgent]
    whose [_process_query] raises it; or its [execute] answers with a
    failed response that carries the message. *)
Definition always_fails (rt : PyRuntime) (worker : Worker) (message : string)
  : Prop :=
  (forall task, execute worker task = raise (Exception message))
  \/ (exists agent,
         worker = worker_of rt agent
         /\ forall query parameters,
              BaseAgent._process_query agent query parameters
              = raise (Exception message))
  \/ (forall task,
         exists r, execute worker task = ret r
                   /\ AgentResponse.status r = FAILED
                   /\ AgentResponse.error r = Some message).

(** A worker that completes every task. *)
Definition always_completes (worker : Worker) : Prop :=
  forall task,
    exists r, execute worker task = inr r /\ AgentResponse.status r = COMPLETED.

(** [str(e)] *)
Definition message_of (e : exn) : string :=
  match e with
  | Exception message => message
  | Interrupt message => message
  end.

(** The computation was cut short by an exception outside [Exception]. *)
Definition interrupted (A : Type) (m : result A) : Prop :=
  exists message, m = raise (Interrupt message).

(** The response the dispatcher records for a task given to a worker that
    is not interrupted. *)
Definition outcome (worker : Worker) (task : AgentTask.t) : AgentResponse.t :=
  match execute worker task with
  | inr response => response
  | inl e => MultiAgentOrchestrator.failed_response task (message_of e)
  end.

(** The task list planned in a run ([[]] if the plan node raised). *)
Definition planned_tasks (rt : PyRuntime) (self : MultiAgentOrchestrator.t)
  (query : string) (fmt : OutputFormat) (ic it gr : bool) : list AgentTask.t :=
  match
    MultiAgentOrchestrator._plan_tasks_node rt self
      (MultiAgentOrchestrator._analyze_query_node rt self
         (create_initial_state query fmt ic it gr))
  with
  | inr planned => AgentState.tasks planned
  | inl _ => []
  end.

(** All the ways to keep some entries of a list, in order. *)
Fixpoint sublists (A : Type) (l : list A) : list (list A) :=
  match l with
  | [] => [[]]
  | x :: rest => (map (cons x) (sublists rest) ++ sublists rest)%list
  end.

(** The intent lists the analysis can return: a selection of the pattern
    dictionary's keys, or the default when the selection is empty. *)
Definition possible_intents : list (list string) :=
  map (fun selection =>
         match selection with
         | [] => MasterAgent.default_intents
         | _ => selection
         end)
      (sublists (map fst MasterAgent.intent_patterns)).

Fixpoint distinctb (l : list AgentType) : bool :=
  match l with
  | [] => true
  | a :: rest => negb (existsb (AgentType_beq a) rest) && distinctb rest
  end.

(** What [_determine_required_agents] computes from the listed intents. *)
Definition agents_listed (listed : string) : list AgentType :=
  match
    MasterAgent.map_some
      (fun intent => MultiAgentOrchestrator.intent_mapping (Py.strip intent))
      (Py.split ", " listed)
  with
  | [] => [IQVIA; CLINICAL_TRIALS; PATENT]
  | agents => agents
  end.

(** The same runtime read at another clock time. *)
Definition at_time (rt : PyRuntime) (clock : string) : PyRuntime :=
  {| uuid4_hex8 := uuid4_hex8 rt;
     now_isoformat := clock;
     list_of_set := list_of_set rt;
     list_of_agent_set := list_of_agent_set rt;
     json_text := json_text rt;
     model_validate := model_validate rt |}.

Definition with_generated_at (fields : JsonResponse) (clock : string)
  : JsonResponse :=
  {| json_query := json_query fields;
     json_executive_summary := json_executive_summary fields;
     json_sections := json_sections fields;
     json_tables := json_tables fields;
     json_charts := json_charts fields;
     json_references := json_references fields;
     json_generated_at := clock |}.

(** *** Whole-word occurrences of an entity name *)

Fixpoint last_char (s : string) : option ascii :=
  match s with
  | EmptyString => None
  | String c EmptyString => Some c
  | String _ rest => last_char rest
  end.

(** The character just before a position: the last of the text [before]
    it, or the character [prev] preceding that text. *)
Definition char_before (prev : option ascii) (before : string) : option ascii :=
  match last_char before with
  | Some c => Some c
  | None => prev
  end.

(** [spelled], standing between [before] and [after], is the name up to
    letter case and is not adjacent to a word character (a letter, a digit
    or the underscore). *)
Definition whole_word_at (name : string) (prev : option ascii)
  (before spelled after : string) : Prop :=
  Py.lower spelled = Py.lower name
  /\ Re.word_opt (char_before prev before) = false
  /\ Re.word_opt (Re.head after) = false.

(** The name occurs in the query as a whole word, in any letter case. *)
Definition occurs (name query : string) : Prop :=
  exists before spelled after,
    query = before ++ spelled ++ after
    /\ whole_word_at name None before spelled after.

(** A name that begins and ends with a word character. *)
Definition plain_name (name : string) : bool :=
  Re.word_opt (Re.head name) && Re.word_opt (last_char name).

(** A prefix of [s] equal to [name] up to case, with what follows it. *)
Fixpoint ci_prefix (name s : string) : option (string * string) :=
  match name, s with
  | EmptyString, _ => Some (EmptyString, s)
  | String c name', String x s' =>
      if Ascii.eqb (Py.lower_char x) (Py.lower_char c)
      then match ci_prefix name' s' with
           | Some (spelled, rest) => Some (String x spelled, rest)
           | None => None
           end
      else None
  | String _ _, EmptyString => None
  end.

(** What entity extraction over a vocabulary has to answer for a query:
    the spelling found in the query of the first vocabulary name that
    occurs, at its leftmost occurrence; nothing when no name occurs. *)
Definition extraction_spec (vocabulary : list string) (query : string)
  (answer : option string) : Prop :=
  (forall earlier name later,
      vocabulary = (earlier ++ name :: later)%list ->
      occurs name query ->
      (forall other, In other earlier -> ~ occurs other query) ->
      exists before spelled after,
        answer = Some spelled
        /\ query = before ++ spelled ++ after
        /\ whole_word_at name None before spelled after
        /\ forall before' spelled' after',
             query = before' ++ spelled' ++ after' ->
             whole_word_at name None before' spelled' after' ->
             String.length before <= String.length before')
  /\ ((forall name, In name vocabulary -> ~ occurs name query) -> answer = None).

End Spec.

(** ** agents/report_generator_agent.py: the compilation of report data *)
Module ReportGeneratorAgent.

(** An element of [agent_responses]: the dictionary of a response (what
    [_generate_report_node] passes, through [model_dump]) or the response
    object itself. *)
Inductive ReportInput : Type :=
| AsDict (fields : AgentResponse.t)
| AsObject (response : AgentResponse.t).

Record ReportSection : Type := {
  section_title : string;
  section_content : string;
  section_data : Any.dict
}.

Record ReportData : Type := {
  report_id : string;
  report_title : string;
  generated_at : string;
  report_sections : list ReportSection;
  report_tables : list Table;
  report_charts : list Chart;
  report_references : list string;
  table_count : nat;
  chart_count : nat
}.

Definition fields_of (input : ReportInput) : AgentResponse.t :=
  match input with
  | AsDict fields => fields
  | AsObject response => response
  end.

Definition section_of (input : ReportInput) : ReportSection :=
  match input with
  | AsDict fields =>
      {| section_title := AgentType_value (AgentResponse.agent_type fields);
         section_content := AgentResponse.summary fields;
         section_data := AgentResponse.data fields |}
  | AsObject response =>
      {| section_title :=
           MasterAgent.display_name
             (AgentType_value (AgentResponse.agent_type response))
           ++ " Analysis";
         section_content := AgentResponse.summary response;
         section_data := AgentResponse.data response |}
  end.

(** The sections written when no response is given. *)
Definition sample_sections : list ReportSection :=
  [ {| section_title := "Executive Summary";
       section_content :=
         "This report provides a comprehensive analysis of drug repurposing opportunities.";
       section_data := [] |};
    {| section_title := "Market Analysis";
       section_content :=
         "Market analysis indicates significant opportunities in the selected therapy areas.";
       section_data := [] |};
    {| section_title := "Patent Landscape";
       section_content :=
         "Patent analysis reveals favorable FTO status for potential development.";
       section_data := [] |};
    {| section_title := "Clinical Development";
       section_content :=
         "Clinical trial landscape shows active development with multiple sponsors.";
       section_data := [] |};
    {| section_title := "Recommendations";
       section_content :=
         "Based on the analysis, we recommend proceeding with further evaluation.";
       section_data := [] |} ].

(** [_compile_report_data]; [drawn_id] is [str(uuid.uuid4())] and [clock]
    is [datetime.now().strftime("%Y-%m-%d %H:%M:%S")]. *)
Definition _compile_report_data (rt : PyRuntime) (drawn_id clock : string)
  (agent_responses : list ReportInput) (title : string) : ReportData :=
  let sections :=
    match agent_responses with
    | [] => sample_sections
    | _ :: _ => map section_of agent_responses
    end in
  let all_tables :=
    flat_map (fun input => AgentResponse.tables (fields_of input)) agent_responses in
  let all_charts :=
    flat_map (fun input => AgentResponse.charts (fields_of input)) agent_responses in
  let all_references :=
    flat_map (fun input => AgentResponse.references (fields_of input))
             agent_responses in
  {| report_id := drawn_id;
     report_title := title;
     generated_at := clock;
     report_sections := sections;
     report_tables := all_tables;
     report_charts := all_charts;
     report_references := list_of_set rt all_references;
     table_count := List.length all_tables;
     chart_count := List.length all_charts |}.

End ReportGeneratorAgent.

(** ** Further vocabulary of the properties *)
Module Props.

(** A registry of workers derived from [BaseAgent], each constructed with
    the agent type it is registered under, as [__init__] builds it. *)
Definition base_registry (rt : PyRuntime) (agents : AgentType -> BaseAgent.t)
  (self : MultiAgentOrchestrator.t) : Prop :=
  MultiAgentOrchestrator.worker_agents self
  = MultiAgentOrchestrator.registry (fun a => worker_of rt (agents a))
  /\ forall a, BaseAgent.agent_type (agents a) = a.

(** The content of a returned value that is a dictionary whose entries
    have the declared types. *)
Definition content_of (returned : Any.t) : option AgentResponse.Content :=
  match BaseAgent.read_result returned with
  | inr given => AgentResponse.typed given
  | inl _ => None
  end.

(** The state a run is in after [execute_tasks] (the initial state if an
    earlier node raised). *)
Definition executed_state (rt : PyRuntime) (self : MultiAgentOrchestrator.t)
  (query : string) (fmt : OutputFormat) (ic it gr : bool) : AgentState.t :=
  match
    MultiAgentOrchestrator.run_to_executed rt self
      (create_initial_state query fmt ic it gr)
  with
  | inr executed => executed
  | inl _ => create_initial_state query fmt ic it gr
  end.

(** Keywords that are, alone, an alternative of a pattern of an intent. *)
Definition keyword_routes : list (string * string) :=
  [ ("iqvia", "market_analysis");
    ("export", "trade_analysis"); ("import", "trade_analysis");
    ("exim", "trade_analysis"); ("trade", "trade_analysis");
    ("sourcing", "trade_analysis");
    ("patent", "patent_analysis"); ("fto", "patent_analysis");
    ("study", "clinical_trials"); ("pipeline", "clinical_trials");
    ("enrollment", "clinical_trials"); ("endpoint", "clinical_trials");
    ("internal", "internal_knowledge");
    ("guideline", "web_intelligence"); ("publication", "web_intelligence");
    ("news", "web_intelligence"); ("regulatory", "web_intelligence");
    ("fda", "web_intelligence"); ("ema", "web_intelligence");
    ("latest", "web_intelligence");
    ("export", "report_generation"); ("download", "report_generation") ].

(** The note [_format_output_node] appends when a report was written. *)
Definition report_note (path : string) : string :=
  MasterAgent.nl ++ MasterAgent.nl ++ MultiAgentOrchestrator.page_emoji
  ++ " **Report Generated:** `" ++ path ++ "`".

(** A synthesis with other tables. *)
Definition with_tables (synthesis : MasterAgent.Synthesis) (tables : list Table)
  : MasterAgent.Synthesis :=
  {| MasterAgent.response := MasterAgent.response synthesis;
     MasterAgent.sections := MasterAgent.sections synthesis;
     MasterAgent.tables := tables;
     MasterAgent.charts := MasterAgent.charts synthesis;
     MasterAgent.references := MasterAgent.references synthesis |}.

(** The pattern matches wherever the keyword stands. *)
Definition matches_keyword (keyword : string) (pattern : Re.regex) : Prop :=
  forall prev s,
    Py.startswith keyword s = true ->
    Re.match_here pattern prev s (fun _ rest => Some rest) <> None.

(** [patterns[n]] of [self.intent_patterns[intent]]. *)
Definition pattern_of (intent : string) (n : nat) : option Re.regex :=
  match
    find (fun entry => String.eqb (fst entry) intent) MasterAgent.intent_patterns
  with
  | Some entry => nth_error (snd entry) n
  | None => None
  end.

(** The first and the last character of a text are not white space. *)
Definition trimmed (s : string) : Prop :=
  match Re.head s with
  | Some c => Py.isspace c = false
  | None => True
  end
  /\ match Spec.last_char s with
     | Some c => Py.isspace c = false
     | None => True
     end.

(** A value cut to its first ten elements, when it has elements. *)
Definition first_ten (v : Any.t) : Any.t :=
  match v with
  | Any.PyList items => Any.PyList (firstn 10 items)
  | Any.PyStr s => Any.PyStr (Py.take 10 s)
  | other => other
  end.

(** A table with its rows cut to ten. *)
Fixpoint cut_rows (table : Table) : Table :=
  match table with
  | [] => []
  | (key, v) :: rest =>
      (key, if String.eqb key "rows" then first_ten v else v) :: cut_rows rest
  end.

(** Tables cut to what [format_response] shows: five tables of ten rows. *)
Definition shown_tables (tables : list Table) : list Table :=
  map cut_rows (firstn 5 tables).

(** A table as [BaseAgent._format_table] builds it. *)
Definition built (table : Table) : Prop :=
  exists title headers rows, table = BaseAgent._format_table title headers rows.

End Props.

(** ** Further concrete inputs *)
Module Samples.

(** The report worker fails inside [_process_query]; the others work. *)
Definition report_broken_agents (a : AgentType) : BaseAgent.t :=
  match a with
  | REPORT_GENERATOR => Fixtures.broken a
  | _ => Fixtures.working a
  end.

Definition report_broken : MultiAgentOrchestrator.t :=
  Fixtures.orchestrator (fun a => worker_of Fixtures.rt0 (report_broken_agents a)).

(** The market worker answers with a dated table; the others work. *)
Definition market_dated_agents (a : AgentType) : BaseAgent.t :=
  match a with
  | IQVIA => Fixtures.dated a
  | _ => Fixtures.working a
  end.

Definition market_dated : MultiAgentOrchestrator.t :=
  Fixtures.orchestrator (fun a => worker_of Fixtures.rt0 (market_dated_agents a)).

(** Six summaries with a quotable line each. *)
Definition six_summaries : list MasterAgent.AgentSummary :=
  map (fun a => {| MasterAgent.agent := AgentType_value a;
                   MasterAgent.text := "Findings of " ++ AgentType_value a |})
      [IQVIA; EXIM; PATENT; CLINICAL_TRIALS; INTERNAL_KNOWLEDGE; WEB_INTELLIGENCE].

(** A state with a task list. *)
Definition with_tasks (state : AgentState.t) (tasks : list AgentTask.t)
  : AgentState.t :=
  {| AgentState.messages := AgentState.messages state;
     AgentState.user_query := AgentState.user_query state;
     AgentState.query_intent := AgentState.query_intent state;
     AgentState.drug_name := AgentState.drug_name state;
     AgentState.therapy_area := AgentState.therapy_area state;
     AgentState.parameters := AgentState.parameters state;
     AgentState.tasks := tasks;
     AgentState.current_task_index := AgentState.current_task_index state;
     AgentState.agent_responses := AgentState.agent_responses state;
     AgentState.output_format := AgentState.output_format state;
     AgentState.include_charts := AgentState.include_charts state;
     AgentState.include_tables := AgentState.include_tables state;
     AgentState.generate_report := AgentState.generate_report state;
     AgentState.final_response := AgentState.final_response state;
     AgentState.report_path := AgentState.report_path state;
     AgentState.iteration_count := AgentState.iteration_count state;
     AgentState.max_iterations := AgentState.max_iterations state;
     AgentState.status := AgentState.status state;
     AgentState.error := AgentState.error state |}.

(** An analysis asking for two workers and a report. *)
Definition two_workers : MasterAgent.Analysis :=
  {| MasterAgent.original_query := "market and patents of Aspirin";
     MasterAgent.drug_name := Some "Aspirin";
     MasterAgent.therapy_area := None;
     MasterAgent.intents := ["market_analysis"; "patent_analysis"];
     MasterAgent.required_agents := [IQVIA; PATENT];
     MasterAgent.needs_report := true;
     MasterAgent.parameters := empty_parameters |}.

(** The state in which the plan of that analysis waits for execution. *)
Definition two_planned : AgentState.t :=
  with_tasks Fixtures.patent_then_market
    (MasterAgent.create_task_plan Fixtures.rt0 two_workers).

End Samples.

(** * Properties *)

Open Scope list_scope.

(** ** The stable sort of the planner *)
Section SortBy.

Variable A : Type.
Variable key : A -> nat.

Let le_key (a b : A) : Prop := key a <= key b.

Lemma insert_by_perm (x : A) (l : list A) :
  Permutation (x :: l) (MasterAgent.insert_by key x l).
Proof.
  induction l as [|y l IH]; simpl.
  - apply Permutation_refl.
  - destruct (Nat.leb (key x) (key y)).
    + apply Permutation_refl.
    + eapply perm_trans; [apply perm_swap|].
      apply perm_skip, IH.
Qed.

Lemma sort_by_perm (l : list A) : Permutation l (MasterAgent.sort_by key l).
Proof.
  induction l as [|x l IH]; simpl.
  - constructor.
  - eapply perm_trans; [apply perm_skip, IH|].
    apply insert_by_perm.
Qed.

Lemma sort_by_length (l : list A) :
  List.length (MasterAgent.sort_by key l) = List.length l.
Proof. symmetry. apply Permutation_length, sort_by_perm. Qed.

Lemma insert_by_sorted (x : A) (l : list A) :
  StronglySorted le_key l -> StronglySorted le_key (MasterAgent.insert_by key x l).
Proof.
  induction 1 as [|y l Hl IH Hy]; simpl.
  - repeat constructor.
  - destruct (Nat.leb (key x) (key y)) eqn:E.
    + apply Nat.leb_le in E.
      constructor; [constructor; assumption|].
      constructor; [exact E|].
      eapply Forall_impl; [|exact Hy].
      intros z Hz. unfold le_key in *. lia.
    + apply Nat.leb_gt in E.
      constructor; [exact IH|].
      eapply Permutation_Forall; [apply insert_by_perm|].
      constructor; [unfold le_key; lia|exact Hy].
Qed.

Lemma sort_by_sorted (l : list A) :
  StronglySorted le_key (MasterAgent.sort_by key l).
Proof.
  induction l as [|x l IH]; simpl.
  - constructor.
  - apply insert_by_sorted, IH.
Qed.

(** Insertion leaves the elements of each priority in their order. *)
Lemma insert_by_filter (p : nat) (x : A) (l : list A) :
  filter (fun a => Nat.eqb (key a) p) (MasterAgent.insert_by key x l)
  = filter (fun a => Nat.eqb (key a) p) (x :: l).
Proof.
  induction l as [|y l IH]; simpl; [reflexivity|].
  destruct (Nat.leb (key x) (key y)) eqn:E; [reflexivity|].
  apply Nat.leb_gt in E. simpl in *. rewrite IH.
  destruct (Nat.eqb (key x) p) eqn:Ex, (Nat.eqb (key y) p) eqn:Ey; try reflexivity.
  apply Nat.eqb_eq in Ex, Ey. lia.
Qed.

Lemma sort_by_stable (p : nat) (l : list A) :
  filter (fun a => Nat.eqb (key a) p) (MasterAgent.sort_by key l)
  = filter (fun a => Nat.eqb (key a) p) l.
Proof.
  induction l as [|x l IH]; simpl; [reflexivity|].
  rewrite insert_by_filter. simpl. rewrite IH. reflexivity.
Qed.

Lemma insert_by_snoc (x last : A) (l : list A) :
  key x < key last ->
  MasterAgent.insert_by key x (l ++ [last])
  = MasterAgent.insert_by key x l ++ [last].
Proof.
  intros Hlt. induction l as [|y l IH]; simpl.
  - replace (Nat.leb (key x) (key last)) with true; [reflexivity|].
    symmetry. apply Nat.leb_le. lia.
  - destruct (Nat.leb (key x) (key y)); [reflexivity|].
    rewrite IH. reflexivity.
Qed.

(** An element whose key exceeds all the others, appended last, stays
    last. *)
Lemma sort_by_snoc (last : A) (l : list A) :
  Forall (fun a => key a < key last) l ->
  MasterAgent.sort_by key (l ++ [last]) = MasterAgent.sort_by key l ++ [last].
Proof.
  induction 1 as [|x l Hx Hl IH]; simpl; [reflexivity|].
  rewrite IH. apply insert_by_snoc, Hx.
Qed.

End SortBy.

(** ** The task planner *)
Section Planner.

Import MasterAgent MultiAgentOrchestrator Spec.

Variable rt : PyRuntime.

Lemma worker_tasks_targets (analysis : Analysis) (n : nat) (agents : list AgentType) :
  targets (worker_tasks rt analysis n agents) = agents.
Proof.
  revert n. induction agents as [|a agents IH]; intros n; simpl; [reflexivity|].
  f_equal. apply IH.
Qed.

Lemma worker_tasks_low (analysis : Analysis) (n : nat) (agents : list AgentType) :
  Forall (fun a => is_analysis_worker a = true) agents ->
  Forall (fun task => is_report_task task = false /\ AgentTask.priority task < 5)
         (worker_tasks rt analysis n agents).
Proof.
  intros H. revert n. induction H as [|a agents Ha _ IH]; intros n; simpl.
  - constructor.
  - constructor; [|apply IH].
    unfold is_report_task. simpl. destruct a; simpl; try discriminate; split;
      (reflexivity || lia).
Qed.

Lemma intent_mapping_range (intent : string) (a : AgentType) :
  intent_mapping intent = Some a -> is_analysis_worker a = true.
Proof.
  unfold intent_mapping.
  repeat match goal with
         | |- context [if ?b then _ else _] => destruct b
         end; intros H; inversion H; reflexivity.
Qed.

Lemma map_some_range (A B : Type) (f : A -> option B) (P : B -> Prop) (l : list A) :
  (forall x y, f x = Some y -> P y) -> Forall P (map_some f l).
Proof.
  intros Hf. induction l as [|x l IH]; simpl; [constructor|].
  destruct (f x) eqn:E; [constructor; eauto|exact IH].
Qed.

(** Once the intents are listed in the state, the agent-determination
    step answers with a non-empty list of analysis workers. *)
Lemma determine_required_agents_spec (state : AgentState.t) (listed : string) :
  AgentState.query_intent state = Some listed ->
  exists agents,
    _determine_required_agents state = inr agents
    /\ agents <> []
    /\ Forall (fun a => is_analysis_worker a = true) agents.
Proof.
  intros Hq. unfold _determine_required_agents, split_intents. rewrite Hq. simpl.
  destruct (map_some _ _) as [|a agents] eqn:E.
  - eexists. split; [reflexivity|]. split; [discriminate|].
    repeat constructor.
  - eexists. split; [reflexivity|]. split; [discriminate|].
    rewrite <- E. apply map_some_range.
    intros x y. apply intent_mapping_range.
Qed.

(** The plan node never raises once the intents are listed, and its task
    list is the planner's output for the agents determined. *)
Lemma plan_tasks_node_spec (self : MultiAgentOrchestrator.t)
  (state : AgentState.t) (listed : string) :
  AgentState.query_intent state = Some listed ->
  exists agents planned analysis,
    _determine_required_agents state = inr agents
    /\ agents <> []
    /\ Forall (fun a => is_analysis_worker a = true) agents
    /\ _plan_tasks_node rt self state = inr planned
    /\ required_agents analysis = agents
    /\ needs_report analysis = AgentState.generate_report state
    /\ AgentState.tasks planned = create_task_plan rt analysis
    /\ AgentState.user_query planned = AgentState.user_query state
    /\ AgentState.generate_report planned = AgentState.generate_report state
    /\ AgentState.agent_responses planned = AgentState.agent_responses state
    /\ AgentState.output_format planned = AgentState.output_format state.
Proof.
  intros Hq.
  destruct (determine_required_agents_spec state Hq) as (agents & Hd & Hne & Hall).
  unfold _plan_tasks_node. rewrite Hd.
  unfold split_intents. rewrite Hq. simpl.
  eexists agents, _, _.
  split; [reflexivity|]. split; [exact Hne|]. split; [exact Hall|].
  split; [reflexivity|]. simpl. repeat split; reflexivity.
Qed.

(** With the report flag set the plan is the sorted worker tasks followed
    by the one report task. *)
Lemma create_task_plan_report (analysis : Analysis) :
  needs_report analysis = true ->
  Forall (fun a => is_analysis_worker a = true) (required_agents analysis) ->
  exists front report,
    create_task_plan rt analysis = front ++ [report]
    /\ is_report_task report = true
    /\ Forall (fun task => is_report_task task = false) front
    /\ Permutation (required_agents analysis) (targets front).
Proof.
  intros Hflag Hall. unfold create_task_plan, unsorted_tasks. rewrite Hflag.
  set (workers := worker_tasks rt analysis 0 (required_agents analysis)).
  set (report := report_task rt analysis (List.length workers)).
  pose proof (worker_tasks_low analysis 0 Hall) as Hlow. fold workers in Hlow.
  exists (sort_by AgentTask.priority workers), report.
  split.
  - apply sort_by_snoc. eapply Forall_impl; [|exact Hlow].
    intros task [_ Hp]. exact Hp.
  - split; [reflexivity|]. split.
    + eapply Permutation_Forall; [apply sort_by_perm|].
      eapply Forall_impl; [|exact Hlow]. intros task [Hr _]. exact Hr.
    + rewrite <- (worker_tasks_targets analysis 0 (required_agents analysis)).
      fold workers. unfold targets. apply Permutation_map, sort_by_perm.
Qed.

(** Without the flag the plan holds no report task. *)
Lemma create_task_plan_no_report (analysis : Analysis) :
  needs_report analysis = false ->
  Forall (fun a => is_analysis_worker a = true) (required_agents analysis) ->
  Forall (fun task => is_report_task task = false) (create_task_plan rt analysis)
  /\ Permutation (required_agents analysis) (targets (create_task_plan rt analysis)).
Proof.
  intros Hflag Hall. unfold create_task_plan, unsorted_tasks. rewrite Hflag.
  pose proof (worker_tasks_low analysis 0 Hall) as Hlow. split.
  - eapply Permutation_Forall; [apply sort_by_perm|].
    eapply Forall_impl; [|exact Hlow]. intros task [Hr _]. exact Hr.
  - rewrite <- (worker_tasks_targets analysis 0 (required_agents analysis)) at 1.
    unfold targets. apply Permutation_map, sort_by_perm.
Qed.

Lemma filter_none (A : Type) (f : A -> bool) (l : list A) :
  Forall (fun x => f x = false) l -> filter f l = [].
Proof.
  induction 1 as [|x l Hx _ IH]; simpl; [reflexivity|].
  rewrite Hx. exact IH.
Qed.

(** The analysis node lists the intents and merges the two report flags. *)
Lemma analyze_query_node_spec (self : MultiAgentOrchestrator.t) (query : string)
  (fmt : OutputFormat) (ic it gr : bool) :
  let analyzed :=
    _analyze_query_node rt self (create_initial_state query fmt ic it gr) in
  AgentState.query_intent analyzed
    = Some (Py.join ", " (intents (analyze_query rt query)))
  /\ AgentState.generate_report analyzed
     = (needs_report (analyze_query rt query) || gr)
  /\ AgentState.user_query analyzed = query
  /\ AgentState.agent_responses analyzed = []
  /\ AgentState.output_format analyzed = fmt.
Proof. repeat split. Qed.

(** C3. Whenever the merged report flag is true (the caller passed
    generateReport = true, or the analysis of the query found a report
    need), the planned task list contains exactly one task for the report
    worker and that task is the last of the sorted plan, whatever the
    other tasks are. *)
Theorem report_task_once_and_last (self : MultiAgentOrchestrator.t)
  (query : string) (fmt : OutputFormat) (ic it gr : bool) :
  gr = true \/ needs_report (analyze_query rt query) = true ->
  exists planned front report,
    _plan_tasks_node rt self
      (_analyze_query_node rt self (create_initial_state query fmt ic it gr))
    = inr planned
    /\ List.length (filter is_report_task (AgentState.tasks planned)) = 1
    /\ AgentState.tasks planned = front ++ [report]
    /\ is_report_task report = true
    /\ Forall (fun task => is_report_task task = false) front.
Proof.
  intros Hflag.
  set (analyzed := _analyze_query_node rt self _).
  destruct (analyze_query_node_spec self query fmt ic it gr)
    as (Hq & Hg & _). fold analyzed in Hq, Hg.
  destruct (plan_tasks_node_spec self analyzed Hq)
    as (agents & planned & analysis & _ & _ & Hall & Hplan & Hreq & Hneed & Htasks & _).
  assert (Hon : needs_report analysis = true).
  { rewrite Hneed, Hg. destruct Hflag as [-> | ->];
      [apply orb_true_r | reflexivity]. }
  rewrite <- Hreq in Hall.
  destruct (create_task_plan_report analysis Hon Hall)
    as (front & report & Hsplit & Hrep & Hfront & _).
  exists planned, front, report.
  split; [exact Hplan|]. rewrite Htasks, Hsplit.
  split; [|split; [reflexivity|split; assumption]].
  rewrite filter_app, (filter_none _ Hfront). simpl. rewrite Hrep. reflexivity.
Qed.


(** C4. The planner's task list is in ascending order of priority and the
    sort is stable: the tasks of each priority keep the order in which
    they were inserted.  Priority beats discovery order: from the intents
    patent_analysis, market_analysis, in that order, the task of the market
    worker (priority 1) comes before the task of the patent worker
    (priority 2). *)
Theorem plan_sorted_by_priority_stable :
  (forall analysis : Analysis,
      StronglySorted by_priority (create_task_plan rt analysis)
      /\ Permutation (unsorted_tasks rt analysis) (create_task_plan rt analysis)
      /\ forall p, filter (has_priority p) (create_task_plan rt analysis)
                   = filter (has_priority p) (unsorted_tasks rt analysis))
  /\ (forall analysis : Analysis,
        required_agents analysis = [PATENT; IQVIA] ->
        targets (create_task_plan rt analysis)
        = [IQVIA; PATENT]
          ++ (if needs_report analysis then [REPORT_GENERATOR] else []))
  /\ (forall (self : MultiAgentOrchestrator.t) (state : AgentState.t),
        AgentState.query_intent state = Some "patent_analysis, market_analysis" ->
        exists planned,
          _determine_required_agents state = inr [PATENT; IQVIA]
          /\ _plan_tasks_node rt self state = inr planned
          /\ targets (AgentState.tasks planned)
             = [IQVIA; PATENT]
               ++ (if AgentState.generate_report state
                   then [REPORT_GENERATOR] else [])).
Proof.
  assert (Hexample : forall analysis : Analysis,
             required_agents analysis = [PATENT; IQVIA] ->
             targets (create_task_plan rt analysis)
             = [IQVIA; PATENT]
               ++ (if needs_report analysis then [REPORT_GENERATOR] else [])).
  { intros analysis Hreq. unfold create_task_plan, unsorted_tasks.
    rewrite Hreq. destruct (needs_report analysis); reflexivity. }
  split; [|split; [exact Hexample|]].
  - intros analysis. split; [apply sort_by_sorted|].
    split; [apply sort_by_perm|].
    intros p. apply sort_by_stable.
  - intros self state Hq.
    assert (Hd : _determine_required_agents state = inr [PATENT; IQVIA]).
    { unfold _determine_required_agents, split_intents. rewrite Hq.
      reflexivity. }
    destruct (plan_tasks_node_spec self state Hq)
      as (agents & planned & analysis & Hd' & _ & _ & Hplan & Hreq & Hneed & Htasks & _).
    rewrite Hd in Hd'. injection Hd' as <-.
    exists planned. split; [exact Hd|]. split; [exact Hplan|].
    rewrite Htasks, <- Hneed. apply Hexample, Hreq.
Qed.

(** Dropping entries of a dictionary keeps its keys distinct. *)
Lemma keys_distinct_filter (K V : Type) (keep : K * V -> bool)
  (entries : list (K * V)) :
  NoDup (map fst entries) -> NoDup (map fst (filter keep entries)).
Proof.
  induction entries as [|entry entries IH]; simpl; intros Hkeys; [constructor|].
  apply NoDup_cons_iff in Hkeys. destruct Hkeys as [Hfresh Hrest].
  destruct (keep entry); simpl; [|exact (IH Hrest)].
  apply NoDup_cons; [|exact (IH Hrest)].
  intros Hin. apply Hfresh. apply in_map_iff in Hin.
  destruct Hin as (other & Hkey & Hin). apply filter_In in Hin.
  apply in_map_iff. exists other. tauto.
Qed.

Lemma intent_names_distinct : NoDup (map fst intent_patterns).
Proof.
  repeat (constructor; [simpl; intuition discriminate|]). constructor.
Qed.

Lemma matched_intents_distinct (text : string) : NoDup (matched_intents text).
Proof. apply keys_distinct_filter, intent_names_distinct. Qed.

Lemma default_intents_distinct : NoDup default_intents.
Proof.
  repeat (constructor; [simpl; intuition discriminate|]). constructor.
Qed.

Lemma filter_nothing (A : Type) (f : A -> bool) (l : list A) :
  (forall x, In x l -> f x = false) -> filter f l = [].
Proof.
  intros H. apply filter_none, Forall_forall, H.
Qed.

(** C5. For every query the analysis returns a non-empty intent list
    without duplicates; when no intent pattern is found in the lowered
    query the list is exactly market_analysis, clinical_trials,
    patent_analysis; hence the plan of every query is non-empty. *)
Theorem intents_nonempty_deduplicated (query : string) :
  intents (analyze_query rt query) <> []
  /\ NoDup (intents (analyze_query rt query))
  /\ ((forall name patterns pattern,
          In (name, patterns) intent_patterns -> In pattern patterns ->
          Re.found pattern (Py.lower query) = false) ->
      intents (analyze_query rt query)
      = ["market_analysis"; "clinical_trials"; "patent_analysis"])
  /\ (forall (self : MultiAgentOrchestrator.t) (fmt : OutputFormat)
             (ic it gr : bool),
        exists planned,
          _plan_tasks_node rt self
            (_analyze_query_node rt self (create_initial_state query fmt ic it gr))
          = inr planned
          /\ AgentState.tasks planned <> []).
Proof.
  split; [|split; [|split]].
  - simpl. destruct (matched_intents (Py.lower query)); discriminate.
  - simpl. pose proof (matched_intents_distinct (Py.lower query)) as H.
    destruct (matched_intents (Py.lower query));
      [apply default_intents_distinct|exact H].
  - intros Hnone. simpl. unfold matched_intents.
    rewrite filter_nothing; [reflexivity|].
    intros [name patterns] Hin. simpl.
    apply not_true_is_false. intros Hex.
    apply existsb_exists in Hex. destruct Hex as (pattern & Hp & Hfound).
    rewrite (Hnone name patterns pattern Hin Hp) in Hfound. discriminate.
  - intros self fmt ic it gr.
    set (analyzed := _analyze_query_node rt self _).
    destruct (analyze_query_node_spec self query fmt ic it gr) as (Hq & _).
    fold analyzed in Hq.
    destruct (plan_tasks_node_spec self analyzed Hq)
      as (agents & planned & analysis & _ & Hne & _ & Hplan & Hreq & _ & Htasks & _).
    exists planned. split; [exact Hplan|].
    rewrite Htasks. intros Hnil.
    apply (f_equal (@List.length _)) in Hnil.
    unfold create_task_plan in Hnil. rewrite sort_by_length in Hnil.
    unfold unsorted_tasks in Hnil. rewrite Hreq in Hnil.
    destruct agents as [|a agents]; [apply Hne; reflexivity|].
    destruct (needs_report analysis); simpl in Hnil; discriminate.
Qed.

End Planner.


(** ** Computations that may raise *)
Section Results.

Lemma bind_returns (A B : Type) (m : result A) (f : A -> result B) (b : B) :
  (x <- m ;; f x) = ret b -> exists a, m = ret a /\ f a = ret b.
Proof.
  destruct m as [e|a]; simpl; intros H; [discriminate|].
  exists a. split; [reflexivity|exact H].
Qed.

Lemma bind_raises (A B : Type) (m : result A) (f : A -> result B) (e : exn) :
  (x <- m ;; f x) = raise e ->
  m = raise e \/ exists a, m = ret a /\ f a = raise e.
Proof.
  destruct m as [e'|a]; simpl; intros H.
  - left. injection H as ->. reflexivity.
  - right. exists a. split; [reflexivity|exact H].
Qed.

(** A handler that answers with a value lets nothing but an interrupt
    out. *)
Lemma handled_raises (A : Type) (body : result A) (handler : string -> A)
  (e : exn) :
  try_except body (fun message => ret (handler message)) = raise e ->
  exists message, e = Interrupt message /\ body = raise (Interrupt message).
Proof.
  destruct body as [[message|message]|a]; simpl; intros H; try discriminate.
  injection H as <-. exists message. split; reflexivity.
Qed.

End Results.

(** ** The worker dispatcher *)
Section Dispatcher.

Import MasterAgent MultiAgentOrchestrator Spec.

Variable rt : PyRuntime.
Variable self : MultiAgentOrchestrator.t.
Variable implementation : AgentType -> Worker.
Hypothesis registered : worker_agents self = registry implementation.

Let run_task (task : AgentTask.t) : AgentResponse.t :=
  outcome (implementation (AgentTask.agent_type task)) task.

Let quiet (task : AgentTask.t) : Prop :=
  ~ interrupted (execute (implementation (AgentTask.agent_type task)) task).

Lemma registered_worker (a : AgentType) :
  a <> MASTER -> worker_agents self a = Some (implementation a).
Proof.
  intros Ha. rewrite registered. unfold registry.
  destruct a; congruence.
Qed.

(** What the handler of the dispatcher records for a worker that is not
    interrupted. *)
Lemma recorded_outcome (worker : Worker) (task : AgentTask.t) :
  ~ interrupted (execute worker task) ->
  try_except (execute worker task)
             (fun message => ret (failed_response task message))
  = ret (outcome worker task).
Proof.
  unfold outcome, interrupted.
  destruct (execute worker task) as [[message|message]|r]; simpl;
    try reflexivity.
  intros H. exfalso. apply H. exists message. reflexivity.
Qed.

(** The dispatcher answers with one response per task other than the report
    task, in task order, when no worker is interrupted. *)
Lemma dispatch_outcomes (plan : list AgentTask.t) :
  Forall (fun task => AgentTask.agent_type task <> MASTER) plan ->
  Forall quiet (dispatched plan) ->
  dispatch self plan = ret (map run_task (dispatched plan)).
Proof.
  induction 1 as [|task plan Htask _ IH]; simpl; intros Hquiet; [reflexivity|].
  unfold dispatched, is_report_task in *. simpl in *.
  destruct (AgentType_beq (AgentTask.agent_type task) REPORT_GENERATOR) eqn:E;
    simpl in *; [exact (IH Hquiet)|].
  inversion Hquiet as [|? ? Hq Hrest]; subst.
  rewrite (registered_worker Htask), (@recorded_outcome _ task Hq), (IH Hrest).
  reflexivity.
Qed.

(** The dispatcher raises only when a worker it called was interrupted. *)
Lemma dispatch_raises (plan : list AgentTask.t) (e : exn) :
  Forall (fun task => AgentTask.agent_type task <> MASTER) plan ->
  dispatch self plan = raise e ->
  exists message task,
    e = Interrupt message
    /\ In task (dispatched plan)
    /\ execute (implementation (AgentTask.agent_type task)) task
       = raise (Interrupt message).
Proof.
  induction 1 as [|task plan Htask _ IH]; simpl; intros Hraise; [discriminate|].
  unfold dispatched, is_report_task in *. simpl in *.
  destruct (AgentType_beq (AgentTask.agent_type task) REPORT_GENERATOR) eqn:E;
    simpl in *; [exact (IH Hraise)|].
  rewrite (registered_worker Htask) in Hraise.
  apply bind_raises in Hraise. destruct Hraise as [Hhere | (r & _ & Hrest)].
  - apply handled_raises in Hhere. destruct Hhere as (message & -> & Hexec).
    exists message, task. split; [reflexivity|]. split; [left; reflexivity|exact Hexec].
  - apply bind_raises in Hrest. destruct Hrest as [Hrest | (rs & _ & Hret)];
      [|discriminate].
    destruct (IH Hrest) as (message & other & He & Hin & Hexec).
    exists message, other. split; [exact He|]. split; [right; exact Hin|exact Hexec].
Qed.

(** What the dispatcher returns, when it returns, is the outcome of every
    task other than the report task. *)
Lemma dispatch_returns (plan : list AgentTask.t) (responses : list AgentResponse.t) :
  Forall (fun task => AgentTask.agent_type task <> MASTER) plan ->
  dispatch self plan = ret responses ->
  responses = map run_task (dispatched plan).
Proof.
  intros Hplan. revert responses.
  induction Hplan as [|task plan Htask _ IH]; simpl; intros responses Hret.
  - injection Hret as <-. reflexivity.
  - unfold dispatched, is_report_task in *. simpl in *.
    destruct (AgentType_beq (AgentTask.agent_type task) REPORT_GENERATOR) eqn:E;
      simpl in *; [exact (IH responses Hret)|].
    rewrite (registered_worker Htask) in Hret.
    apply bind_returns in Hret. destruct Hret as (r & Hr & Hret).
    apply bind_returns in Hret. destruct Hret as (rs & Hrs & Hret).
    injection Hret as <-. rewrite (IH rs Hrs). f_equal.
    unfold run_task, outcome.
    destruct (execute (implementation (AgentTask.agent_type task)) task)
      as [[raised|raised]|response]; simpl in Hr;
      [injection Hr as <-; reflexivity|discriminate|injection Hr as <-; reflexivity].
Qed.

Variable failing : AgentType.
Variable message : string.
Hypothesis failing_fails : always_fails rt (implementation failing) message.
Hypothesis others_complete :
  forall a, a <> failing -> always_completes (implementation a).

(** The three ways of failing come to two for the dispatcher. *)
Lemma failing_execute (task : AgentTask.t) :
  execute (implementation failing) task = raise (Exception message)
  \/ exists r, execute (implementation failing) task = ret r
               /\ AgentResponse.status r = FAILED
               /\ AgentResponse.error r = Some message.
Proof.
  destruct failing_fails as [Hraise | [(agent & Hworker & Hraise) | Hanswer]].
  - left. apply Hraise.
  - right. rewrite Hworker. simpl. unfold BaseAgent.execute.
    rewrite Hraise. simpl. eexists. split; [reflexivity|]. split; reflexivity.
  - right. apply Hanswer.
Qed.

Lemma outcome_of_failing (task : AgentTask.t) :
  AgentTask.agent_type task = failing ->
  quiet task
  /\ AgentResponse.status (run_task task) = FAILED
  /\ AgentResponse.error (run_task task) = Some message.
Proof.
  intros Ha. unfold quiet, run_task, outcome, interrupted. rewrite Ha.
  destruct (failing_execute task) as [Hraise | (r & Hr & Hs & He)].
  - rewrite Hraise. split; [intros (m & Hm); discriminate|]. split; reflexivity.
  - rewrite Hr. split; [intros (m & Hm); discriminate|]. split; assumption.
Qed.

Lemma outcome_of_other (task : AgentTask.t) :
  AgentTask.agent_type task <> failing ->
  quiet task /\ AgentResponse.status (run_task task) = COMPLETED.
Proof.
  intros Ha. unfold quiet, run_task, outcome, interrupted.
  destruct (others_complete Ha task) as (r & Hr & Hs).
  rewrite Hr. split; [intros (m & Hm); discriminate|exact Hs].
Qed.

Lemma all_quiet (work : list AgentTask.t) : Forall quiet work.
Proof.
  apply Forall_forall. intros task _.
  destruct (AgentType_eq_dec (AgentTask.agent_type task) failing) as [Ha | Ha].
  - apply (outcome_of_failing task Ha).
  - apply (outcome_of_other task Ha).
Qed.

(** Tasks that do not involve the failing worker all complete. *)
Lemma outcomes_without_failing (work : list AgentTask.t) :
  ~ In failing (targets work) ->
  filter completed (map run_task work) = map run_task work
  /\ filter is_failed (map run_task work) = [].
Proof.
  induction work as [|task work IH]; simpl; intros Hnot; [split; reflexivity|].
  assert (Ha : AgentTask.agent_type task <> failing) by tauto.
  destruct IH as [IHc IHf]; [tauto|].
  unfold completed, is_failed in *.
  rewrite (proj2 (outcome_of_other task Ha)). simpl.
  rewrite IHc, IHf. split; reflexivity.
Qed.

(** With one task for the failing worker among tasks of distinct workers,
    all responses but one are completed and that one is failed and carries
    the error. *)
Lemma outcomes_with_failing (work : list AgentTask.t) :
  NoDup (targets work) ->
  In failing (targets work) ->
  List.length (filter completed (map run_task work)) = List.length work - 1
  /\ exists failed,
       filter is_failed (map run_task work) = [failed]
       /\ AgentResponse.error failed = Some message.
Proof.
  induction work as [|task work IH]; simpl; intros Hdistinct Hin; [contradiction|].
  apply NoDup_cons_iff in Hdistinct. destruct Hdistinct as [Hfresh Hrest].
  destruct (AgentType_eq_dec (AgentTask.agent_type task) failing) as [Ha | Ha].
  - destruct (outcome_of_failing task Ha) as (_ & Hs & He).
    rewrite Ha in Hfresh.
    destruct (outcomes_without_failing work Hfresh) as [Hc Hf].
    unfold completed, is_failed in *. rewrite Hs. simpl. rewrite Hc, Hf.
    split; [rewrite length_map; lia|].
    exists (run_task task). split; [reflexivity|exact He].
  - destruct Hin as [Hin | Hin]; [contradiction|].
    destruct (IH Hrest Hin) as [Hc (failed & Hf & He)].
    unfold completed, is_failed in *.
    rewrite (proj2 (outcome_of_other task Ha)). simpl.
    split; [|exists failed; split; assumption].
    rewrite Hc. destruct work; [contradiction|]. simpl. lia.
Qed.

End Dispatcher.

(** ** The workflow controller *)
Section Workflow.

Import MasterAgent MultiAgentOrchestrator Spec.

Variable rt : PyRuntime.
Variable self : MultiAgentOrchestrator.t.

Lemma selection_in_sublists (K V : Type) (keep : K * V -> bool)
  (entries : list (K * V)) :
  In (map fst (filter keep entries)) (sublists (map fst entries)).
Proof.
  induction entries as [|entry entries IH]; simpl; [left; reflexivity|].
  apply in_or_app. destruct (keep entry); simpl.
  - left. apply in_map, IH.
  - right. exact IH.
Qed.

(** The intents of an analysis are one of finitely many lists. *)
Lemma analysis_intents_possible (query : string) :
  In (intents (analyze_query rt query)) possible_intents.
Proof.
  unfold possible_intents. simpl intents.
  apply in_map_iff. exists (matched_intents (Py.lower query)).
  split; [destruct (matched_intents (Py.lower query)); reflexivity|].
  apply selection_in_sublists.
Qed.

Lemma distinctb_sound (l : list AgentType) : distinctb l = true -> NoDup l.
Proof.
  induction l as [|a l IH]; simpl; intros H; [constructor|].
  apply andb_true_iff in H. destruct H as [Hfresh Hrest].
  constructor; [|exact (IH Hrest)].
  intros Hin. apply negb_true_iff in Hfresh.
  assert (Hex : existsb (AgentType_beq a) l = true).
  { apply existsb_exists. exists a. split; [exact Hin|].
    destruct a; reflexivity. }
  congruence.
Qed.

(** Whatever intents the analysis lists, the agents determined from the
    list are distinct. *)
Lemma listed_agents_distinct (listed_intents : list string) :
  In listed_intents possible_intents ->
  NoDup (agents_listed (Py.join ", " listed_intents)).
Proof.
  intros Hin. apply distinctb_sound.
  assert (Hall : forallb (fun l => distinctb (agents_listed (Py.join ", " l)))
                         possible_intents = true) by (vm_compute; reflexivity).
  rewrite forallb_forall in Hall. exact (Hall _ Hin).
Qed.

Lemma determine_agents_listed (state : AgentState.t) (listed : string) :
  AgentState.query_intent state = Some listed ->
  _determine_required_agents state = inr (agents_listed listed).
Proof.
  intros Hq. unfold _determine_required_agents, split_intents, agents_listed.
  rewrite Hq. simpl. destruct (map_some _ _); reflexivity.
Qed.

(** The tasks handed to workers are one per required agent. *)
Lemma dispatched_plan (analysis : Analysis) :
  Forall (fun a => is_analysis_worker a = true) (required_agents analysis) ->
  Permutation (required_agents analysis)
              (targets (dispatched (create_task_plan rt analysis)))
  /\ Forall (fun task => AgentTask.agent_type task <> MASTER)
            (create_task_plan rt analysis).
Proof.
  intros Hall. destruct (needs_report analysis) eqn:Hflag.
  - destruct (create_task_plan_report rt analysis Hflag Hall)
      as (front & report & Hsplit & Hrep & Hfront & Hperm).
    rewrite Hsplit. unfold dispatched. rewrite filter_app. simpl.
    rewrite Hrep. simpl. rewrite app_nil_r.
    assert (Hkeep : filter (fun task => negb (is_report_task task)) front = front).
    { clear - Hfront. induction Hfront as [|task front Ht _ IH]; simpl;
        [reflexivity|]. rewrite Ht. simpl. rewrite IH. reflexivity. }
    rewrite Hkeep. split; [exact Hperm|].
    apply Forall_app. split.
    + apply Forall_forall. intros task Hin Hmaster.
      assert (Hin' : In MASTER (required_agents analysis)).
      { eapply Permutation_in; [apply Permutation_sym, Hperm|].
        rewrite <- Hmaster. apply in_map, Hin. }
      rewrite Forall_forall in Hall. specialize (Hall _ Hin'). discriminate.
    + constructor; [|constructor]. unfold is_report_task in Hrep.
      intros Hmaster. rewrite Hmaster in Hrep. discriminate.
  - destruct (create_task_plan_no_report rt analysis Hflag Hall) as [Hnone Hperm].
    assert (Hkeep : dispatched (create_task_plan rt analysis)
                    = create_task_plan rt analysis).
    { unfold dispatched. clear - Hnone.
      induction Hnone as [|task plan Ht _ IH]; simpl; [reflexivity|].
      rewrite Ht. simpl. rewrite IH. reflexivity. }
    rewrite Hkeep. split; [exact Hperm|].
    apply Forall_forall. intros task Hin Hmaster.
    assert (Hin' : In MASTER (required_agents analysis)).
    { eapply Permutation_in; [apply Permutation_sym, Hperm|].
      rewrite <- Hmaster. apply in_map, Hin. }
    rewrite Forall_forall in Hall. specialize (Hall _ Hin'). discriminate.
Qed.

(** What the plan node leaves as it is. *)
Lemma plan_tasks_node_keeps (state planned : AgentState.t) :
  _plan_tasks_node rt self state = ret planned ->
  AgentState.report_path planned = AgentState.report_path state
  /\ AgentState.final_response planned = AgentState.final_response state
  /\ AgentState.include_tables planned = AgentState.include_tables state
  /\ AgentState.include_charts planned = AgentState.include_charts state
  /\ AgentState.drug_name planned = AgentState.drug_name state
  /\ AgentState.therapy_area planned = AgentState.therapy_area state.
Proof.
  unfold _plan_tasks_node. intros H.
  apply bind_returns in H. destruct H as (listed & _ & H).
  apply bind_returns in H. destruct H as (required & _ & H).
  injection H as <-. simpl. repeat split.
Qed.

(** The execute node appends the responses of the dispatcher and raises
    only when the dispatcher does. *)
Lemma execute_tasks_node_returns (state executed : AgentState.t) :
  _execute_tasks_node self state = ret executed ->
  exists responses,
    dispatch self (AgentState.tasks state) = ret responses
    /\ AgentState.agent_responses executed
       = AgentState.agent_responses state ++ responses
    /\ AgentState.user_query executed = AgentState.user_query state
    /\ AgentState.generate_report executed = AgentState.generate_report state
    /\ AgentState.output_format executed = AgentState.output_format state
    /\ AgentState.report_path executed = AgentState.report_path state
    /\ AgentState.include_tables executed = AgentState.include_tables state
    /\ AgentState.include_charts executed = AgentState.include_charts state
    /\ AgentState.drug_name executed = AgentState.drug_name state
    /\ AgentState.therapy_area executed = AgentState.therapy_area state.
Proof.
  unfold _execute_tasks_node. intros H.
  apply bind_returns in H. destruct H as (responses & Hd & H).
  injection H as <-. exists responses. simpl. repeat split. exact Hd.
Qed.

Lemma execute_tasks_node_raises (state : AgentState.t) (e : exn) :
  _execute_tasks_node self state = raise e ->
  dispatch self (AgentState.tasks state) = raise e.
Proof.
  unfold _execute_tasks_node. intros H.
  apply bind_raises in H. destruct H as [H | (responses & _ & H)];
    [exact H|discriminate].
Qed.

(** The synthesize node stores the formatted synthesis and raises only
    when the synthesis or its formatting does. *)
Lemma synthesize_node_returns (state synthesized : AgentState.t) :
  _synthesize_node rt self state = ret synthesized ->
  exists synthesis text,
    synthesis_of rt self state = ret synthesis
    /\ format_response rt synthesis (AgentState.include_tables state)
         (AgentState.include_charts state) = ret text
    /\ AgentState.final_response synthesized = Some text
    /\ AgentState.agent_responses synthesized = AgentState.agent_responses state
    /\ AgentState.generate_report synthesized = AgentState.generate_report state
    /\ AgentState.report_path synthesized = AgentState.report_path state
    /\ AgentState.output_format synthesized = AgentState.output_format state
    /\ AgentState.drug_name synthesized = AgentState.drug_name state
    /\ AgentState.therapy_area synthesized = AgentState.therapy_area state.
Proof.
  unfold _synthesize_node. intros H.
  apply bind_returns in H. destruct H as (synthesis & Hs & H).
  apply bind_returns in H. destruct H as (text & Hf & H).
  injection H as <-. exists synthesis, text. simpl. repeat split; assumption.
Qed.

Variables (query : string) (fmt : OutputFormat) (ic it gr : bool).

Let initial : AgentState.t := create_initial_state query fmt ic it gr.

(** The first two stages of a run never raise; the plan they produce has
    one dispatched task per determined agent, and the agents are distinct
    analysis workers. *)
Lemma run_plan :
  exists planned,
    _plan_tasks_node rt self (_analyze_query_node rt self initial) = inr planned
    /\ planned_tasks rt self query fmt ic it gr = AgentState.tasks planned
    /\ NoDup (targets (dispatched (AgentState.tasks planned)))
    /\ dispatched (AgentState.tasks planned) <> []
    /\ Forall (fun task => AgentTask.agent_type task <> MASTER)
              (AgentState.tasks planned)
    /\ AgentState.user_query planned = query
    /\ AgentState.generate_report planned
       = (needs_report (analyze_query rt query) || gr)
    /\ AgentState.agent_responses planned = []
    /\ AgentState.output_format planned = fmt.
Proof.
  set (analyzed := _analyze_query_node rt self initial).
  destruct (analyze_query_node_spec rt self query fmt ic it gr)
    as (Hq & Hg & Hu & Hr & Hf).
  fold initial in Hq, Hg, Hu, Hr, Hf. fold analyzed in Hq, Hg, Hu, Hr, Hf.
  destruct (plan_tasks_node_spec rt self analyzed Hq)
    as (agents & planned & analysis & Hd & Hne & Hall & Hplan & Hreq & Hneed
        & Htasks & Hu' & Hg' & Hr' & Hf').
  exists planned. split; [exact Hplan|].
  split; [unfold planned_tasks; fold initial; fold analyzed; rewrite Hplan;
          reflexivity|].
  rewrite (determine_agents_listed analyzed Hq) in Hd. injection Hd as Hd.
  assert (Hdistinct : NoDup agents).
  { rewrite <- Hd. apply listed_agents_distinct, analysis_intents_possible. }
  rewrite <- Hreq in Hall.
  destruct (dispatched_plan analysis Hall) as [Hperm Hmaster].
  rewrite Htasks.
  split; [eapply Permutation_NoDup; [exact Hperm|]; rewrite Hreq; exact Hdistinct|].
  split.
  { intros Hnil. rewrite Hnil in Hperm. apply Permutation_sym in Hperm.
    apply Permutation_nil in Hperm. rewrite Hreq in Hperm. contradiction. }
  split; [exact Hmaster|].
  rewrite Hu', Hg', Hr', Hf'. repeat split; assumption.
Qed.


(** The state after [execute_tasks], when the node returns. *)
Lemma run_to_executed_returns (executed : AgentState.t) :
  run_to_executed rt self initial = ret executed ->
  exists planned,
    _plan_tasks_node rt self (_analyze_query_node rt self initial) = ret planned
    /\ _execute_tasks_node self planned = ret executed
    /\ dispatch self (AgentState.tasks planned)
       = ret (AgentState.agent_responses executed)
    /\ AgentState.user_query executed = query
    /\ AgentState.generate_report executed
       = (needs_report (analyze_query rt query) || gr)
    /\ AgentState.output_format executed = fmt
    /\ AgentState.report_path executed = Any.PyNone
    /\ AgentState.include_tables executed = it
    /\ AgentState.include_charts executed = ic
    /\ AgentState.drug_name executed = drug_name (analyze_query rt query)
    /\ AgentState.therapy_area executed = therapy_area (analyze_query rt query).
Proof.
  intros Hrun.
  destruct run_plan as (planned & Hplan & _ & _ & _ & _ & Hu & Hg & Hr & Hf).
  unfold run_to_executed in Hrun. rewrite Hplan in Hrun. simpl in Hrun.
  destruct (plan_tasks_node_keeps _ Hplan) as (Hp & _ & Hit & Hic & Hd & Ht).
  destruct (execute_tasks_node_returns _ Hrun)
    as (responses & Hdispatch & Hresponses & Hu' & Hg' & Hf' & Hp' & Hit' & Hic'
        & Hd' & Ht').
  exists planned. split; [exact Hplan|]. split; [exact Hrun|].
  rewrite Hr in Hresponses. simpl in Hresponses. rewrite Hresponses.
  split; [exact Hdispatch|].
  rewrite Hu', Hg', Hf', Hp', Hit', Hic', Hd', Ht', Hu, Hg, Hf, Hp, Hit, Hic, Hd, Ht.
  repeat split.
Qed.

(** The first three stages raise only when a worker was interrupted. *)
Lemma run_to_executed_raises (e : exn) :
  run_to_executed rt self initial = raise e ->
  exists planned,
    _plan_tasks_node rt self (_analyze_query_node rt self initial) = ret planned
    /\ dispatch self (AgentState.tasks planned) = raise e.
Proof.
  intros Hrun.
  destruct run_plan as (planned & Hplan & _).
  unfold run_to_executed in Hrun. rewrite Hplan in Hrun. simpl in Hrun.
  exists planned. split; [exact Hplan|].
  apply execute_tasks_node_raises. exact Hrun.
Qed.

(** The format node completes any state that holds a synthesized text. *)
Lemma format_output_completes (state : AgentState.t) (text : string) :
  AgentState.final_response state = Some text ->
  exists final text',
    _format_output_node state = ret final
    /\ AgentState.status final = "completed"
    /\ AgentState.final_response final = Some text'
    /\ AgentState.agent_responses final = AgentState.agent_responses state
    /\ AgentState.report_path final = AgentState.report_path state.
Proof.
  intros Hf. unfold _format_output_node. rewrite Hf.
  eexists _, _. split; [reflexivity|]. simpl. repeat split.
Qed.

(** After synthesis the graph either raises in the report node or ends in
    [completed]. *)
Lemma finish_cases (synthesized : AgentState.t) (text : string) :
  AgentState.final_response synthesized = Some text ->
  (exists e, finish rt self synthesized = raise e
             /\ AgentState.generate_report synthesized = true
             /\ _generate_report_node rt self synthesized = raise e)
  \/ (exists final text',
        finish rt self synthesized = ret final
        /\ AgentState.status final = "completed"
        /\ AgentState.final_response final = Some text').
Proof.
  intros Hf. unfold finish, _should_generate_report.
  destruct (AgentState.generate_report synthesized) eqn:Hg; simpl.
  - destruct (_generate_report_node rt self synthesized) as [e|reported] eqn:Hnode;
      simpl; [left; exists e; repeat split|].
    right.
    assert (Hf' : AgentState.final_response reported = Some text).
    { unfold _generate_report_node in Hnode.
      destruct (worker_agents self REPORT_GENERATOR) as [report_agent|];
        [|discriminate].
      apply bind_returns in Hnode. destruct Hnode as (response & _ & Hnode).
      injection Hnode as <-. exact Hf. }
    destruct (format_output_completes reported Hf')
      as (final & text' & Hfin & Hs & Ht & _).
    exists final, text'. repeat split; assumption.
  - right. destruct (format_output_completes synthesized Hf)
      as (final & text' & Hfin & Hs & Ht & _).
    exists final, text'. repeat split; assumption.
Qed.

(** When the report worker answers, the graph ends in [completed]. *)
Lemma finish_completes (synthesized : AgentState.t) (text : string) :
  AgentState.final_response synthesized = Some text ->
  (AgentState.generate_report synthesized = true ->
   exists report_agent,
     worker_agents self REPORT_GENERATOR = Some report_agent
     /\ forall task, exists r, execute report_agent task = ret r) ->
  exists final text',
    finish rt self synthesized = ret final
    /\ AgentState.status final = "completed"
    /\ AgentState.final_response final = Some text'.
Proof.
  intros Hf Hreport.
  destruct (finish_cases synthesized Hf) as [(e & _ & Hg & He) | Hdone];
    [|exact Hdone].
  exfalso. destruct (Hreport Hg) as (report_agent & Hw & Hok).
  unfold _generate_report_node in He. rewrite Hw in He.
  match type of He with
  | context [execute report_agent ?task] =>
      destruct (Hok task) as (r & Hr); rewrite Hr in He
  end.
  simpl in He. discriminate.
Qed.

Lemma invoke_unfold :
  invoke rt self initial
  = (executed <- run_to_executed rt self initial ;;
     synthesized <- _synthesize_node rt self executed ;;
     finish rt self synthesized).
Proof.
  unfold invoke, run_to_synthesized.
  destruct (run_to_executed rt self initial); reflexivity.
Qed.

Lemma invoke_after_execute (executed : AgentState.t) :
  run_to_executed rt self initial = ret executed ->
  invoke rt self initial
  = (synthesized <- _synthesize_node rt self executed ;;
     finish rt self synthesized).
Proof. intros H. rewrite invoke_unfold, H. reflexivity. Qed.

Lemma run_unfold :
  run rt self query fmt ic it gr
  = match invoke rt self initial with
    | inr final =>
        ret (Succeeded query (AgentState.final_response final)
                       (AgentState.agent_responses final)
                       (AgentState.report_path final)
                       (AgentState.status final))
    | inl (Exception message) => ret (Failed query message "failed")
    | inl (Interrupt message) => raise (Interrupt message)
    end.
Proof.
  unfold run. fold initial.
  destruct (invoke rt self initial) as [[message|message]|final]; reflexivity.
Qed.

(** The outcomes of the graph: where it can raise and how it ends. *)
Lemma invoke_cases :
  match invoke rt self initial with
  | inr final =>
      exists executed synthesized text,
        run_to_executed rt self initial = ret executed
        /\ _synthesize_node rt self executed = ret synthesized
        /\ finish rt self synthesized = ret final
        /\ AgentState.final_response final = Some text
        /\ AgentState.status final = "completed"
  | inl e =>
      run_to_executed rt self initial = raise e
      \/ exists executed,
           run_to_executed rt self initial = ret executed
           /\ (_synthesize_node rt self executed = raise e
               \/ exists synthesized,
                    _synthesize_node rt self executed = ret synthesized
                    /\ AgentState.generate_report synthesized = true
                    /\ _generate_report_node rt self synthesized = raise e)
  end.
Proof.
  rewrite invoke_unfold.
  destruct (run_to_executed rt self initial) as [e|executed]; simpl;
    [left; reflexivity|].
  destruct (_synthesize_node rt self executed) as [e|synthesized] eqn:Hs; simpl.
  { right. exists executed. split; [reflexivity|left; exact Hs]. }
  destruct (synthesize_node_returns _ Hs) as (synthesis & text & _ & _ & Hf & _).
  destruct (finish_cases synthesized Hf)
    as [(e & He & Hg & Hnode) | (final & text' & Hfin & Hstatus & Ht)].
  - rewrite He. right. exists executed. split; [reflexivity|]. right.
    exists synthesized. repeat split; assumption.
  - rewrite Hfin. exists executed, synthesized, text'. repeat split; assumption.
Qed.

(** Whatever the registry holds, the dispatcher lets nothing but an
    interrupt of a worker out: the exceptions of a worker are recorded. *)
Lemma dispatch_absorbs (plan : list AgentTask.t) (e : exn) :
  dispatch self plan = raise e -> exists message, e = Interrupt message.
Proof.
  induction plan as [|task plan IH]; simpl; intros Hraise; [discriminate|].
  destruct (AgentType_beq (AgentTask.agent_type task) REPORT_GENERATOR);
    [exact (IH Hraise)|].
  destruct (worker_agents self (AgentTask.agent_type task)) as [agent|];
    [|exact (IH Hraise)].
  apply bind_raises in Hraise. destruct Hraise as [Hhere | (r & _ & Hrest)].
  - apply handled_raises in Hhere. destruct Hhere as (message & -> & _).
    exists message. reflexivity.
  - apply bind_raises in Hrest. destruct Hrest as [Hrest | (rs & _ & Hret)];
      [exact (IH Hrest)|discriminate].
Qed.

(** C6, amended. The blocking run never raises an exception derived from
    Exception.  When the graph raises one, the run returns the result with
    success = false, the error message, the original query and status
    failed; this happens only in the synthesize node or in the report
    node, the exceptions of the analysis workers being recorded by the
    dispatcher.  On normal termination the run returns success = true, the
    final response and status completed.  An exception outside Exception
    (KeyboardInterrupt, SystemExit) raised in a stage passes every handler
    and propagates out of the run to its caller. *)
Theorem run_returns_result :
  match invoke rt self initial with
  | inr final =>
      exists text,
        AgentState.final_response final = Some text
        /\ AgentState.status final = "completed"
        /\ run rt self query fmt ic it gr
           = ret (Succeeded query (Some text) (AgentState.agent_responses final)
                            (AgentState.report_path final) "completed")
  | inl (Exception message) =>
      run rt self query fmt ic it gr = ret (Failed query message "failed")
      /\ exists executed,
           run_to_executed rt self initial = ret executed
           /\ (_synthesize_node rt self executed = raise (Exception message)
               \/ exists synthesized,
                    _synthesize_node rt self executed = ret synthesized
                    /\ AgentState.generate_report synthesized = true
                    /\ _generate_report_node rt self synthesized
                       = raise (Exception message))
  | inl (Interrupt message) =>
      run rt self query fmt ic it gr = raise (Interrupt message)
  end
  /\ (forall outcome,
        run rt self query fmt ic it gr = ret outcome ->
        match outcome with
        | Succeeded asked _ _ _ status =>
            asked = query /\ status = "completed" /\ success outcome = true
        | Failed asked _ status =>
            asked = query /\ status = "failed" /\ success outcome = false
        end)
  /\ (forall e,
        run rt self query fmt ic it gr = raise e ->
        exists message,
          e = Interrupt message
          /\ invoke rt self initial = raise (Interrupt message)).
Proof.
  pose proof invoke_cases as Hcases. rewrite run_unfold.
  destruct (invoke rt self initial) as [[message|message]|final].
  - split; [|split].
    + split; [reflexivity|].
      destruct Hcases as [Hexec | Hlater]; [|exact Hlater].
      exfalso. destruct (run_to_executed_raises Hexec) as (planned & _ & Hd).
      destruct (dispatch_absorbs _ Hd) as (other & Hother). discriminate.
    + intros outcome H. injection H as <-. repeat split.
    + intros e H. discriminate.
  - split; [reflexivity|]. split.
    + intros outcome H. discriminate.
    + intros e H. injection H as <-. exists message. split; reflexivity.
  - destruct Hcases as (executed & synthesized & text & _ & _ & _ & Ht & Hs).
    rewrite Ht, Hs. split; [|split].
    + exists text. repeat split.
    + intros outcome H. injection H as <-. repeat split.
    + intros e H. discriminate.
Qed.

(** The sections of a synthesis are those of the completed results. *)
Lemma synthesis_sections (m : MasterAgent.t) (text : string)
  (responses : list AgentResponse.t) (mode : OutputFormat) (synthesis : Synthesis) :
  synthesize_responses rt m text responses mode = ret synthesis ->
  sections synthesis
  = map (fun r =>
           {| title := display_name (AgentType_value (AgentResponse.agent_type r));
              content := AgentResponse.summary r |})
        (filter completed responses)
  /\ tables synthesis = flat_map AgentResponse.tables (filter completed responses)
  /\ charts synthesis = flat_map AgentResponse.charts (filter completed responses).
Proof.
  unfold synthesize_responses. intros H.
  apply bind_returns in H. destruct H as (summary & _ & H).
  injection H as <-. cbn [sections tables charts]. rewrite map_map.
  repeat split.
Qed.

(** C1, amended. For every run that ends with success = true the
    synthesized response has exactly one narrative section per dispatched
    worker result of status completed: at least one section when at least
    one worker completed, and none when every dispatched worker failed. *)
Theorem successful_run_sections (outcome : RunResult) :
  run rt self query fmt ic it gr = ret outcome ->
  success outcome = true ->
  exists executed synthesis synthesized final,
    run_to_executed rt self initial = ret executed
    /\ synthesis_of rt self executed = ret synthesis
    /\ _synthesize_node rt self executed = ret synthesized
    /\ finish rt self synthesized = ret final
    /\ outcome
       = Succeeded query (AgentState.final_response final)
                   (AgentState.agent_responses final)
                   (AgentState.report_path final) "completed"
    /\ List.length (sections synthesis)
       = List.length (filter completed (AgentState.agent_responses executed))
    /\ (Exists (fun r => completed r = true) (AgentState.agent_responses executed) ->
        sections synthesis <> [])
    /\ (Forall (fun r => completed r = false) (AgentState.agent_responses executed) ->
        sections synthesis = []).
Proof.
  intros Hrun Hsuccess. rewrite run_unfold in Hrun.
  pose proof invoke_cases as Hcases.
  destruct (invoke rt self initial) as [[message|message]|final];
    [injection Hrun as <-; discriminate|discriminate|].
  destruct Hcases as (executed & synthesized & text & Hexec & Hsyn & Hfin & _ & Hs).
  injection Hrun as <-. rewrite Hs.
  destruct (synthesize_node_returns _ Hsyn) as (synthesis & shown & Hof & _).
  exists executed, synthesis, synthesized, final.
  split; [exact Hexec|]. split; [exact Hof|]. split; [exact Hsyn|].
  split; [exact Hfin|]. split; [reflexivity|].
  destruct (synthesis_sections _ _ _ _ Hof) as (Hsections & _).
  assert (Hcount :
            List.length (sections synthesis)
            = List.length (filter completed (AgentState.agent_responses executed))).
  { rewrite Hsections, length_map. reflexivity. }
  split; [exact Hcount|]. split.
  - intros Hex Hnil. rewrite Hnil in Hcount. simpl in Hcount.
    apply Exists_exists in Hex. destruct Hex as (r & Hin & Hr).
    assert (Hin' : In r (filter completed (AgentState.agent_responses executed)))
      by (apply filter_In; split; assumption).
    destruct (filter completed _); [contradiction|discriminate].
  - intros Hall. rewrite (filter_none _ Hall) in Hcount.
    destruct (sections synthesis); [reflexivity|discriminate].
Qed.

Lemma needs_report_unfold :
  needs_report (analyze_query rt query)
  = existsb (String.eqb "report_generation") (intents (analyze_query rt query))
    || existsb (fun word => Py.contains word (Py.lower query)) report_words.
Proof. reflexivity. Qed.

(** The merged report flag reaches the conditional edge unchanged. *)
Lemma synthesized_flag (synthesized : AgentState.t) :
  run_to_synthesized rt self initial = ret synthesized ->
  AgentState.generate_report synthesized
  = (needs_report (analyze_query rt query) || gr).
Proof.
  unfold run_to_synthesized. intros H.
  apply bind_returns in H. destruct H as (executed & Hexec & Hsyn).
  destruct (run_to_executed_returns Hexec) as (_ & _ & _ & _ & _ & Hg & _).
  destruct (synthesize_node_returns _ Hsyn) as (_ & _ & _ & _ & _ & _ & Hg' & _).
  rewrite Hg', Hg. reflexivity.
Qed.

End Workflow.


(** ** Failure isolation across a run *)
Section Isolation.

Import MasterAgent MultiAgentOrchestrator Spec.

Variable rt : PyRuntime.
Variable self : MultiAgentOrchestrator.t.
Variable implementation : AgentType -> Worker.
Hypothesis registered : worker_agents self = registry implementation.

Variables (query : string) (fmt : OutputFormat) (ic it gr : bool).

Let initial : AgentState.t := create_initial_state query fmt ic it gr.

Lemma dispatched_not_report (plan : list AgentTask.t) (a : AgentType) :
  In a (targets (dispatched plan)) -> a <> REPORT_GENERATOR.
Proof.
  unfold targets, dispatched. intros Hin Ha.
  apply in_map_iff in Hin. destruct Hin as (task & Htask & Hin).
  apply filter_In in Hin. destruct Hin as [_ Hnot].
  unfold is_report_task in Hnot. rewrite Htask, Ha in Hnot. discriminate.
Qed.


(** C10. When report_generation is the only intent matched, the agent
    determination of the workflow finds no worker for it and falls back to
    the three default workers, so three analysis tasks are planned besides
    the report task, and the execute node hands each of the three to its
    worker and records its response (or stops at a worker that is
    interrupted). *)
Theorem report_only_query_plans_defaults :
  intents (analyze_query rt query) = ["report_generation"] ->
  _determine_required_agents (_analyze_query_node rt self initial)
  = ret [IQVIA; CLINICAL_TRIALS; PATENT]
  /\ exists planned,
       _plan_tasks_node rt self (_analyze_query_node rt self initial) = ret planned
       /\ targets (AgentState.tasks planned)
          = [IQVIA; CLINICAL_TRIALS; PATENT; REPORT_GENERATOR]
       /\ targets (dispatched (AgentState.tasks planned))
          = [IQVIA; CLINICAL_TRIALS; PATENT]
       /\ run_to_executed rt self initial = _execute_tasks_node self planned
       /\ match _execute_tasks_node self planned with
          | inr executed =>
              AgentState.agent_responses executed
              = map (fun task =>
                       outcome (implementation (AgentTask.agent_type task)) task)
                    (dispatched (AgentState.tasks planned))
              /\ List.length (AgentState.agent_responses executed) = 3
          | inl e =>
              exists raised task,
                e = Interrupt raised
                /\ In task (dispatched (AgentState.tasks planned))
                /\ execute (implementation (AgentTask.agent_type task)) task
                   = raise (Interrupt raised)
          end.
Proof.
  intros Hintents.
  set (analyzed := _analyze_query_node rt self initial).
  destruct (analyze_query_node_spec rt self query fmt ic it gr)
    as (Hq & Hg & _ & Hnone & _).
  fold initial in Hq, Hg, Hnone. fold analyzed in Hq, Hg, Hnone.
  rewrite Hintents in Hq.
  assert (Hneeds : needs_report (analyze_query rt query) = true)
    by (rewrite needs_report_unfold, Hintents; reflexivity).
  rewrite Hneeds in Hg. change (true || gr)%bool with true in Hg.
  assert (Hd : _determine_required_agents analyzed
               = ret [IQVIA; CLINICAL_TRIALS; PATENT])
    by (rewrite (determine_agents_listed analyzed Hq); reflexivity).
  split; [exact Hd|].
  destruct (plan_tasks_node_spec rt self analyzed Hq)
    as (agents & planned & analysis & Hd' & _ & _ & Hplan & Hreq & Hneed & Htasks
        & _ & _ & Hnone' & _).
  rewrite Hd in Hd'. injection Hd' as <-.
  rewrite Hg in Hneed.
  assert (Htargets : targets (AgentState.tasks planned)
                     = [IQVIA; CLINICAL_TRIALS; PATENT; REPORT_GENERATOR]).
  { rewrite Htasks. unfold create_task_plan, unsorted_tasks.
    rewrite Hreq, Hneed. reflexivity. }
  assert (Hwork : targets (dispatched (AgentState.tasks planned))
                  = [IQVIA; CLINICAL_TRIALS; PATENT]).
  { rewrite Htasks. unfold create_task_plan, unsorted_tasks.
    rewrite Hreq, Hneed. reflexivity. }
  assert (Hmaster : Forall (fun task => AgentTask.agent_type task <> MASTER)
                           (AgentState.tasks planned)).
  { apply Forall_forall. intros task Hin Hmaster.
    assert (Hin' : In MASTER (targets (AgentState.tasks planned)))
      by (rewrite <- Hmaster; apply in_map, Hin).
    rewrite Htargets in Hin'. simpl in Hin'. intuition discriminate. }
  exists planned. split; [exact Hplan|]. split; [exact Htargets|].
  split; [exact Hwork|]. split.
  { unfold run_to_executed. fold analyzed. rewrite Hplan. reflexivity. }
  destruct (_execute_tasks_node self planned) as [e|executed] eqn:Hnode.
  - apply (@execute_tasks_node_raises self) in Hnode.
    exact (@dispatch_raises self implementation registered _ _ Hmaster Hnode).
  - destruct (@execute_tasks_node_returns self planned executed Hnode)
      as (responses & Hdispatch & Hresponses & _).
    rewrite Hnone', Hnone in Hresponses. simpl in Hresponses. subst responses.
    pose proof (@dispatch_returns self implementation registered _ _ Hmaster Hdispatch)
      as Hrecorded.
    split; [exact Hrecorded|].
    rewrite Hrecorded, length_map.
    apply (f_equal (@List.length _)) in Hwork. unfold targets in Hwork.
    rewrite length_map in Hwork. exact Hwork.
Qed.

End Isolation.

(** ** Entity extraction *)
Section Extraction.

Import MasterAgent Spec.

Lemma lower_char_word (x : ascii) : Py.is_word (Py.lower_char x) = Py.is_word x.
Proof. destruct x as [[] [] [] [] [] [] [] []]; reflexivity. Qed.

Lemma same_lower_same_class (x c : ascii) :
  Py.lower_char x = Py.lower_char c -> Py.is_word x = Py.is_word c.
Proof.
  intros H. rewrite <- (lower_char_word x), <- (lower_char_word c), H.
  reflexivity.
Qed.

Lemma last_char_cons (c : ascii) (s : string) :
  last_char (String c s) = char_before (Some c) s.
Proof.
  unfold char_before. revert c.
  induction s as [|x s IH]; intros c; [reflexivity|].
  change (last_char (String c (String x s))) with (last_char (String x s)).
  rewrite (IH x). destruct (last_char s); reflexivity.
Qed.

Lemma char_before_cons (prev : option ascii) (c : ascii) (s : string) :
  char_before prev (String c s) = char_before (Some c) s.
Proof.
  unfold char_before at 1. rewrite last_char_cons.
  unfold char_before. destruct (last_char s); reflexivity.
Qed.

(** *** The case-insensitive prefix *)

Lemma ci_prefix_sound (name s spelled rest : string) :
  ci_prefix name s = Some (spelled, rest) ->
  s = (spelled ++ rest)%string /\ Py.lower spelled = Py.lower name.
Proof.
  revert s spelled rest.
  induction name as [|c name IH]; intros s spelled rest H; simpl in H.
  - injection H as <- <-. split; reflexivity.
  - destruct s as [|x s]; [discriminate|].
    destruct (Ascii.eqb (Py.lower_char x) (Py.lower_char c)) eqn:E;
      [|discriminate].
    destruct (ci_prefix name s) as [[spelled' rest']|] eqn:E'; [|discriminate].
    injection H as <- <-. apply Ascii.eqb_eq in E.
    destruct (IH _ _ _ E') as [-> Hl]. simpl. rewrite E, Hl.
    split; reflexivity.
Qed.

Lemma ci_prefix_complete (name spelled rest : string) :
  Py.lower spelled = Py.lower name ->
  ci_prefix name (spelled ++ rest)%string = Some (spelled, rest).
Proof.
  revert spelled.
  induction name as [|c name IH]; intros spelled H.
  - destruct spelled; [reflexivity|discriminate].
  - destruct spelled as [|x spelled]; [discriminate|].
    simpl in H. injection H as Hx Hrest. simpl.
    rewrite Hx, Ascii.eqb_refl, (IH _ Hrest). reflexivity.
Qed.

Lemma same_lower_head (name spelled : string) :
  Py.lower spelled = Py.lower name ->
  Re.word_opt (Re.head spelled) = Re.word_opt (Re.head name).
Proof.
  destruct name, spelled; simpl; intros H; try discriminate; [reflexivity|].
  injection H as Hx _. apply same_lower_same_class, Hx.
Qed.

Lemma same_lower_last (name spelled : string) :
  Py.lower spelled = Py.lower name ->
  Re.word_opt (last_char spelled) = Re.word_opt (last_char name).
Proof.
  revert spelled. induction name as [|c name IH]; intros spelled H.
  - destruct spelled; [reflexivity|discriminate].
  - destruct spelled as [|x spelled]; [discriminate|].
    simpl in H. injection H as Hx Hrest.
    destruct name as [|c' name]; destruct spelled as [|x' spelled];
      try discriminate.
    + simpl. apply same_lower_same_class, Hx.
    + change (last_char (String x (String x' spelled)))
        with (last_char (String x' spelled)).
      change (last_char (String c (String c' name)))
        with (last_char (String c' name)).
      apply IH, Hrest.
Qed.

(** *** The matcher on a name pattern *)

Lemma match_str_i (A : Type) (name : string) (prev : option ascii) (s : string)
  (k : option ascii -> string -> option A) :
  Re.match_here (Re.str_i name) prev s k
  = match ci_prefix name s with
    | Some (spelled, rest) => k (char_before prev spelled) rest
    | None => None
    end.
Proof.
  revert prev s. induction name as [|c name IH]; intros prev s; simpl.
  - reflexivity.
  - destruct s as [|x s]; [reflexivity|].
    destruct (Ascii.eqb (Py.lower_char x) (Py.lower_char c)); [|reflexivity].
    rewrite IH. destruct (ci_prefix name s) as [[spelled rest]|]; [|reflexivity].
    rewrite char_before_cons. reflexivity.
Qed.

Lemma head_app (a b : string) :
  Re.head (a ++ b)%string
  = match a with EmptyString => Re.head b | String c _ => Some c end.
Proof. destruct a; reflexivity. Qed.

(** At one position, the pattern of a plain name matches exactly a
    whole-word spelling of the name. *)
Lemma match_word_pattern (name : string) (prev : option ascii) (s : string) :
  plain_name name = true ->
  Re.match_here (Re.word_pattern name) prev s (fun _ rest => Some rest)
  = if Re.word_opt prev then None
    else match ci_prefix name s with
         | Some (_, rest) => if Re.word_opt (Re.head rest) then None else Some rest
         | None => None
         end.
Proof.
  intros Hplain. apply andb_true_iff in Hplain. destruct Hplain as [Hhead Hlast].
  unfold Re.word_pattern.
  change (Re.match_here (Re.Cat Re.WordB (Re.Cat (Re.str_i name) Re.WordB)) prev s
            (fun _ rest => Some rest))
    with (if Re.at_boundary prev s
          then Re.match_here (Re.str_i name) prev s
                 (fun prev' s' =>
                    if Re.at_boundary prev' s' then Some s' else None)
          else None).
  rewrite match_str_i.
  destruct (ci_prefix name s) as [[spelled rest]|] eqn:E.
  - destruct (ci_prefix_sound _ _ E) as [-> Hl].
    assert (Hh : Re.word_opt (Re.head (spelled ++ rest)%string) = true).
    { rewrite head_app. destruct spelled as [|x spelled].
      - destruct name; [discriminate Hhead|discriminate Hl].
      - rewrite <- Hhead, <- (same_lower_head _ _ Hl). reflexivity. }
    assert (Hb : Re.word_opt (char_before prev spelled) = true).
    { pose proof (same_lower_last _ _ Hl) as Hs. rewrite Hlast in Hs.
      unfold char_before. destruct (last_char spelled); [exact Hs|discriminate]. }
    unfold Re.at_boundary. rewrite Hh, Hb.
    destruct (Re.word_opt prev), (Re.word_opt (Re.head rest)); reflexivity.
  - destruct (Re.at_boundary prev s), (Re.word_opt prev); reflexivity.
Qed.


(** *** Searching for a name *)

Lemma search_from_unfold (r : Re.regex) (prev : option ascii) (s : string) :
  Re.search_from r prev s
  = match Re.match_here r prev s (fun _ rest => Some rest) with
    | Some rest => Some (Py.take (String.length s - String.length rest) s)
    | None =>
        match s with
        | EmptyString => None
        | String c s' => Re.search_from r (Some c) s'
        end
    end.
Proof. destruct s; reflexivity. Qed.

Lemma length_append (a b : string) :
  String.length (a ++ b)%string = String.length a + String.length b.
Proof. induction a as [|c a IH]; simpl; [reflexivity|]. rewrite IH. reflexivity. Qed.

Lemma take_length_app (a b : string) :
  Py.take (String.length a) (a ++ b)%string = a.
Proof. induction a as [|c a IH]; simpl; [destruct b; reflexivity|]. rewrite IH. reflexivity. Qed.

Lemma take_matched (spelled rest : string) :
  Py.take (String.length (spelled ++ rest)%string - String.length rest)
          (spelled ++ rest)%string = spelled.
Proof.
  rewrite length_append.
  replace (String.length spelled + String.length rest - String.length rest)
    with (String.length spelled) by lia.
  apply take_length_app.
Qed.

Variable name : string.
Hypothesis name_plain : plain_name name = true.

(** At the start of [s] the matcher decides whether a whole-word spelling
    of the name stands there. *)
Lemma match_at_start (prev : option ascii) (s : string) :
  (exists spelled rest,
      Re.match_here (Re.word_pattern name) prev s (fun _ rest => Some rest)
      = Some rest
      /\ s = (spelled ++ rest)%string
      /\ whole_word_at name prev EmptyString spelled rest)
  \/ (Re.match_here (Re.word_pattern name) prev s (fun _ rest => Some rest) = None
      /\ forall spelled after,
           s = (spelled ++ after)%string ->
           ~ whole_word_at name prev EmptyString spelled after).
Proof.
  rewrite (@match_word_pattern name prev s name_plain).
  destruct (Re.word_opt prev) eqn:Hprev.
  { right. split; [reflexivity|]. intros spelled after _ (_ & Hb & _).
    unfold char_before in Hb. simpl in Hb. congruence. }
  destruct (ci_prefix name s) as [[spelled rest]|] eqn:E.
  - destruct (ci_prefix_sound _ _ E) as [Hs Hl].
    destruct (Re.word_opt (Re.head rest)) eqn:Hrest.
    + right. split; [reflexivity|]. intros spelled' after' Hs' (Hl' & _ & Ha).
      rewrite Hs', (@ci_prefix_complete name spelled' after' Hl') in E.
      injection E as _ <-. congruence.
    + left. exists spelled, rest. split; [reflexivity|]. split; [exact Hs|].
      repeat split; assumption.
  - right. split; [reflexivity|]. intros spelled' after' Hs' (Hl' & _).
    rewrite Hs', (@ci_prefix_complete name spelled' after' Hl') in E. discriminate.
Qed.

Lemma search_from_hit (prev : option ascii) (s spelled rest : string) :
  Re.match_here (Re.word_pattern name) prev s (fun _ rest => Some rest) = Some rest ->
  s = (spelled ++ rest)%string ->
  Re.search_from (Re.word_pattern name) prev s = Some spelled.
Proof.
  intros Hm ->. rewrite search_from_unfold, Hm, take_matched. reflexivity.
Qed.

Lemma search_from_miss (prev : option ascii) (c : ascii) (s : string) :
  Re.match_here (Re.word_pattern name) prev (String c s) (fun _ rest => Some rest)
  = None ->
  Re.search_from (Re.word_pattern name) prev (String c s)
  = Re.search_from (Re.word_pattern name) (Some c) s.
Proof. intros Hm. rewrite search_from_unfold, Hm. reflexivity. Qed.

(** [search] answers with the leftmost whole-word spelling of the name, and
    with nothing exactly when there is none. *)
Lemma search_word_pattern (s : string) :
  forall prev,
    match Re.search_from (Re.word_pattern name) prev s with
    | Some spelled =>
        exists before after,
          s = (before ++ spelled ++ after)%string
          /\ whole_word_at name prev before spelled after
          /\ forall before' spelled' after',
               s = (before' ++ spelled' ++ after')%string ->
               whole_word_at name prev before' spelled' after' ->
               String.length before <= String.length before'
    | None =>
        forall before spelled after,
          s = (before ++ spelled ++ after)%string ->
          ~ whole_word_at name prev before spelled after
    end.
Proof.
  induction s as [|c s IH]; intros prev.
  - destruct (match_at_start prev EmptyString)
      as [(spelled & rest & Hm & Hs & Hw) | (Hm & Hmiss)].
    + rewrite (@search_from_hit prev _ spelled rest Hm Hs).
      exists EmptyString, rest. split; [exact Hs|]. split; [exact Hw|].
      intros. simpl. lia.
    + rewrite search_from_unfold, Hm.
      intros before spelled after Hs.
      destruct before; [|discriminate]. exact (Hmiss spelled after Hs).
  - destruct (match_at_start prev (String c s))
      as [(spelled & rest & Hm & Hs & Hw) | (Hm & Hmiss)].
    + rewrite (@search_from_hit prev _ spelled rest Hm Hs).
      exists EmptyString, rest. split; [exact Hs|]. split; [exact Hw|].
      intros. simpl. lia.
    + rewrite (@search_from_miss prev c s Hm). specialize (IH (Some c)).
      destruct (Re.search_from (Re.word_pattern name) (Some c) s) as [spelled|].
      * destruct IH as (before & after & Hs & (Hl & Hb & Ha) & Hleft).
        exists (String c before), after. split; [simpl; rewrite Hs; reflexivity|].
        split; [repeat split; try assumption; rewrite char_before_cons; exact Hb|].
        intros before' spelled' after' Hs' Hw'.
        destruct before' as [|c' before']; [exfalso; exact (Hmiss spelled' after' Hs' Hw')|].
        simpl in Hs'. injection Hs' as <- Hs'.
        destruct Hw' as (Hl' & Hb' & Ha'). rewrite char_before_cons in Hb'.
        simpl. apply le_n_S. apply (Hleft before' spelled' after' Hs').
        repeat split; assumption.
      * intros before spelled after Hs Hw.
        destruct before as [|c' before]; [exact (Hmiss spelled after Hs Hw)|].
        simpl in Hs. injection Hs as <- Hs.
        destruct Hw as (Hl & Hb & Ha). rewrite char_before_cons in Hb.
        apply (IH before spelled after Hs). repeat split; assumption.
Qed.

(** The two readings of [search] on a whole query. *)
Lemma search_some (query spelled : string) :
  Re.search (Re.word_pattern name) query = Some spelled ->
  exists before after,
    query = (before ++ spelled ++ after)%string
    /\ whole_word_at name None before spelled after
    /\ forall before' spelled' after',
         query = (before' ++ spelled' ++ after')%string ->
         whole_word_at name None before' spelled' after' ->
         String.length before <= String.length before'.
Proof.
  intros H. pose proof (search_word_pattern query None) as Hspec.
  unfold Re.search in H. rewrite H in Hspec. exact Hspec.
Qed.

Lemma search_none (query : string) :
  Re.search (Re.word_pattern name) query = None <-> ~ occurs name query.
Proof.
  pose proof (search_word_pattern query None) as Hspec. unfold Re.search.
  destruct (Re.search_from (Re.word_pattern name) None query) as [spelled|].
  - split; [discriminate|]. intros Hnot. exfalso. apply Hnot.
    destruct Hspec as (before & after & Hs & Hw & _).
    exists before, spelled, after. split; assumption.
  - split; [|reflexivity]. intros _ (before & spelled & after & Hs & Hw).
    exact (Hspec _ _ _ Hs Hw).
Qed.

End Extraction.

(** Extraction over a vocabulary of plain names meets its specification. *)
Lemma first_group_spec (vocabulary : list string) (query : string) :
  forallb Spec.plain_name vocabulary = true ->
  Spec.extraction_spec vocabulary query
    (MasterAgent.first_group (map Re.word_pattern vocabulary) query).
Proof.
  induction vocabulary as [|first vocabulary IH]; intros Hplain.
  - split; [|reflexivity].
    intros earlier name later Hv. destruct earlier; discriminate.
  - simpl in Hplain. apply andb_true_iff in Hplain.
    destruct Hplain as [Hfirst Hrest]. specialize (IH Hrest).
    destruct IH as [IHsome IHnone]. simpl.
    destruct (Re.search (Re.word_pattern first) query) as [spelled|] eqn:E.
    + assert (Hocc : Spec.occurs first query).
      { destruct (@search_some first Hfirst query spelled E)
          as (before & after & Hs & Hw & _).
        exists before, spelled, after. split; assumption. }
      split.
      * intros earlier name later Hv _ Hnot.
        destruct earlier as [|other earlier].
        { simpl in Hv. injection Hv as <- _.
          destruct (@search_some first Hfirst query spelled E)
            as (before & after & Hs & Hw & Hleft).
          exists before, spelled, after. repeat split; try assumption;
            apply Hw. }
        { simpl in Hv. injection Hv as <- _. exfalso.
          apply (Hnot first); [left; reflexivity|exact Hocc]. }
      * intros Hnot. exfalso. apply (Hnot first); [left; reflexivity|exact Hocc].
    + assert (Hmiss : ~ Spec.occurs first query)
        by (apply (@search_none first Hfirst query); exact E).
      split.
      * intros earlier name later Hv Hocc Hnot.
        destruct earlier as [|other earlier].
        { simpl in Hv. injection Hv as <- _. contradiction. }
        { simpl in Hv. injection Hv as <- Hv.
          apply (IHsome earlier name later Hv Hocc).
          intros other Hin. apply Hnot. right. exact Hin. }
      * intros Hnot. apply IHnone. intros name Hin. apply Hnot. right. exact Hin.
Qed.

(** C7, amended. For every query made of characters up to U+00FF, entity
    extraction answers with the first name of the vocabulary (drug names
    for the primary entity, therapy areas for the secondary one) that
    occurs in the query as a whole word, matched without regard to letter
    case and whatever non-word characters surround it; the value returned
    is the occurrence as it is spelled in the query, at its leftmost
    position, which equals the vocabulary name up to letter case.  When no
    name of the vocabulary occurs the entity is absent. *)
Theorem entity_extraction_spelled_as_in_query (query : string) :
  Spec.extraction_spec DRUG_NAMES query (MasterAgent._extract_drug_name query)
  /\ Spec.extraction_spec THERAPY_AREAS query
       (MasterAgent._extract_therapy_area query).
Proof.
  split.
  - apply first_group_spec. vm_compute. reflexivity.
  - apply first_group_spec. vm_compute. reflexivity.
Qed.

(** ** The response synthesizer *)

(** C8, amended. With the text-generation client unavailable, synthesizing
    the same query and the same worker results twice gives identical
    content in every output mode but JSON; in the JSON mode the two
    responses are identical except for the generated_at field, which holds
    the clock time of each call.  Sections, tables, charts and references
    agree in every mode, and the executive summary is the fallback summary,
    a total function of the completed results: neither it nor the
    synthesis raises. *)
Theorem synthesis_repeatable_up_to_timestamp (rt : PyRuntime)
  (self : MasterAgent.t) (query : string) (responses : list AgentResponse.t)
  (fmt : OutputFormat) (clock1 clock2 : string) :
  MasterAgent.llm self = None ->
  exists first second,
    MasterAgent.synthesize_responses (Spec.at_time rt clock1) self query
      responses fmt = ret first
    /\ MasterAgent.synthesize_responses (Spec.at_time rt clock2) self query
         responses fmt = ret second
    /\ (fmt <> JSON -> first = second)
    /\ (fmt = JSON ->
        exists fields,
          MasterAgent.response first
          = MasterAgent.DictResponse (Spec.with_generated_at fields clock1)
          /\ MasterAgent.response second
             = MasterAgent.DictResponse (Spec.with_generated_at fields clock2))
    /\ MasterAgent.sections first = MasterAgent.sections second
    /\ MasterAgent.tables first = MasterAgent.tables second
    /\ MasterAgent.charts first = MasterAgent.charts second
    /\ MasterAgent.references first = MasterAgent.references second
    /\ (forall summaries,
          MasterAgent._create_executive_summary self query summaries
          = ret (MasterAgent.fallback_summary summaries)).
Proof.
  intros Hllm.
  assert (Hsummary : forall summaries,
             MasterAgent._create_executive_summary self query summaries
             = ret (MasterAgent.fallback_summary summaries)).
  { intros summaries. unfold MasterAgent._create_executive_summary.
    rewrite Hllm. reflexivity. }
  unfold MasterAgent.synthesize_responses. rewrite !Hsummary. simpl bind.
  eexists _, _. split; [reflexivity|]. split; [reflexivity|].
  split; [|split].
  - intros Hfmt. destruct fmt; try reflexivity. contradiction.
  - intros ->. simpl.
    eexists {| json_query := query; json_generated_at := EmptyString |}.
    split; reflexivity.
  - repeat split; try reflexivity. exact Hsummary.
Qed.

(** ** The properties at concrete inputs *)

Lemma report_task_once_and_last_witness :
  (true = true
   \/ MasterAgent.needs_report
        (MasterAgent.analyze_query Fixtures.rt0 "market size of Aspirin") = true)
  /\ exists planned front report,
       MultiAgentOrchestrator._plan_tasks_node Fixtures.rt0 Fixtures.all_working
         (MultiAgentOrchestrator._analyze_query_node Fixtures.rt0 Fixtures.all_working
            (create_initial_state "market size of Aspirin" TEXT true true true))
       = inr planned
       /\ List.length (filter Spec.is_report_task (AgentState.tasks planned)) = 1
       /\ AgentState.tasks planned = front ++ [report]
       /\ Spec.is_report_task report = true
       /\ Forall (fun task => Spec.is_report_task task = false) front.
Proof.
  assert (H : true = true
              \/ MasterAgent.needs_report
                   (MasterAgent.analyze_query Fixtures.rt0 "market size of Aspirin")
                 = true) by (left; reflexivity).
  split; [exact H|].
  exact (@report_task_once_and_last Fixtures.rt0 Fixtures.all_working
           "market size of Aspirin" TEXT true true true H).
Defined.

Lemma plan_sorted_by_priority_stable_witness :
  AgentState.query_intent Fixtures.patent_then_market
  = Some "patent_analysis, market_analysis"
  /\ exists planned,
       MultiAgentOrchestrator._plan_tasks_node Fixtures.rt0 Fixtures.all_working
         Fixtures.patent_then_market = inr planned
       /\ Spec.targets (AgentState.tasks planned) = [IQVIA; PATENT].
Proof.
  split; [reflexivity|].
  destruct (proj2 (proj2 (@plan_sorted_by_priority_stable Fixtures.rt0))
              Fixtures.all_working Fixtures.patent_then_market eq_refl)
    as (planned & _ & Hplan & Htargets).
  exists planned. split; [exact Hplan|exact Htargets].
Defined.

(** A query is free of intents when a scan of all patterns finds none. *)
Lemma no_pattern_found (text : string) :
  forallb (fun entry => forallb (fun pattern => negb (Re.found pattern text)) (snd entry))
          MasterAgent.intent_patterns = true ->
  forall name patterns pattern,
    In (name, patterns) MasterAgent.intent_patterns -> In pattern patterns ->
    Re.found pattern text = false.
Proof.
  intros Hall name patterns pattern Hin Hp.
  rewrite forallb_forall in Hall. specialize (Hall _ Hin). simpl in Hall.
  rewrite forallb_forall in Hall. specialize (Hall _ Hp).
  apply negb_true_iff. exact Hall.
Qed.

Lemma intents_nonempty_deduplicated_witness :
  MasterAgent.intents (MasterAgent.analyze_query Fixtures.rt0 "Tell me about DrugX")
  = ["market_analysis"; "clinical_trials"; "patent_analysis"].
Proof.
  apply (proj1 (proj2 (proj2
           (@intents_nonempty_deduplicated Fixtures.rt0 "Tell me about DrugX")))).
  apply no_pattern_found. vm_compute. reflexivity.
Defined.

(** C1, as stated, fails: with every analysis worker failing the run still
    returns success = true, and its synthesized response has no section. *)
Lemma all_workers_fail_run_succeeds :
  exists outcome executed synthesis,
    MultiAgentOrchestrator.run Fixtures.rt0 Fixtures.all_broken "hello" TEXT
      true true false = ret outcome
    /\ MultiAgentOrchestrator.success outcome = true
    /\ MultiAgentOrchestrator.run_to_executed Fixtures.rt0 Fixtures.all_broken
         (create_initial_state "hello" TEXT true true false) = ret executed
    /\ Forall (fun r => AgentResponse.status r = FAILED)
              (AgentState.agent_responses executed)
    /\ MultiAgentOrchestrator.synthesis_of Fixtures.rt0 Fixtures.all_broken
         executed = ret synthesis
    /\ MasterAgent.sections synthesis = [].
Proof.
  eexists _, _, _.
  split; [vm_compute; reflexivity|]. split; [reflexivity|].
  split; [vm_compute; reflexivity|].
  split; [repeat constructor|]. split; vm_compute; reflexivity.
Qed.

Lemma successful_run_sections_witness :
  exists outcome executed synthesis,
    MultiAgentOrchestrator.run Fixtures.rt0 Fixtures.patent_broken
      "market size and patents of Aspirin" TEXT true true false = ret outcome
    /\ MultiAgentOrchestrator.success outcome = true
    /\ MultiAgentOrchestrator.run_to_executed Fixtures.rt0 Fixtures.patent_broken
         (create_initial_state "market size and patents of Aspirin" TEXT
            true true false) = ret executed
    /\ MultiAgentOrchestrator.synthesis_of Fixtures.rt0 Fixtures.patent_broken
         executed = ret synthesis
    /\ List.length (MasterAgent.sections synthesis)
       = List.length
           (filter MasterAgent.completed (AgentState.agent_responses executed)).
Proof.
  destruct (MultiAgentOrchestrator.run Fixtures.rt0 Fixtures.patent_broken
              "market size and patents of Aspirin" TEXT true true false)
    as [e|outcome] eqn:Hrun; [vm_compute in Hrun; discriminate|].
  assert (Hsuccess : MultiAgentOrchestrator.success outcome = true).
  { vm_compute in Hrun. injection Hrun as <-. reflexivity. }
  destruct (@successful_run_sections Fixtures.rt0 Fixtures.patent_broken
              "market size and patents of Aspirin" TEXT true true false
              outcome Hrun Hsuccess)
    as (executed & synthesis & synthesized & final & Hexec & Hof & _ & _ & _
        & Hcount & _).
  exists outcome, executed, synthesis.
  repeat split; assumption || reflexivity.
Defined.

(** A [BaseAgent] lets nothing but an interrupt out of [execute]. *)
Lemma base_agent_absorbs (rt : PyRuntime) (agent : BaseAgent.t)
  (task : AgentTask.t) (e : exn) :
  BaseAgent.execute rt agent task = raise e -> exists message, e = Interrupt message.
Proof.
  unfold BaseAgent.execute. intros H. apply handled_raises in H.
  destruct H as (message & -> & _). exists message. reflexivity.
Qed.

(** A [BaseAgent] whose [_process_query] raises an [Exception] answers
    with a failed response that carries its message. *)
Lemma base_agent_failure (rt : PyRuntime) (agent : BaseAgent.t)
  (task : AgentTask.t) (message : string) :
  BaseAgent._process_query agent (AgentTask.query task) (AgentTask.parameters task)
  = raise (Exception message) ->
  exists failed,
    BaseAgent.execute rt agent task = ret failed
    /\ AgentResponse.status failed = FAILED
    /\ AgentResponse.error failed = Some message
    /\ AgentResponse.agent_type failed = BaseAgent.agent_type agent
    /\ AgentResponse.task_id failed = AgentTask.task_id task
    /\ AgentResponse.data failed = [].
Proof.
  intros Hraise. unfold BaseAgent.execute. rewrite Hraise. simpl.
  eexists. split; [reflexivity|]. simpl. repeat split.
Qed.

(** The workers of the sample registries complete every task. *)
Lemma working_completes (a : AgentType) :
  Spec.always_completes (worker_of Fixtures.rt0 (Fixtures.working a)).
Proof. intros task. eexists. split; reflexivity. Qed.

Lemma dated_completes (a : AgentType) :
  Spec.always_completes (worker_of Fixtures.rt0 (Fixtures.dated a)).
Proof. intros task. eexists. split; reflexivity. Qed.

Lemma broken_fails (a : AgentType) :
  Spec.always_fails Fixtures.rt0 (worker_of Fixtures.rt0 (Fixtures.broken a))
    "data source unavailable".
Proof.
  right. left. exists (Fixtures.broken a). split; [reflexivity|].
  intros query parameters. reflexivity.
Qed.



(** C6, as stated, fails: a worker interrupted while it executes makes the
    run raise. *)
Lemma interrupt_escapes_run :
  MultiAgentOrchestrator.run Fixtures.rt0 Fixtures.patent_interrupted
    "hello" TEXT true true false
  = raise (Interrupt EmptyString).
Proof. vm_compute. reflexivity. Qed.

(** The three outcomes of a run occur. *)
Lemma run_failure_example :
  MultiAgentOrchestrator.run Fixtures.rt0 Fixtures.report_crashing
    "market size, as a pdf" TEXT true true false
  = ret (MultiAgentOrchestrator.Failed "market size, as a pdf" "worker crashed"
           "failed").
Proof. vm_compute. reflexivity. Qed.

Lemma run_success_example :
  exists text responses,
    MultiAgentOrchestrator.run Fixtures.rt0 Fixtures.all_working
      "market size, as a pdf" TEXT true true false
    = ret (MultiAgentOrchestrator.Succeeded "market size, as a pdf" (Some text)
             responses (Any.PyStr "./reports/report.pdf") "completed").
Proof. eexists _, _. vm_compute. reflexivity. Qed.


Lemma report_only_query_plans_defaults_witness :
  MasterAgent.intents (MasterAgent.analyze_query Fixtures.rt0 "generate report")
  = ["report_generation"]%string
  /\ exists planned executed,
       MultiAgentOrchestrator._plan_tasks_node Fixtures.rt0 Fixtures.all_working
         (MultiAgentOrchestrator._analyze_query_node Fixtures.rt0 Fixtures.all_working
            (create_initial_state "generate report" TEXT true true false))
       = ret planned
       /\ Spec.targets (AgentState.tasks planned)
          = [IQVIA; CLINICAL_TRIALS; PATENT; REPORT_GENERATOR]
       /\ MultiAgentOrchestrator._execute_tasks_node Fixtures.all_working planned
          = ret executed
       /\ List.length (AgentState.agent_responses executed) = 3.
Proof.
  assert (H : MasterAgent.intents
                (MasterAgent.analyze_query Fixtures.rt0 "generate report")
              = ["report_generation"]%string) by (vm_compute; reflexivity).
  split; [exact H|].
  destruct (@report_only_query_plans_defaults Fixtures.rt0 Fixtures.all_working
              (fun a => worker_of Fixtures.rt0 (Fixtures.working a)) eq_refl
              "generate report" TEXT true true false H)
    as (_ & planned & Hplan & Htargets & _ & _ & Hnode).
  exists planned.
  destruct (MultiAgentOrchestrator._execute_tasks_node Fixtures.all_working planned)
    as [e|executed].
  - exfalso. destruct Hnode as (raised & task & _ & _ & Hexec).
    destruct (working_completes (AgentTask.agent_type task) task) as (r & Hr & _).
    rewrite Hr in Hexec. discriminate.
  - exists executed. split; [exact Hplan|]. split; [exact Htargets|].
    split; [reflexivity|exact (proj2 Hnode)].
Defined.

(** C7, as stated, fails: the query contains the known name Metformin as a
    whole word, in lower case, and the value returned is the spelling of
    the query, not the name. *)
Lemma lowercase_query_returns_its_spelling :
  Spec.occurs "Metformin" "what about metformin?"
  /\ MasterAgent._extract_drug_name "what about metformin?" = Some "metformin"
  /\ MasterAgent._extract_drug_name "what about metformin?" <> Some "Metformin".
Proof.
  split.
  - exists "what about ", "metformin", "?".
    split; [reflexivity|]. repeat split; vm_compute; reflexivity.
  - split; [vm_compute; reflexivity|]. vm_compute. discriminate.
Qed.

(** The underscore is a word character: it hides a name next to it. *)
Lemma underscore_hides_name :
  MasterAgent._extract_drug_name "dose_Metformin_500" = None
  /\ MasterAgent._extract_drug_name "dose (Metformin), 500" = Some "Metformin".
Proof. split; vm_compute; reflexivity. Qed.

Lemma entity_extraction_spelled_as_in_query_witness :
  exists spelled,
    MasterAgent._extract_drug_name "Aspirin or METFORMIN?" = Some spelled
    /\ Py.lower spelled = "metformin".
Proof.
  assert (Hocc : Spec.occurs "Metformin" "Aspirin or METFORMIN?").
  { exists "Aspirin or ", "METFORMIN", "?".
    split; [reflexivity|]. repeat split; vm_compute; reflexivity. }
  assert (Hnone : forall other, In other ["Remdesivir"] ->
                    ~ Spec.occurs other "Aspirin or METFORMIN?").
  { intros other [<- | []].
    apply (@search_none "Remdesivir" eq_refl "Aspirin or METFORMIN?").
    vm_compute. reflexivity. }
  destruct (proj1 (proj1 (entity_extraction_spelled_as_in_query
                            "Aspirin or METFORMIN?"))
              ["Remdesivir"] "Metformin" (skipn 2 DRUG_NAMES) eq_refl Hocc Hnone)
    as (before & spelled & after & Hanswer & _ & (Hlower & _) & _).
  exists spelled. split; [exact Hanswer|exact Hlower].
Defined.

(** C8, as stated, fails in the JSON mode: two calls on the same query and
    results, one microsecond apart, give different responses. *)
Lemma json_synthesis_changes_with_clock :
  MasterAgent.synthesize_responses (Fixtures.rt_at "2025-01-01T09:00:00.000001")
    Fixtures.offline "market of Aspirin" [Fixtures.sample_result] JSON
  <> MasterAgent.synthesize_responses (Fixtures.rt_at "2025-01-01T09:00:00.000002")
       Fixtures.offline "market of Aspirin" [Fixtures.sample_result] JSON.
Proof.
  intros H.
  apply (f_equal (fun synthesized =>
                    match synthesized with
                    | inr synthesis =>
                        match MasterAgent.response synthesis with
                        | MasterAgent.DictResponse fields => json_generated_at fields
                        | MasterAgent.TextResponse _ => EmptyString
                        end
                    | inl _ => EmptyString
                    end)) in H.
  vm_compute in H. discriminate.
Qed.

Lemma synthesis_repeatable_up_to_timestamp_witness :
  MasterAgent.llm Fixtures.offline = None
  /\ MasterAgent.synthesize_responses
       (Spec.at_time Fixtures.rt0 "2025-01-01T09:00:00.000001")
       Fixtures.offline "market of Aspirin" [Fixtures.sample_result] TEXT
     = MasterAgent.synthesize_responses
         (Spec.at_time Fixtures.rt0 "2025-01-01T09:00:00.000002")
         Fixtures.offline "market of Aspirin" [Fixtures.sample_result] TEXT.
Proof.
  split; [reflexivity|].
  destruct (@synthesis_repeatable_up_to_timestamp Fixtures.rt0
              Fixtures.offline "market of Aspirin" [Fixtures.sample_result]
              TEXT "2025-01-01T09:00:00.000001" "2025-01-01T09:00:00.000002"
              eq_refl)
    as (first & second & Hfirst & Hsecond & Hsame & _).
  rewrite Hfirst, Hsecond, Hsame; [reflexivity|discriminate].
Defined.

(** ** The model on the sample queries of the repository *)

Example display_names :
  map (fun a => MasterAgent.display_name (AgentType_value a))
      [IQVIA; EXIM; PATENT; CLINICAL_TRIALS; INTERNAL_KNOWLEDGE;
       WEB_INTELLIGENCE; REPORT_GENERATOR]
  = ["Iqvia Insights"; "Exim Trends"; "Patent Landscape"; "Clinical Trials";
     "Internal Knowledge"; "Web Intelligence"; "Report Generator"].
Proof. vm_compute. reflexivity. Qed.

Example analysis_of_multi_agent_query :
  let analysis :=
    MasterAgent.analyze_query Fixtures.rt0
      "Analyze Metformin including market size, patents, and clinical trials" in
  MasterAgent.intents analysis
  = ["market_analysis"; "patent_analysis"; "clinical_trials"]
  /\ MasterAgent.drug_name analysis = Some "Metformin"
  /\ MasterAgent.therapy_area analysis = None
  /\ MasterAgent.needs_report analysis = false.
Proof. vm_compute. repeat split. Qed.

Example therapy_extraction :
  MasterAgent._extract_therapy_area "Show me the market for Cardiology drugs"
  = Some "Cardiology"
  /\ MasterAgent._extract_drug_name "What is the patent status for Adalimumab?"
     = Some "Adalimumab".
Proof. vm_compute. split; reflexivity. Qed.

Example export_is_trade_and_report :
  MasterAgent.matched_intents (Py.lower "Export trends for APIs to USA")
  = ["trade_analysis"; "report_generation"].
Proof. vm_compute. reflexivity. Qed.


(** * Further properties of the orchestration code *)

(** ** From the analysis to the plan *)
Section AnalysisToPlan.

Import MasterAgent MultiAgentOrchestrator Spec.

Variable rt : PyRuntime.
Variable self : MultiAgentOrchestrator.t.
Variables (query : string) (fmt : OutputFormat) (ic it gr : bool).

Let initial : AgentState.t := create_initial_state query fmt ic it gr.

(** X1. The intents found by the analysis survive their passage through the
    state: the analysis node joins them with a comma and a space, the plan
    node splits that text again, and gets the same list back. *)
Theorem intents_survive_the_state :
  split_intents (_analyze_query_node rt self initial)
  = inr (intents (analyze_query rt query)).
Proof.
  assert (Hall : forallb
                   (fun l => if list_eq_dec string_dec
                                  (Py.split ", " (Py.join ", " l)) l
                             then true else false)
                   possible_intents = true) by (vm_compute; reflexivity).
  rewrite forallb_forall in Hall.
  specialize (Hall _ (analysis_intents_possible rt query)).
  destruct (list_eq_dec string_dec _ _) as [Heq|]; [|discriminate].
  unfold split_intents.
  destruct (analyze_query_node_spec rt self query fmt ic it gr) as (Hq & _).
  fold initial in Hq. rewrite Hq. unfold ret. rewrite Heq. reflexivity.
Qed.

(** X2. The workflow and the analysis agree on the workers: the agents the
    workflow determines are those the analysis maps its intents to, in the
    order of the intents, without the report generator; when nothing is
    left they are the three default workers. *)
Theorem workflow_agents_follow_the_intents :
  _determine_required_agents (_analyze_query_node rt self initial)
  = inr match
          filter (fun a => negb (AgentType_beq a REPORT_GENERATOR))
                 (map_some intent_to_agent (intents (analyze_query rt query)))
        with
        | [] => [IQVIA; CLINICAL_TRIALS; PATENT]
        | agents => agents
        end.
Proof.
  assert (Hall : forallb
                   (fun l =>
                      if list_eq_dec AgentType_eq_dec
                           (agents_listed (Py.join ", " l))
                           match
                             filter (fun a => negb (AgentType_beq a REPORT_GENERATOR))
                                    (map_some intent_to_agent l)
                           with
                           | [] => [IQVIA; CLINICAL_TRIALS; PATENT]
                           | agents => agents
                           end
                      then true else false)
                   possible_intents = true) by (vm_compute; reflexivity).
  rewrite forallb_forall in Hall.
  specialize (Hall _ (analysis_intents_possible rt query)).
  destruct (list_eq_dec AgentType_eq_dec _ _) as [Heq|]; [|discriminate].
  destruct (analyze_query_node_spec rt self query fmt ic it gr) as (Hq & _).
  fold initial in Hq.
  rewrite (determine_agents_listed _ Hq), Heq. reflexivity.
Qed.

End AnalysisToPlan.

(** ** Invariants of the plan *)
Section PlanInvariants.

Import MasterAgent MultiAgentOrchestrator Spec.

Variable rt : PyRuntime.

Lemma worker_tasks_wellformed (analysis : Analysis) (n : nat)
  (agents : list AgentType) :
  Forall (fun task =>
            AgentTask.priority task = _get_task_priority (AgentTask.agent_type task)
            /\ 1 <= AgentTask.priority task <= 5
            /\ AgentTask.status task = PENDING
            /\ AgentTask.parameters task = parameters analysis)
         (worker_tasks rt analysis n agents).
Proof.
  revert n. induction agents as [|a agents IH]; intros n; simpl; constructor.
  - simpl. repeat split; destruct a; simpl; lia.
  - apply IH.
Qed.

(** X3. Every task of a plan is well formed, whatever the analysis: its
    priority is the one the priority table gives its worker and lies between
    1 and 5 (the bounds the task model imposes), and its status is
    pending. *)
Theorem planned_tasks_wellformed (analysis : Analysis) :
  Forall (fun task =>
            AgentTask.priority task = _get_task_priority (AgentTask.agent_type task)
            /\ 1 <= AgentTask.priority task <= 5
            /\ AgentTask.status task = PENDING)
         (create_task_plan rt analysis).
Proof.
  unfold create_task_plan.
  eapply Permutation_Forall; [apply sort_by_perm|].
  unfold unsorted_tasks.
  assert (Hworkers :
            Forall (fun task =>
                      AgentTask.priority task
                      = _get_task_priority (AgentTask.agent_type task)
                      /\ 1 <= AgentTask.priority task <= 5
                      /\ AgentTask.status task = PENDING)
                   (worker_tasks rt analysis 0 (required_agents analysis))).
  { eapply Forall_impl; [|apply worker_tasks_wellformed].
    intros task (Hp & Hb & Hs & _). repeat split; assumption || apply Hb. }
  destruct (needs_report analysis); [|exact Hworkers].
  apply Forall_app. split; [exact Hworkers|].
  constructor; [|constructor]. simpl. repeat split; lia.
Qed.

Lemma worker_task_ids (analysis : Analysis) (n : nat) (agents : list AgentType) :
  map AgentTask.task_id (worker_tasks rt analysis n agents)
  = map (fun i => "task_" ++ uuid4_hex8 rt i)%string (seq n (List.length agents)).
Proof.
  revert n. induction agents as [|a agents IH]; intros n; simpl; [reflexivity|].
  f_equal. apply IH.
Qed.

Lemma worker_tasks_length (analysis : Analysis) (n : nat) (agents : list AgentType) :
  List.length (worker_tasks rt analysis n agents) = List.length agents.
Proof.
  rewrite <- (worker_tasks_targets rt analysis n agents) at 2.
  unfold targets. rewrite length_map. reflexivity.
Qed.

Lemma unsorted_task_ids (analysis : Analysis) :
  exists count,
    count <= S (List.length (required_agents analysis))
    /\ map AgentTask.task_id (unsorted_tasks rt analysis)
       = map (fun i => "task_" ++ uuid4_hex8 rt i)%string (seq 0 count).
Proof.
  unfold unsorted_tasks.
  destruct (needs_report analysis).
  - exists (S (List.length (required_agents analysis))). split; [lia|].
    rewrite map_app, worker_task_ids, seq_S, map_app. simpl.
    rewrite worker_tasks_length. reflexivity.
  - exists (List.length (required_agents analysis)). split; [lia|].
    apply worker_task_ids.
Qed.

Lemma distinct_images (A B : Type) (f : A -> B) (l : list A) :
  NoDup l ->
  (forall x y, In x l -> In y l -> f x = f y -> x = y) ->
  NoDup (map f l).
Proof.
  induction 1 as [|x l Hx Hl IH]; intros Hinj; simpl; constructor.
  - intros Hin. apply in_map_iff in Hin. destruct Hin as (y & Hy & Hin).
    apply Hx. rewrite (Hinj x y); [exact Hin|left; reflexivity|right; exact Hin|].
    symmetry. exact Hy.
  - apply IH. intros a b Ha Hb. apply Hinj; right; assumption.
Qed.

(** X4. The task identifiers of a plan are pairwise distinct as soon as the
    identifiers drawn for it are: one draw per required agent and one for
    the report task. *)
Theorem planned_task_ids_distinct (analysis : Analysis) :
  (forall i j,
      i <= List.length (required_agents analysis) ->
      j <= List.length (required_agents analysis) ->
      uuid4_hex8 rt i = uuid4_hex8 rt j -> i = j) ->
  NoDup (map AgentTask.task_id (create_task_plan rt analysis)).
Proof.
  intros Hdraws. unfold create_task_plan.
  eapply Permutation_NoDup; [apply Permutation_map, sort_by_perm|].
  destruct (unsorted_task_ids analysis) as (count & Hcount & ->).
  apply distinct_images; [apply seq_NoDup|].
  intros i j Hi Hj Heq. apply in_seq in Hi, Hj.
  simpl in Heq. injection Heq as Heq.
  apply Hdraws; [lia|lia|exact Heq].
Qed.

End PlanInvariants.


(** ** Workers derived from BaseAgent *)
Section BaseWorkers.

Import MasterAgent MultiAgentOrchestrator Spec Props.

Variable rt : PyRuntime.
Variable self : MultiAgentOrchestrator.t.
Variable agents : AgentType -> BaseAgent.t.
Hypothesis based : base_registry rt agents self.

(** A response of a [BaseAgent] is completed or failed and carries the
    identifier of the task and the type of the agent. *)
Lemma base_response (agent : BaseAgent.t) (task : AgentTask.t)
  (response : AgentResponse.t) :
  BaseAgent.execute rt agent task = ret response ->
  AgentResponse.task_id response = AgentTask.task_id task
  /\ AgentResponse.agent_type response = BaseAgent.agent_type agent
  /\ (AgentResponse.status response = COMPLETED
      \/ AgentResponse.status response = FAILED).
Proof.
  unfold BaseAgent.execute.
  match goal with
  | |- try_except ?body _ = _ -> _ => destruct body as [[raised|raised]|r] eqn:Hbody
  end; simpl; intros H; try discriminate.
  - injection H as <-. simpl. auto.
  - injection H as <-.
    apply bind_returns in Hbody. destruct Hbody as (returned & _ & Hbody).
    apply bind_returns in Hbody. destruct Hbody as (given & _ & Hbody).
    apply bind_returns in Hbody. destruct Hbody as (content & _ & Hbody).
    injection Hbody as <-. simpl. auto.
Qed.

Let work (plan : list AgentTask.t) : list AgentTask.t :=
  filter (fun task => is_analysis_worker (AgentTask.agent_type task)) plan.

Lemma base_dispatch (plan : list AgentTask.t) :
  match dispatch self plan with
  | inr responses =>
      map AgentResponse.task_id responses = map AgentTask.task_id (work plan)
      /\ map AgentResponse.agent_type responses = targets (work plan)
      /\ Forall (fun response =>
                   AgentResponse.status response = COMPLETED
                   \/ AgentResponse.status response = FAILED)
                responses
  | inl e =>
      exists message task,
        e = Interrupt message
        /\ In task (work plan)
        /\ BaseAgent.execute rt (agents (AgentTask.agent_type task)) task
           = raise (Interrupt message)
  end.
Proof.
  destruct based as [Hregistry Htypes].
  induction plan as [|task plan IH]; simpl; [repeat split; constructor|].
  assert (Hskip :
            is_analysis_worker (AgentTask.agent_type task) = false ->
            (if AgentType_beq (AgentTask.agent_type task) REPORT_GENERATOR
             then dispatch self plan
             else match worker_agents self (AgentTask.agent_type task) with
                  | Some agent =>
                      response <- try_except (execute agent task)
                                    (fun message => ret (failed_response task message)) ;;
                      responses <- dispatch self plan ;;
                      ret (response :: responses)
                  | None => dispatch self plan
                  end) = dispatch self plan).
  { rewrite Hregistry. destruct (AgentTask.agent_type task); simpl;
      intros H; try discriminate; reflexivity. }
  unfold work in *. simpl.
  destruct (is_analysis_worker (AgentTask.agent_type task)) eqn:Hkind.
  - assert (Hworker : worker_agents self (AgentTask.agent_type task)
                      = Some (worker_of rt (agents (AgentTask.agent_type task)))).
    { rewrite Hregistry. destruct (AgentTask.agent_type task);
        try discriminate; reflexivity. }
    assert (Hreport : AgentType_beq (AgentTask.agent_type task) REPORT_GENERATOR
                      = false).
    { destruct (AgentTask.agent_type task); try discriminate; reflexivity. }
    rewrite Hreport, Hworker. simpl execute.
    destruct (BaseAgent.execute rt (agents (AgentTask.agent_type task)) task)
      as [[raised|raised]|response] eqn:Hexec.
    + destruct (base_agent_absorbs _ _ _ Hexec) as (other & Hother). discriminate.
    + simpl. exists raised, task. split; [reflexivity|].
      split; [left; reflexivity|exact Hexec].
    + simpl try_except. simpl bind at 1.
      destruct (dispatch self plan) as [e|responses]; simpl.
      * destruct IH as (message & other & He & Hin & Hother).
        exists message, other. split; [exact He|].
        split; [right; exact Hin|exact Hother].
      * destruct IH as (IHid & IHtype & IHstatus).
        destruct (base_response _ _ Hexec) as (Hid & Htype & Hstatus).
        rewrite Htypes in Htype. unfold targets in *. simpl.
        rewrite Hid, Htype, IHid, IHtype.
        repeat split. constructor; assumption.
  - rewrite (Hskip eq_refl). exact IH.
Qed.

(** X6. With the registry of the orchestrator, the execute node answers
    every task of the plan that targets an analysis worker, in the order of
    the plan and under the identifier and the worker type of the task, with
    a response that is completed or failed, and appends these responses to
    the state; tasks for the report generator (and for the master, which
    has no worker) get no response.  The node raises only when a worker was
    interrupted. *)
Theorem execute_node_follows_the_plan (state : AgentState.t) :
  match _execute_tasks_node self state with
  | inr executed =>
      exists responses,
        AgentState.agent_responses executed
        = AgentState.agent_responses state ++ responses
        /\ map AgentResponse.task_id responses
           = map AgentTask.task_id (work (AgentState.tasks state))
        /\ map AgentResponse.agent_type responses
           = targets (work (AgentState.tasks state))
        /\ Forall (fun response =>
                     AgentResponse.status response = COMPLETED
                     \/ AgentResponse.status response = FAILED)
                  responses
        /\ AgentState.status executed = "executed"%string
        /\ AgentState.tasks executed = AgentState.tasks state
  | inl e =>
      exists message task,
        e = Interrupt message
        /\ In task (work (AgentState.tasks state))
        /\ BaseAgent.execute rt (agents (AgentTask.agent_type task)) task
           = raise (Interrupt message)
  end.
Proof.
  pose proof (base_dispatch (AgentState.tasks state)) as Hdispatch.
  unfold _execute_tasks_node.
  destruct (dispatch self (AgentState.tasks state)) as [e|responses]; simpl;
    [exact Hdispatch|].
  exists responses. destruct Hdispatch as (Hid & Htype & Hstatus).
  repeat split; assumption.
Qed.

End BaseWorkers.

(** ** What a run returns *)
Section RunOutcomes.

Import MasterAgent MultiAgentOrchestrator Spec Props.

Variable rt : PyRuntime.
Variable self : MultiAgentOrchestrator.t.
Variables (query : string) (fmt : OutputFormat) (ic it gr : bool).

Let initial : AgentState.t := create_initial_state query fmt ic it gr.

Variables (executed : AgentState.t) (synthesis : Synthesis) (text : string).
Hypothesis stages_done : run_to_executed rt self initial = ret executed.
Hypothesis synthesis_done : synthesis_of rt self executed = ret synthesis.
Hypothesis formatting_done : format_response rt synthesis it ic = ret text.

(** The state at the conditional edge. *)
Lemma synthesized_state :
  exists synthesized,
    _synthesize_node rt self executed = ret synthesized
    /\ AgentState.final_response synthesized = Some text
    /\ AgentState.agent_responses synthesized = AgentState.agent_responses executed
    /\ AgentState.report_path synthesized = Any.PyNone
    /\ AgentState.generate_report synthesized
       = (needs_report (analyze_query rt query) || gr).
Proof.
  destruct (@run_to_executed_returns rt self query fmt ic it gr executed stages_done)
    as (planned & _ & _ & _ & _ & Hg & _ & Hp & Hit & Hic & _).
  assert (Hnode : exists synthesized,
             _synthesize_node rt self executed = ret synthesized).
  { unfold _synthesize_node. rewrite synthesis_done. simpl bind at 1.
    rewrite Hit, Hic, formatting_done. eexists. reflexivity. }
  destruct Hnode as (synthesized & Hnode). exists synthesized.
  split; [exact Hnode|].
  destruct (@synthesize_node_returns rt self executed synthesized Hnode)
    as (synthesis' & text' & Hs & Hf & Hfinal & Hr & Hg' & Hp' & _).
  rewrite synthesis_done in Hs. injection Hs as <-.
  rewrite Hit, Hic, formatting_done in Hf. injection Hf as <-.
  rewrite Hg', Hp', Hg, Hp. repeat split; assumption.
Qed.

Lemma run_from_synthesized (synthesized : AgentState.t) :
  _synthesize_node rt self executed = ret synthesized ->
  run rt self query fmt ic it gr
  = match finish rt self synthesized with
    | inr final =>
        ret (Succeeded query (AgentState.final_response final)
                       (AgentState.agent_responses final)
                       (AgentState.report_path final)
                       (AgentState.status final))
    | inl (Exception message) => ret (Failed query message "failed")
    | inl (Interrupt message) => raise (Interrupt message)
    end.
Proof.
  intros Hnode. rewrite (run_unfold rt self query fmt ic it gr).
  rewrite (@invoke_after_execute rt self query fmt ic it gr executed stages_done).
  rewrite Hnode. reflexivity.
Qed.

(** X7. In a run without report need (the caller passed generateReport =
    false and the analysis found none) whose stages up to the formatting of
    the synthesis return, the result is success with status completed, no
    report path, the responses of the execute node, and as response exactly
    the formatted synthesis of those responses, without a report note. *)
Theorem run_without_report :
  gr = false ->
  needs_report (analyze_query rt query) = false ->
  run rt self query fmt ic it gr
  = ret (Succeeded query (Some text) (AgentState.agent_responses executed)
                   Any.PyNone "completed").
Proof.
  intros Hgr Hneed.
  destruct synthesized_state as (synthesized & Hnode & Hf & Hr & Hp & Hflag).
  rewrite Hneed, Hgr in Hflag. change (false || false)%bool with false in Hflag.
  rewrite (run_from_synthesized Hnode).
  unfold finish, _should_generate_report. rewrite Hflag.
  change (String.eqb "format_output" "generate_report") with false. cbv iota.
  unfold _format_output_node. rewrite Hf, Hp. simpl. rewrite Hr. reflexivity.
Qed.

(** X8. When the report branch is taken (the caller asked for a report or
    the analysis found the need), the stages up to the formatting of the
    synthesis return, and the report worker answers with a truthy value
    under report_path, the run returns success with status completed, that
    value as report path, the responses of the execute node followed by the
    report worker's response, and the formatted synthesis followed by a
    note naming the path. *)
Theorem run_with_report (report_agent : Worker) (path : Any.t) :
  gr = true \/ needs_report (analyze_query rt query) = true ->
  worker_agents self REPORT_GENERATOR = Some report_agent ->
  (forall task,
      exists response,
        execute report_agent task = ret response
        /\ Any.lookup "report_path" (AgentResponse.data response) = Some path) ->
  Any.truth path = true ->
  exists report_response,
    Any.lookup "report_path" (AgentResponse.data report_response) = Some path
    /\ run rt self query fmt ic it gr
       = ret (Succeeded query
                (Some (text ++ nl ++ Props.report_note (Any.str path))%string)
                (AgentState.agent_responses executed ++ [report_response])
                path "completed").
Proof.
  intros Hflag' Hworker Hanswers Htruthy.
  destruct synthesized_state as (synthesized & Hnode & Hf & Hr & Hp & Hflag).
  assert (Hon : AgentState.generate_report synthesized = true).
  { rewrite Hflag. destruct Hflag' as [-> | ->];
      [apply orb_true_r|reflexivity]. }
  rewrite (run_from_synthesized Hnode).
  unfold finish, _should_generate_report. rewrite Hon.
  change (String.eqb "generate_report" "generate_report") with true.
  cbv iota. unfold _generate_report_node. rewrite Hworker.
  match goal with
  | |- context [execute report_agent ?task] =>
      destruct (Hanswers task) as (response & Hexec & Hpath); rewrite Hexec
  end.
  exists response. split; [exact Hpath|].
  simpl bind. unfold _format_output_node. simpl AgentState.final_response.
  rewrite Hf. simpl AgentState.report_path.
  unfold Any.get. rewrite Hpath, Htruthy. simpl. rewrite Hr. reflexivity.
Qed.

Variable agents : AgentType -> BaseAgent.t.
Hypothesis based : base_registry rt agents self.

(** X9. A failure of report generation is silent: when the report branch
    is taken, the stages up to the formatting of the synthesis return, and
    the report worker, derived from BaseAgent, raises an Exception inside
    [_process_query], the run still returns success with status completed;
    the failed response of the report worker is appended to the responses,
    no report path is returned, and the response is the formatted synthesis
    without a report note. *)
Theorem run_with_failing_report (message : string) :
  gr = true \/ needs_report (analyze_query rt query) = true ->
  (forall instruction parameters,
      BaseAgent._process_query (agents REPORT_GENERATOR) instruction parameters
      = raise (Exception message)) ->
  exists failed,
    AgentResponse.status failed = FAILED
    /\ AgentResponse.error failed = Some message
    /\ AgentResponse.agent_type failed = REPORT_GENERATOR
    /\ run rt self query fmt ic it gr
       = ret (Succeeded query (Some text)
                (AgentState.agent_responses executed ++ [failed])
                Any.PyNone "completed").
Proof.
  intros Hflag' Hraises. destruct based as [Hregistry Htypes].
  destruct synthesized_state as (synthesized & Hnode & Hf & Hr & Hp & Hflag).
  assert (Hon : AgentState.generate_report synthesized = true).
  { rewrite Hflag. destruct Hflag' as [-> | ->];
      [apply orb_true_r|reflexivity]. }
  rewrite (run_from_synthesized Hnode).
  unfold finish, _should_generate_report. rewrite Hon.
  change (String.eqb "generate_report" "generate_report") with true.
  cbv iota. unfold _generate_report_node. rewrite Hregistry.
  change (registry (fun a => worker_of rt (agents a)) REPORT_GENERATOR)
    with (Some (worker_of rt (agents REPORT_GENERATOR))).
  cbv iota.
  match goal with
  | |- context [execute (worker_of rt (agents REPORT_GENERATOR)) ?task] =>
      destruct (@base_agent_failure rt (agents REPORT_GENERATOR) task message
                  (Hraises _ _))
        as (failed & Hexec & Hstatus & Herror & Htype & _ & Hdata);
      change (execute (worker_of rt (agents REPORT_GENERATOR)) task)
        with (BaseAgent.execute rt (agents REPORT_GENERATOR) task);
      rewrite Hexec
  end.
  exists failed. rewrite Htypes in Htype.
  split; [exact Hstatus|]. split; [exact Herror|]. split; [exact Htype|].
  simpl bind. unfold _format_output_node. simpl AgentState.final_response.
  rewrite Hf. simpl AgentState.report_path. rewrite Hdata. simpl.
  rewrite Hr. reflexivity.
Qed.

End RunOutcomes.

(** ** Where a run with BaseAgent workers can fail *)
Section BaseRun.

Import MasterAgent MultiAgentOrchestrator Spec Props.

Variable rt : PyRuntime.
Variable self : MultiAgentOrchestrator.t.
Variable agents : AgentType -> BaseAgent.t.
Hypothesis based : base_registry rt agents self.
Variables (query : string) (fmt : OutputFormat) (ic it gr : bool).

Let initial : AgentState.t := create_initial_state query fmt ic it gr.

(** With the registry of the orchestrator the report node lets nothing but
    an interrupt out. *)
Lemma base_report_node_absorbs (state : AgentState.t) (e : exn) :
  _generate_report_node rt self state = raise e ->
  exists message, e = Interrupt message.
Proof.
  destruct based as [Hregistry _].
  unfold _generate_report_node. rewrite Hregistry.
  change (registry (fun a => worker_of rt (agents a)) REPORT_GENERATOR)
    with (Some (worker_of rt (agents REPORT_GENERATOR))).
  cbv iota. intros H. apply bind_raises in H.
  destruct H as [H | (response & _ & H)]; [|discriminate].
  exact (base_agent_absorbs _ _ _ H).
Qed.

(** X10. With the registry of the orchestrator, whose workers are all
    derived from BaseAgent, a run that returns a result without success has
    failed in the synthesize node: the result carries the message of the
    Exception that node raised (from the formatting of the synthesis, as
    json.dumps on a value it cannot encode).  No other stage makes the run
    fail, whatever the workers raise; a result with success has a response
    text and status completed. *)
Theorem base_run_fails_in_synthesis_only (outcome : RunResult) :
  run rt self query fmt ic it gr = ret outcome ->
  match outcome with
  | Succeeded asked response _ _ status =>
      asked = query /\ status = "completed"%string
      /\ exists text, response = Some text
  | Failed asked raised status =>
      asked = query /\ status = "failed"%string
      /\ exists executed,
           run_to_executed rt self initial = ret executed
           /\ _synthesize_node rt self executed = raise (Exception raised)
  end.
Proof.
  rewrite (run_unfold rt self query fmt ic it gr). fold initial.
  pose proof (invoke_cases rt self query fmt ic it gr) as Hcases.
  fold initial in Hcases.
  destruct (invoke rt self initial) as [[raised|raised]|final];
    cbv beta iota; intros H; unfold ret, raise in H; try discriminate;
    injection H as <-.
  - split; [reflexivity|]. split; [reflexivity|].
    destruct Hcases as [Hexec | (executed & Hexec & [Hsyn | Hreport])].
    + destruct (@run_to_executed_raises rt self query fmt ic it gr _ Hexec)
        as (planned & _ & Hd).
      destruct (dispatch_absorbs _ _ Hd) as (other & Hother). discriminate.
    + exists executed. split; assumption.
    + destruct Hreport as (synthesized & _ & _ & Hnode).
      destruct (base_report_node_absorbs _ Hnode) as (other & Hother).
      discriminate.
  - destruct Hcases as (executed & synthesized & text & _ & _ & _ & Ht & Hs).
    split; [reflexivity|]. split; [exact Hs|]. exists text. exact Ht.
Qed.

End BaseRun.

(** ** The synthesizer and the formatter *)
Section Synthesizer.

Import MasterAgent Spec Props.

Lemma filter_twice (A : Type) (f : A -> bool) (l : list A) :
  filter f (filter f l) = filter f l.
Proof.
  induction l as [|x l IH]; simpl; [reflexivity|].
  destruct (f x) eqn:E; simpl; [rewrite E, IH; reflexivity|exact IH].
Qed.

(** X11. Failed results leave no trace in the synthesis: synthesizing a
    list of worker results gives the same sections, tables, charts,
    references and response as synthesizing its completed results alone. *)
Theorem synthesis_ignores_failed_results (rt : PyRuntime) (self : MasterAgent.t)
  (query : string) (responses : list AgentResponse.t) (fmt : OutputFormat) :
  synthesize_responses rt self query responses fmt
  = synthesize_responses rt self query (filter completed responses) fmt.
Proof. unfold synthesize_responses. rewrite filter_twice. reflexivity. Qed.

Lemma summary_points_app (first second : list AgentSummary) :
  summary_points (first ++ second)
  = summary_points first ++ summary_points second.
Proof.
  induction first as [|s first IH]; simpl; [reflexivity|].
  destruct (meaningful_lines (text s)); simpl; rewrite IH; reflexivity.
Qed.

(** X12. The fallback executive summary is capped at five entries: once
    five summaries have contributed a bullet, no further summary changes
    the text. *)
Theorem fallback_summary_capped (first further : list AgentSummary) :
  5 <= List.length (summary_points first) ->
  fallback_summary (first ++ further) = fallback_summary first.
Proof.
  intros Hfive. unfold fallback_summary. rewrite summary_points_app.
  destruct (summary_points first) as [|point points] eqn:E;
    [simpl in Hfive; lia|].
  change ((point :: points) ++ summary_points further)
    with (point :: (points ++ summary_points further)).
  cbv iota.
  change (point :: points ++ summary_points further)
    with ((point :: points) ++ summary_points further).
  rewrite firstn_app.
  replace (5 - List.length (point :: points)) with 0 by lia.
  simpl firstn at 2. rewrite app_nil_r. reflexivity.
Qed.

(** *** White space around a line *)

Lemma last_char_rev_onto (s acc : string) :
  last_char (Py.rev_onto s acc)
  = match last_char acc with
    | Some c => Some c
    | None => Re.head s
    end.
Proof.
  revert acc. induction s as [|c s IH]; intros acc; simpl.
  - destruct (last_char acc); reflexivity.
  - rewrite IH, last_char_cons. unfold char_before.
    destruct (last_char acc); reflexivity.
Qed.

Lemma head_rev_onto (s acc : string) :
  Re.head (Py.rev_onto s acc)
  = match last_char s with
    | Some c => Some c
    | None => Re.head acc
    end.
Proof.
  revert acc. induction s as [|c s IH]; intros acc; [reflexivity|].
  change (Py.rev_onto (String c s) acc) with (Py.rev_onto s (String c acc)).
  rewrite IH, last_char_cons. unfold char_before.
  destruct (last_char s); reflexivity.
Qed.

Lemma lstrip_head (s : string) :
  match Re.head (Py.lstrip s) with
  | Some c => Py.isspace c = false
  | None => True
  end.
Proof.
  induction s as [|c s IH]; simpl; [exact I|].
  destruct (Py.isspace c) eqn:E; [exact IH|exact E].
Qed.

Lemma lstrip_last (s : string) :
  Py.lstrip s = EmptyString \/ last_char (Py.lstrip s) = last_char s.
Proof.
  induction s as [|c s IH]; simpl; [left; reflexivity|].
  destruct (Py.isspace c); [|right; reflexivity].
  destruct IH as [IH | IH]; [left; exact IH|].
  destruct s; [left; reflexivity|right]. rewrite IH. reflexivity.
Qed.

Lemma strip_trimmed (s : string) : trimmed (Py.strip s).
Proof.
  unfold trimmed, Py.strip, Py.rstrip, Py.rev.
  set (u := Py.lstrip s). set (v := Py.lstrip (Py.rev_onto u EmptyString)).
  rewrite head_rev_onto, last_char_rev_onto. simpl. split.
  - destruct (lstrip_last (Py.rev_onto u EmptyString)) as [Hv | Hv];
      fold v in Hv; rewrite Hv; [exact I|].
    rewrite last_char_rev_onto. simpl.
    pose proof (lstrip_head s) as Hu. fold u in Hu.
    destruct (Re.head u); [exact Hu|exact I].
  - apply lstrip_head.
Qed.

(** X13. Every line the fallback summary may quote is meaningful: it is
    not empty, is not a heading (does not start with a hash sign), and has
    no white space at either end. *)
Theorem meaningful_lines_are_meaningful (summary : string) :
  Forall (fun line =>
            line <> EmptyString
            /\ Py.startswith "#" line = false
            /\ trimmed line)
         (meaningful_lines summary).
Proof.
  unfold meaningful_lines. apply Forall_forall. intros line Hin.
  apply in_map_iff in Hin. destruct Hin as (raw & <- & Hin).
  apply filter_In in Hin. destruct Hin as [_ Hkeep].
  destruct (Py.strip raw) as [|c rest] eqn:E; [discriminate|].
  split; [discriminate|]. split.
  - apply negb_true_iff in Hkeep. exact Hkeep.
  - rewrite <- E. apply strip_trimmed.
Qed.

Lemma firstn_cut (A : Type) (n : nat) (l : list A) :
  firstn n (firstn n l) = firstn n l.
Proof. rewrite firstn_firstn, Nat.min_id. reflexivity. Qed.

Lemma among_first (A : Type) (n : nat) (l : list A) (x : A) :
  In x (firstn n l) -> In x l.
Proof.
  revert l. induction n as [|n IH]; intros l Hin; [contradiction|].
  destruct l as [|y l]; [contradiction|].
  destruct Hin as [-> | Hin]; [left; reflexivity|right; exact (IH l Hin)].
Qed.

Lemma take_cut (n : nat) (s : string) : Py.take n (Py.take n s) = Py.take n s.
Proof.
  revert s. induction n as [|n IH]; intros s; [reflexivity|].
  destruct s as [|c s]; [reflexivity|]. simpl. rewrite IH. reflexivity.
Qed.

(** *** Cutting the rows of a table *)

Lemma first_ten_truth (v : Any.t) : Any.truth (first_ten v) = Any.truth v.
Proof.
  destruct v as [| | | |s|items| |]; try reflexivity.
  - destruct s; reflexivity.
  - destruct items; reflexivity.
Qed.

Lemma first_ten_slice (v : Any.t) : Any.slice 10 (first_ten v) = Any.slice 10 v.
Proof.
  destruct v as [| | | |s|items| |]; try reflexivity.
  - unfold first_ten, Any.slice. rewrite take_cut. reflexivity.
  - unfold first_ten, Any.slice. rewrite firstn_cut. reflexivity.
Qed.

Lemma lookup_cut_rows (key : string) (table : Table) :
  Any.lookup key (cut_rows table)
  = if String.eqb key "rows"
    then option_map first_ten (Any.lookup key table)
    else Any.lookup key table.
Proof.
  induction table as [|[k v] table IH]; simpl.
  - destruct (String.eqb key "rows"); reflexivity.
  - destruct (String.eqb k key) eqn:Ek.
    + apply String.eqb_eq in Ek. subst k.
      destruct (String.eqb key "rows"); reflexivity.
    + exact IH.
Qed.

Lemma render_table_cut (table : Table) :
  render_table (cut_rows table) = render_table table.
Proof.
  unfold render_table, Any.get. rewrite !lookup_cut_rows.
  change (String.eqb "title" "rows") with false.
  change (String.eqb "headers" "rows") with false.
  change (String.eqb "rows" "rows") with true. cbv iota.
  destruct (Any.lookup "rows" table) as [rows|]; simpl option_map; cbv iota;
    [|reflexivity].
  rewrite first_ten_truth, first_ten_slice. reflexivity.
Qed.

Lemma for_each_map (A B C : Type) (f : B -> result C) (g : A -> B) (l : list A) :
  for_each f (map g l) = for_each (fun x => f (g x)) l.
Proof.
  induction l as [|x l IH]; simpl; [reflexivity|]. rewrite IH. reflexivity.
Qed.

Lemma for_each_same (A B : Type) (f g : A -> result B) (l : list A) :
  (forall x, f x = g x) -> for_each f l = for_each g l.
Proof.
  intros Hsame. induction l as [|x l IH]; simpl; [reflexivity|].
  rewrite Hsame, IH. reflexivity.
Qed.

Lemma for_each_returns (A B : Type) (f : A -> result B) (l : list A) :
  Forall (fun x => exists y, f x = ret y) l -> exists ys, for_each f l = ret ys.
Proof.
  induction 1 as [|x l (y & Hy) _ (ys & Hys)]; simpl.
  - exists []. reflexivity.
  - rewrite Hy, Hys. exists (y :: ys). reflexivity.
Qed.

Lemma shown_tables_rendered (all_tables : list Table) :
  for_each render_table (firstn 5 (shown_tables all_tables))
  = for_each render_table (firstn 5 all_tables).
Proof.
  unfold shown_tables. rewrite firstn_map, firstn_cut, for_each_map.
  apply for_each_same. intros table. apply render_table_cut.
Qed.

(** A table built by [_format_table] is rendered without an exception. *)
Lemma render_built_table (table : Table) :
  built table -> exists text, render_table table = ret text.
Proof.
  intros (title & headers & rows & ->).
  unfold render_table, BaseAgent._format_table, Any.get. simpl Any.lookup.
  cbv iota.
  destruct (Any.truth (Any.PyList (map Any.PyStr headers))
            && Any.truth (Any.PyList (map Any.PyList rows)))%bool;
    [|eexists; reflexivity].
  cbn [Any.iter Any.slice bind ret].
  destruct (@for_each_returns Any.t string
              (fun row => cells <- Any.iter row ;; ret (table_line cells))
              (firstn 10 (map Any.PyList rows)))
    as (lines & Hlines).
  { apply Forall_forall. intros row Hin. apply among_first in Hin.
    apply in_map_iff in Hin. destruct Hin as (cells & <- & _).
    eexists. reflexivity. }
  rewrite Hlines. eexists. reflexivity.
Qed.


End Synthesizer.

(** ** Keywords and intents *)
Section Keywords.

Import MasterAgent Spec Props.

Lemma matches_str (keyword : string) : matches_keyword keyword (Re.str keyword).
Proof.
  unfold matches_keyword.
  assert (Hgen : forall (w : string) prev s (k : option ascii -> string -> option string),
             Py.startswith w s = true ->
             (forall p r, k p r <> None) ->
             Re.match_here (Re.str w) prev s k <> None).
  { induction w as [|c w IH]; intros prev s k Hstart Hk; simpl.
    - apply Hk.
    - destruct s as [|x s]; [discriminate|]. simpl in Hstart.
      apply andb_true_iff in Hstart. destruct Hstart as [Hc Hrest].
      rewrite Hc. apply IH; assumption. }
  intros prev s Hstart. apply Hgen; [exact Hstart|]. intros p r. discriminate.
Qed.

Lemma matches_alt_left (keyword : string) (r1 r2 : Re.regex) :
  matches_keyword keyword r1 -> matches_keyword keyword (Re.Alt r1 r2).
Proof.
  intros H prev s Hstart. simpl.
  destruct (Re.match_here r1 prev s _) eqn:E; [discriminate|].
  exfalso. exact (H prev s Hstart E).
Qed.

Lemma matches_alt_right (keyword : string) (r1 r2 : Re.regex) :
  matches_keyword keyword r2 -> matches_keyword keyword (Re.Alt r1 r2).
Proof.
  intros H prev s Hstart. simpl.
  destruct (Re.match_here r1 prev s _); [discriminate|].
  exact (H prev s Hstart).
Qed.

(** A pattern that matches wherever the keyword stands is found in every
    text that contains the keyword. *)
Lemma keyword_found (keyword : string) (pattern : Re.regex) (text : string) :
  matches_keyword keyword pattern ->
  Py.contains keyword text = true ->
  Re.found pattern text = true.
Proof.
  intros Hmatch. unfold Re.found, Re.search.
  generalize (@None ascii) as prev.
  induction text as [|c text IH]; intros prev Hin.
  - simpl in Hin. rewrite orb_false_r in Hin.
    rewrite search_from_unfold.
    destruct (Re.match_here pattern prev EmptyString _) eqn:E; [reflexivity|].
    exfalso. exact (Hmatch prev EmptyString Hin E).
  - rewrite search_from_unfold.
    destruct (Re.match_here pattern prev (String c text) _) eqn:E; [reflexivity|].
    apply IH.
    change (Py.contains keyword (String c text))
      with (Py.startswith keyword (String c text) || Py.contains keyword text) in Hin.
    apply orb_true_iff in Hin. destruct Hin as [Hstart | Hrest]; [|exact Hrest].
    exfalso. exact (Hmatch prev (String c text) Hstart E).
Qed.

Lemma pattern_of_listed (intent : string) (n : nat) (pattern : Re.regex) :
  pattern_of intent n = Some pattern ->
  exists patterns,
    In (intent, patterns) intent_patterns /\ In pattern patterns.
Proof.
  unfold pattern_of.
  destruct (find _ intent_patterns) as [[name patterns]|] eqn:E; [|discriminate].
  intros Hn. apply find_some in E. destruct E as [Hin Hname].
  simpl in Hname. apply String.eqb_eq in Hname. subst name.
  exists patterns. split; [exact Hin|]. eapply nth_error_In. exact Hn.
Qed.

Variable rt : PyRuntime.

Lemma found_pattern_gives_intent (intent : string) (patterns : list Re.regex)
  (pattern : Re.regex) (query : string) :
  In (intent, patterns) intent_patterns ->
  In pattern patterns ->
  Re.found pattern (Py.lower query) = true ->
  In intent (intents (analyze_query rt query)).
Proof.
  intros Hentry Hpattern Hfound.
  assert (Hin : In intent (matched_intents (Py.lower query))).
  { unfold matched_intents. apply in_map_iff. exists (intent, patterns).
    split; [reflexivity|]. apply filter_In. split; [exact Hentry|].
    simpl. apply existsb_exists. exists pattern. split; assumption. }
  simpl intents. destruct (matched_intents (Py.lower query));
    [contradiction|exact Hin].
Qed.

Lemma route (keyword intent : string) (n : nat) (pattern : Re.regex)
  (query : string) :
  pattern_of intent n = Some pattern ->
  matches_keyword keyword pattern ->
  Py.contains keyword (Py.lower query) = true ->
  In intent (intents (analyze_query rt query)).
Proof.
  intros Hn Hmatch Hin.
  destruct (@pattern_of_listed intent n pattern Hn) as (patterns & Hentry & Hpattern).
  apply (@found_pattern_gives_intent intent patterns pattern query Hentry Hpattern).
  apply (@keyword_found keyword pattern (Py.lower query)); assumption.
Qed.

Ltac keyword_alternative :=
  cbn [Re.alts];
  first [ solve [apply matches_str]
        | solve [apply matches_alt_left; keyword_alternative]
        | solve [apply matches_alt_right; keyword_alternative] ].

Ltac route_through n :=
  solve [ eapply (@route _ _ n _ _); [reflexivity| |eassumption];
          keyword_alternative ].

(** X15. Keyword routing: a query that contains one of the single-word
    keywords of the intent patterns, in any letter case and anywhere in the
    text (inside a longer word too), has the intent of that keyword among
    its intents.  The keywords export and download belong to report
    generation, so they set the report-need flag. *)
Theorem keywords_route_to_intents (query keyword intent : string) :
  In (keyword, intent) keyword_routes ->
  Py.contains keyword (Py.lower query) = true ->
  In intent (intents (analyze_query rt query))
  /\ (intent = "report_generation" ->
      needs_report (analyze_query rt query) = true).
Proof.
  intros Hroute Hin.
  assert (Hintent : In intent (intents (analyze_query rt query))).
  { unfold keyword_routes in Hroute. simpl in Hroute.
    repeat (destruct Hroute as [Hroute | Hroute];
            [injection Hroute as <- <-;
             first [route_through 0 | route_through 1 | route_through 2
                   | route_through 3]|]).
    contradiction. }
  split; [exact Hintent|].
  intros ->. rewrite needs_report_unfold.
  apply orb_true_iff. left. apply existsb_exists.
  exists "report_generation"%string. split; [exact Hintent|reflexivity].
Qed.

End Keywords.

(** ** The report data *)
Section ReportData.

Import MasterAgent ReportGeneratorAgent.

(** The synthesis lets nothing but an interrupt of the text-generation
    client out. *)
Lemma synthesis_absorbs (rt : PyRuntime) (m : MasterAgent.t) (text : string)
  (responses : list AgentResponse.t) (mode : OutputFormat) (e : exn) :
  synthesize_responses rt m text responses mode = raise e ->
  exists message, e = Interrupt message.
Proof.
  unfold synthesize_responses. intros H. apply bind_raises in H.
  destruct H as [H | (summary & _ & H)]; [|discriminate].
  unfold _create_executive_summary in H.
  destruct (llm m) as [invoke|]; [|discriminate].
  apply handled_raises in H. destruct H as (message & -> & _).
  exists message. reflexivity.
Qed.

Lemma filter_split_length (A : Type) (f : A -> bool) (l : list A) :
  List.length l
  = List.length (filter f l) + List.length (filter (fun x => negb (f x)) l).
Proof.
  induction l as [|x l IH]; simpl; [reflexivity|].
  destruct (f x); simpl; lia.
Qed.

(** X17. The report has one section per worker result handed to it, failed
    results included, with the result's summary as content; so, for the
    results of a run, it has as many sections as their synthesis has, plus
    one per result that is not completed (the synthesis raises only when
    the text-generation client is interrupted).  Given no result at all it has
    the five sample sections and no table.  Its table and chart counts are
    the lengths of its table and chart lists. *)
Theorem report_sections_cover_all_results (rt : PyRuntime) (self : MasterAgent.t)
  (drawn_id clock title query : string) (fmt : OutputFormat)
  (responses : list AgentResponse.t) :
  let data :=
    _compile_report_data rt drawn_id clock (map AsDict responses) title in
  (responses <> [] ->
   map section_content (report_sections data)
   = map AgentResponse.summary responses
   /\ match synthesize_responses rt self query responses fmt with
      | inr synthesis =>
          List.length (report_sections data)
          = List.length (sections synthesis)
            + List.length (filter (fun r => negb (completed r)) responses)
      | inl e => exists message, e = Interrupt message
      end)
  /\ (responses = [] ->
      report_sections data = sample_sections
      /\ List.length (report_sections data) = 5
      /\ report_tables data = [])
  /\ table_count data = List.length (report_tables data)
  /\ chart_count data = List.length (report_charts data).
Proof.
  intros data. split; [|split; [|split; reflexivity]].
  - intros Hne. destruct responses as [|first rest]; [contradiction|].
    change (report_sections data)
      with (map section_of (map AsDict (first :: rest))).
    split.
    + rewrite !map_map. apply map_ext. intros response. reflexivity.
    + destruct (synthesize_responses rt self query (first :: rest) fmt)
        as [e|synthesis] eqn:Hsynthesis.
      * exact (synthesis_absorbs _ _ _ _ _ Hsynthesis).
      * destruct (synthesis_sections _ _ _ _ _ Hsynthesis) as (Hsections & _).
        rewrite Hsections, !length_map. apply filter_split_length.
  - intros ->. repeat split.
Qed.

End ReportData.

(** ** The default plan, end to end *)
Section DefaultScenario.

Import MasterAgent MultiAgentOrchestrator Spec Props.

Variable rt : PyRuntime.
Variable self : MultiAgentOrchestrator.t.
Variable agents : AgentType -> BaseAgent.t.
Hypothesis based : base_registry rt agents self.
Hypothesis processing :
  forall a instruction parameters,
    exists returned content,
      BaseAgent._process_query (agents a) instruction parameters = ret returned
      /\ content_of returned = Some content.

Lemma base_completes (a : AgentType) (task : AgentTask.t) :
  exists response,
    BaseAgent.execute rt (agents a) task = ret response
    /\ AgentResponse.agent_type response = a
    /\ completed response = true.
Proof.
  destruct based as [_ Htypes].
  destruct (processing a (AgentTask.query task) (AgentTask.parameters task))
    as (returned & content & Hreturned & Hcontent).
  unfold content_of in Hcontent.
  destruct (BaseAgent.read_result returned) as [e|given] eqn:Hread;
    [discriminate|].
  unfold BaseAgent.execute. rewrite Hreturned. simpl bind at 1.
  rewrite Hread. simpl bind at 1. unfold validate. rewrite Hcontent.
  simpl. eexists. split; [reflexivity|]. split; [apply Htypes|reflexivity].
Qed.

Lemma dispatch_all_complete (plan : list AgentTask.t) :
  exists responses,
    dispatch self plan = ret responses
    /\ map AgentResponse.agent_type responses
       = targets
           (filter (fun task => is_analysis_worker (AgentTask.agent_type task)) plan)
    /\ Forall (fun r => completed r = true) responses.
Proof.
  destruct based as [Hregistry Htypes].
  induction plan as [|task plan (responses & IHd & IHtypes & IHdone)]; simpl.
  { exists []. repeat split. constructor. }
  destruct (base_completes (AgentTask.agent_type task) task)
    as (response & Hexec & Htype & Hdone).
  rewrite Hregistry.
  destruct (AgentTask.agent_type task) eqn:Ea; simpl;
    try (exists responses; repeat split; assumption);
    (change (execute (worker_of rt (agents ?a)) task)
       with (BaseAgent.execute rt (agents a) task);
     rewrite Hexec; simpl; rewrite IHd; simpl;
     exists (response :: responses); split; [reflexivity|];
     simpl; rewrite Htype; unfold targets in *; simpl; rewrite ?Ea, IHtypes;
     split; [reflexivity|constructor; assumption]).
Qed.

Lemma filter_all (A : Type) (f : A -> bool) (l : list A) :
  Forall (fun x => f x = true) l -> filter f l = l.
Proof.
  induction 1 as [|x l Hx _ IH]; simpl; [reflexivity|].
  rewrite Hx, IH. reflexivity.
Qed.

Variables (query : string) (fmt : OutputFormat) (ic it gr : bool).

(** X18. A query in which no intent pattern is found is answered by the
    three default workers: with the registry of the orchestrator and
    workers whose processing returns a dictionary of well-typed entries,
    the execute node returns with three completed responses, of the market,
    clinical-trials and patent workers in this order, and the synthesis,
    unless the text-generation client is interrupted, has the three
    sections Iqvia Insights, Clinical Trials and Patent Landscape. *)
Theorem unrecognised_query_gets_default_sections :
  (forall name patterns pattern,
      In (name, patterns) intent_patterns -> In pattern patterns ->
      Re.found pattern (Py.lower query) = false) ->
  let executed := executed_state rt self query fmt ic it gr in
  run_to_executed rt self (create_initial_state query fmt ic it gr) = ret executed
  /\ map AgentResponse.agent_type (AgentState.agent_responses executed)
     = [IQVIA; CLINICAL_TRIALS; PATENT]
  /\ Forall (fun r => AgentResponse.status r = COMPLETED)
            (AgentState.agent_responses executed)
  /\ match synthesis_of rt self executed with
     | inr synthesis =>
         map title (sections synthesis)
         = ["Iqvia Insights"; "Clinical Trials"; "Patent Landscape"]%string
     | inl e => exists message, e = Interrupt message
     end.
Proof.
  intros Hnone executed.
  assert (Hintents : intents (analyze_query rt query) = default_intents).
  { simpl. unfold matched_intents. rewrite filter_nothing; [reflexivity|].
    intros [name patterns] Hin. simpl. apply not_true_is_false. intros Hex.
    apply existsb_exists in Hex. destruct Hex as (pattern & Hp & Hfound).
    rewrite (Hnone name patterns pattern Hin Hp) in Hfound. discriminate. }
  set (analyzed :=
         _analyze_query_node rt self (create_initial_state query fmt ic it gr)).
  destruct (analyze_query_node_spec rt self query fmt ic it gr)
    as (Hq & _ & _ & Hr & _).
  fold analyzed in Hq, Hr. rewrite Hintents in Hq.
  destruct (plan_tasks_node_spec rt self analyzed Hq)
    as (required & planned & analysis & Hd & _ & _ & Hplan & Hreq & _ & Htasks
        & _ & _ & Hr' & _).
  rewrite (determine_agents_listed analyzed Hq) in Hd. injection Hd as Hd.
  assert (Hrequired : required = [IQVIA; CLINICAL_TRIALS; PATENT])
    by (rewrite <- Hd; reflexivity).
  destruct (dispatch_all_complete (AgentState.tasks planned))
    as (responses & Hdispatch & Htypes & Hdone).
  assert (Hnode : exists state,
             _execute_tasks_node self planned = ret state
             /\ AgentState.agent_responses state = responses).
  { unfold _execute_tasks_node. rewrite Hdispatch. simpl.
    eexists. split; [reflexivity|]. simpl. rewrite Hr', Hr. reflexivity. }
  destruct Hnode as (state & Hnode & Hresponses).
  assert (Hrun : run_to_executed rt self (create_initial_state query fmt ic it gr)
                 = ret state).
  { unfold run_to_executed. fold analyzed. rewrite Hplan. exact Hnode. }
  assert (Hexecuted : executed = state).
  { unfold executed, executed_state. rewrite Hrun. reflexivity. }
  rewrite Hexecuted, Hresponses.
  assert (Hwork :
            targets
              (filter (fun task => is_analysis_worker (AgentTask.agent_type task))
                      (AgentState.tasks planned))
            = [IQVIA; CLINICAL_TRIALS; PATENT]).
  { rewrite Htasks. unfold create_task_plan, unsorted_tasks.
    rewrite Hreq, Hrequired. destruct (needs_report analysis); reflexivity. }
  rewrite Hwork in Htypes.
  split; [exact Hrun|]. split; [exact Htypes|]. split.
  - eapply Forall_impl; [|exact Hdone]. intros r Hr0.
    unfold completed in Hr0. destruct (AgentResponse.status r);
      try discriminate. reflexivity.
  - unfold synthesis_of. rewrite Hresponses.
    destruct (synthesize_responses rt (master_agent self)
                (AgentState.user_query state) responses
                (AgentState.output_format state)) as [e|synthesis] eqn:Hsynthesis.
    + exact (@synthesis_absorbs rt _ _ _ _ _ Hsynthesis).
    + destruct (synthesis_sections _ _ _ _ _ Hsynthesis) as (Hsections & _).
      rewrite Hsections, (filter_all _ Hdone), map_map.
      cbn [title].
      rewrite <- (map_map AgentResponse.agent_type
                    (fun a => display_name (AgentType_value a))).
      rewrite Htypes. reflexivity.
Qed.

End DefaultScenario.

(** ** The further properties at concrete inputs *)

Lemma working_registry :
  Props.base_registry Fixtures.rt0 Fixtures.working Fixtures.all_working.
Proof. split; [reflexivity|]. intros a. reflexivity. Qed.

Lemma report_broken_registry :
  Props.base_registry Fixtures.rt0 Samples.report_broken_agents
    Samples.report_broken.
Proof. split; [reflexivity|]. intros a. destruct a; reflexivity. Qed.

Lemma market_dated_registry :
  Props.base_registry Fixtures.rt0 Samples.market_dated_agents
    Samples.market_dated.
Proof. split; [reflexivity|]. intros a. destruct a; reflexivity. Qed.

Lemma planned_task_ids_distinct_witness :
  NoDup (map AgentTask.task_id
             (MasterAgent.create_task_plan Fixtures.rt0 Samples.two_workers)).
Proof.
  apply (@planned_task_ids_distinct Fixtures.rt0 Samples.two_workers).
  intros i j Hi Hj Hsame. simpl in Hi, Hj.
  destruct i as [|[|[|i]]]; destruct j as [|[|[|j]]];
    try lia; try reflexivity; vm_compute in Hsame; discriminate.
Defined.

Lemma execute_node_follows_the_plan_witness :
  exists executed responses,
    MultiAgentOrchestrator._execute_tasks_node Fixtures.all_working
      Samples.two_planned = ret executed
    /\ AgentState.agent_responses executed
       = AgentState.agent_responses Samples.two_planned ++ responses
    /\ map AgentResponse.task_id responses
       = ["task_a1b2c3d0"; "task_a1b2c3d1"]%string
    /\ map AgentResponse.agent_type responses = [IQVIA; PATENT].
Proof.
  pose proof (@execute_node_follows_the_plan Fixtures.rt0 Fixtures.all_working
                Fixtures.working working_registry Samples.two_planned) as Hnode.
  destruct (MultiAgentOrchestrator._execute_tasks_node Fixtures.all_working
              Samples.two_planned) as [e|executed] eqn:Hexec.
  { vm_compute in Hexec. discriminate. }
  destruct Hnode as (responses & Happ & Hids & Htypes & _).
  exists executed, responses.
  split; [reflexivity|]. split; [exact Happ|].
  split; [exact Hids|exact Htypes].
Defined.

Lemma run_without_report_witness :
  exists text responses,
    MultiAgentOrchestrator.run Fixtures.rt0 Fixtures.all_working
      "Tell me about DrugX" TEXT true true false
    = ret (MultiAgentOrchestrator.Succeeded "Tell me about DrugX" (Some text)
             responses Any.PyNone "completed").
Proof.
  eexists _, _.
  eapply (@run_without_report Fixtures.rt0 Fixtures.all_working
            "Tell me about DrugX" TEXT true true false).
  - vm_compute. reflexivity.
  - vm_compute. reflexivity.
  - vm_compute. reflexivity.
  - reflexivity.
  - vm_compute. reflexivity.
Defined.

Lemma run_with_report_witness :
  exists text responses,
    MultiAgentOrchestrator.run Fixtures.rt0 Fixtures.all_working
      "Tell me about DrugX" TEXT true true true
    = ret (MultiAgentOrchestrator.Succeeded "Tell me about DrugX" (Some text)
             responses (Any.PyStr "./reports/report.pdf") "completed").
Proof.
  edestruct (@run_with_report Fixtures.rt0 Fixtures.all_working
               "Tell me about DrugX" TEXT true true true)
    as (report_response & _ & Hrun).
  - vm_compute. reflexivity.
  - vm_compute. reflexivity.
  - vm_compute. reflexivity.
  - left. reflexivity.
  - reflexivity.
  - intros task. eexists. split; vm_compute; reflexivity.
  - reflexivity.
  - eexists _, _. exact Hrun.
Defined.

Lemma run_with_failing_report_witness :
  exists text responses,
    MultiAgentOrchestrator.run Fixtures.rt0 Samples.report_broken
      "Tell me about DrugX" TEXT true true true
    = ret (MultiAgentOrchestrator.Succeeded "Tell me about DrugX" (Some text)
             responses Any.PyNone "completed").
Proof.
  edestruct (@run_with_failing_report Fixtures.rt0 Samples.report_broken
               "Tell me about DrugX" TEXT true true true)
    as (failed & _ & _ & _ & Hrun).
  - vm_compute. reflexivity.
  - vm_compute. reflexivity.
  - vm_compute. reflexivity.
  - exact report_broken_registry.
  - left. reflexivity.
  - intros instruction parameters. reflexivity.
  - eexists _, _. exact Hrun.
Defined.

Lemma base_run_fails_in_synthesis_only_witness :
  exists executed,
    MultiAgentOrchestrator.run_to_executed Fixtures.rt0 Samples.market_dated
      (create_initial_state "Tell me about DrugX" JSON true true false)
    = ret executed
    /\ MultiAgentOrchestrator._synthesize_node Fixtures.rt0 Samples.market_dated
         executed
       = raise (Exception "Object of type date is not JSON serializable").
Proof.
  assert (Hrun : MultiAgentOrchestrator.run Fixtures.rt0 Samples.market_dated
                   "Tell me about DrugX" JSON true true false
                 = ret (MultiAgentOrchestrator.Failed "Tell me about DrugX"
                          "Object of type date is not JSON serializable"
                          "failed"))
    by (vm_compute; reflexivity).
  destruct (@base_run_fails_in_synthesis_only Fixtures.rt0 Samples.market_dated
              Samples.market_dated_agents market_dated_registry
              "Tell me about DrugX" JSON true true false _ Hrun)
    as (_ & _ & executed & Hexec & Hnode).
  exists executed. split; assumption.
Defined.

Lemma fallback_summary_capped_witness :
  MasterAgent.fallback_summary Samples.six_summaries
  = MasterAgent.fallback_summary (firstn 5 Samples.six_summaries).
Proof.
  apply (@fallback_summary_capped (firstn 5 Samples.six_summaries)
           (skipn 5 Samples.six_summaries)).
  apply Nat.leb_le. vm_compute. reflexivity.
Defined.

Lemma keywords_route_to_intents_witness :
  In "report_generation"%string
     (MasterAgent.intents
        (MasterAgent.analyze_query Fixtures.rt0 "EXPORT figures for Aspirin"))
  /\ MasterAgent.needs_report
       (MasterAgent.analyze_query Fixtures.rt0 "EXPORT figures for Aspirin")
     = true.
Proof.
  destruct (@keywords_route_to_intents Fixtures.rt0 "EXPORT figures for Aspirin"
              "export" "report_generation")
    as [Hintent Hneed].
  - unfold Props.keyword_routes. simpl. tauto.
  - vm_compute. reflexivity.
  - split; [exact Hintent|exact (Hneed eq_refl)].
Defined.

Lemma unrecognised_query_gets_default_sections_witness :
  exists synthesis,
    MultiAgentOrchestrator.synthesis_of Fixtures.rt0 Fixtures.all_working
      (Props.executed_state Fixtures.rt0 Fixtures.all_working
         "Tell me about DrugX" TEXT true true false) = ret synthesis
    /\ map title (MasterAgent.sections synthesis)
       = ["Iqvia Insights"; "Clinical Trials"; "Patent Landscape"]%string.
Proof.
  destruct (@unrecognised_query_gets_default_sections Fixtures.rt0
              Fixtures.all_working Fixtures.working working_registry)
    with (query := "Tell me about DrugX"%string) (fmt := TEXT) (ic := true)
         (it := true) (gr := false)
    as (_ & _ & _ & Hsections).
  - intros a instruction parameters. eexists _, _.
    split; vm_compute; reflexivity.
  - apply no_pattern_found. vm_compute. reflexivity.
  - destruct (MultiAgentOrchestrator.synthesis_of Fixtures.rt0
                Fixtures.all_working
                (Props.executed_state Fixtures.rt0 Fixtures.all_working
                   "Tell me about DrugX" TEXT true true false))
      as [e|synthesis] eqn:Hsynthesis.
    + vm_compute in Hsynthesis. discriminate.
    + exists synthesis. split; [reflexivity|exact Hsections].
Defined.

